(** * Andor iXon Ultra 897 camera module (hardware/camera/andor/iXon897_ultra.py)

    A shallow embedding of the [IxonUltra] hardware class: the attributes of
    the instance become a record, every method becomes a function in a small
    state-and-exception monad, and the vendor DLL (reached through ctypes)
    is an oracle whose answer may depend on every call made before.  The
    calls made to the DLL and the records handed to the logger are kept, so
    that "no transport call" and "a warning was logged" are statements about
    the final state of the world. *)

From Stdlib Require Import ZArith List String Bool Lia PrimFloat.
From Stdlib Require Uint63.
Import ListNotations.

Set Warnings "-inexact-float".
Local Open Scope string_scope.
Local Open Scope Z_scope.

(** ** Python values the module manipulates *)

(** Exceptions the modelled methods can raise. *)
Inductive exn :=
| UnboundLocalError   (* a local variable read before any assignment *)
| KeyError            (* ERROR_DICT[code] with an unknown code *)
| TypeError           (* a method called with the wrong number of arguments *)
| ValueError          (* numpy: negative dimension, impossible reshape *)
| AttributeError      (* .value of something that is no enum member *)
| ZeroDivisionError.

Inductive outcome (A : Type) :=
| Return (a : A)
| Raise (e : exn).
Arguments Return {A} a.
Arguments Raise {A} e.

(** Methods such as [start_single_acquisition] return -1, False or True
    from different branches; [set_gain] returns -1 or the stored gain. *)
Inductive pyval :=
| PyInt (z : Z)
| PyBool (b : bool)
| PyFloat (f : float).

(** Python floats are IEEE binary64 numbers and [==] is IEEE equality. *)
Definition py_float_eq (a b : float) : bool := PrimFloat.eqb a b.

(** [x in values] for a list of floats. The list elements come fresh out of
    ctypes, so the identity shortcut of [in] never applies and membership is
    decided by [==] alone. *)
Definition py_in (x : float) (values : list float) : bool :=
  existsb (py_float_eq x) values.

(** [c_int(z).value]: ctypes keeps the low 32 bits, read as a signed number. *)
Definition c_int (z : Z) : Z := (z + 2147483648) mod 4294967296 - 2147483648.

(** ** The enumerations and the error dictionary *)

Definition ReadMode : list (string * Z) :=
  [("FVB", 0); ("MULTI_TRACK", 1); ("RANDOM_TRACK", 2); ("SINGLE_TRACK", 3);
   ("IMAGE", 4)].

Definition AcquisitionMode : list (string * Z) :=
  [("SINGLE_SCAN", 1); ("ACCUMULATE", 2); ("KINETICS", 3); ("FAST_KINETICS", 4);
   ("RUN_TILL_ABORT", 5)].

Definition TriggerMode : list (string * Z) :=
  [("INTERNAL", 0); ("EXTERNAL", 1); ("EXTERNAL_START", 6);
   ("EXTERNAL_EXPOSURE", 7); ("SOFTWARE_TRIGGER", 10);
   ("EXTERNAL_CHARGE_SHIFTING", 12)].

Definition ERROR_DICT : list (Z * string) :=
  [(20001, "DRV_ERROR_CODES"); (20002, "DRV_SUCCESS");
   (20003, "DRV_VXNOTINSTALLED"); (20006, "DRV_ERROR_FILELOAD");
   (20007, "DRV_ERROR_VXD_INIT"); (20010, "DRV_ERROR_PAGELOCK");
   (20011, "DRV_ERROR_PAGE_UNLOCK"); (20013, "DRV_ERROR_ACK");
   (20024, "DRV_NO_NEW_DATA"); (20026, "DRV_SPOOLERROR");
   (20034, "DRV_TEMP_OFF"); (20035, "DRV_TEMP_NOT_STABILIZED");
   (20036, "DRV_TEMP_STABILIZED"); (20037, "DRV_TEMP_NOT_REACHED");
   (20038, "DRV_TEMP_OUT_RANGE"); (20039, "DRV_TEMP_NOT_SUPPORTED");
   (20040, "DRV_TEMP_DRIFT"); (20050, "DRV_COF_NOTLOADED");
   (20053, "DRV_FLEXERROR"); (20066, "DRV_P1INVALID");
   (20067, "DRV_P2INVALID"); (20068, "DRV_P3INVALID");
   (20069, "DRV_P4INVALID"); (20070, "DRV_INIERROR"); (20071, "DRV_COERROR");
   (20072, "DRV_ACQUIRING"); (20073, "DRV_IDLE"); (20074, "DRV_TEMPCYCLE");
   (20075, "DRV_NOT_INITIALIZED"); (20076, "DRV_P5INVALID");
   (20077, "DRV_P6INVALID"); (20078, "DRV_INVALID_MODE");
   (20079, "DRV_INVALID_FILTER"); (20080, "DRV_l2CERRORS");
   (20081, "DRV_DRV_l2CDEVNOTFOUND"); (20082, "DRV_l2CTIMEOUT");
   (20083, "P7_INVALID"); (20089, "DRV_USBERROR"); (20091, "DRV_NOT_SUPPORTED");
   (20095, "DRV_INVALID_TRIGGER_MODE"); (20099, "DRV_BINNING_ERROR");
   (20990, "DRV_NOCAMERA"); (20991, "DRV_NOT_SUPPORTED");
   (20992, "DRV_NOT_AVAILABLE")].

Fixpoint lookup_code (d : list (Z * string)) (code : Z) : option string :=
  match d with
  | [] => None
  | (k, v) :: rest => if k =? code then Some v else lookup_code rest code
  end.

Fixpoint lookup_name (e : list (string * Z)) (name : string) : option Z :=
  match e with
  | [] => None
  | (k, v) :: rest => if String.eqb k name then Some v else lookup_name rest name
  end.

Definition DRV_SUCCESS : string := "DRV_SUCCESS".

(** The one code the dictionary decodes to 'DRV_SUCCESS'. *)
Definition success_code : Z := 20002.

(** ** The instance *)

(** What a successful [_set_image] records of its arguments. The six
    attributes do not exist on the instance before that. *)
Record subimage := {
  _hbin : Z; _vbin : Z; _hstart : Z; _hend : Z; _vstart : Z; _vend : Z
}.

Record camera := {
  _exposure : float;
  _temperature : Z;           (* after a set: the value of the c_int stored *)
  _cooler_on : bool;
  _read_mode : string;
  _acquisition_mode : string;
  _trigger_mode : string;
  _preamp_gain_index : Z;
  _horizontal_readout_index : Z;
  _vertical_readout_index : Z;
  _output_amplifier : Z;
  _gain : float;
  _width : Z;
  _height : Z;
  _min_temperature : Z;
  _live : bool;
  _shutter : string;
  _scans : Z;
  _acquiring : bool;
  _baseline : Z;
  _image : option subimage;
  _cur_image : option (list (list Z))
}.

(** The class attributes, with the defaults of the configuration options. *)
Definition class_defaults : camera := {|
  _exposure := 0.17%float; _temperature := 0; _cooler_on := true;
  _read_mode := "IMAGE"; _acquisition_mode := "SINGLE_SCAN";
  _trigger_mode := "INTERNAL"; _preamp_gain_index := 2;
  _horizontal_readout_index := 0; _vertical_readout_index := 4;
  _output_amplifier := 1; _gain := 0%float; _width := 0; _height := 0;
  _min_temperature := -100; _live := false; _shutter := "closed";
  _scans := 1; _acquiring := false; _baseline := 200;
  _image := None; _cur_image := None
|}.

(** Attribute assignments, one per attribute some method writes. *)
Definition with_exposure (v : float) (c : camera) : camera := {|
  _exposure := v; _temperature := _temperature c; _cooler_on := _cooler_on c;
  _read_mode := _read_mode c; _acquisition_mode := _acquisition_mode c;
  _trigger_mode := _trigger_mode c; _preamp_gain_index := _preamp_gain_index c;
  _horizontal_readout_index := _horizontal_readout_index c;
  _vertical_readout_index := _vertical_readout_index c;
  _output_amplifier := _output_amplifier c; _gain := _gain c;
  _width := _width c; _height := _height c;
  _min_temperature := _min_temperature c; _live := _live c;
  _shutter := _shutter c; _scans := _scans c; _acquiring := _acquiring c;
  _baseline := _baseline c; _image := _image c; _cur_image := _cur_image c |}.

Definition with_temperature (v : Z) (c : camera) : camera := {|
  _exposure := _exposure c; _temperature := v; _cooler_on := _cooler_on c;
  _read_mode := _read_mode c; _acquisition_mode := _acquisition_mode c;
  _trigger_mode := _trigger_mode c; _preamp_gain_index := _preamp_gain_index c;
  _horizontal_readout_index := _horizontal_readout_index c;
  _vertical_readout_index := _vertical_readout_index c;
  _output_amplifier := _output_amplifier c; _gain := _gain c;
  _width := _width c; _height := _height c;
  _min_temperature := _min_temperature c; _live := _live c;
  _shutter := _shutter c; _scans := _scans c; _acquiring := _acquiring c;
  _baseline := _baseline c; _image := _image c; _cur_image := _cur_image c |}.

Definition with_read_mode (v : string) (c : camera) : camera := {|
  _exposure := _exposure c; _temperature := _temperature c;
  _cooler_on := _cooler_on c;
  _read_mode := v; _acquisition_mode := _acquisition_mode c;
  _trigger_mode := _trigger_mode c; _preamp_gain_index := _preamp_gain_index c;
  _horizontal_readout_index := _horizontal_readout_index c;
  _vertical_readout_index := _vertical_readout_index c;
  _output_amplifier := _output_amplifier c; _gain := _gain c;
  _width := _width c; _height := _height c;
  _min_temperature := _min_temperature c; _live := _live c;
  _shutter := _shutter c; _scans := _scans c; _acquiring := _acquiring c;
  _baseline := _baseline c; _image := _image c; _cur_image := _cur_image c |}.

Definition with_acquisition_mode (v : string) (c : camera) : camera := {|
  _exposure := _exposure c; _temperature := _temperature c;
  _cooler_on := _cooler_on c;
  _read_mode := _read_mode c; _acquisition_mode := v;
  _trigger_mode := _trigger_mode c; _preamp_gain_index := _preamp_gain_index c;
  _horizontal_readout_index := _horizontal_readout_index c;
  _vertical_readout_index := _vertical_readout_index c;
  _output_amplifier := _output_amplifier c; _gain := _gain c;
  _width := _width c; _height := _height c;
  _min_temperature := _min_temperature c; _live := _live c;
  _shutter := _shutter c; _scans := _scans c; _acquiring := _acquiring c;
  _baseline := _baseline c; _image := _image c; _cur_image := _cur_image c |}.

Definition with_trigger_mode (v : string) (c : camera) : camera := {|
  _exposure := _exposure c; _temperature := _temperature c;
  _cooler_on := _cooler_on c;
  _read_mode := _read_mode c; _acquisition_mode := _acquisition_mode c;
  _trigger_mode := v; _preamp_gain_index := _preamp_gain_index c;
  _horizontal_readout_index := _horizontal_readout_index c;
  _vertical_readout_index := _vertical_readout_index c;
  _output_amplifier := _output_amplifier c; _gain := _gain c;
  _width := _width c; _height := _height c;
  _min_temperature := _min_temperature c; _live := _live c;
  _shutter := _shutter c; _scans := _scans c; _acquiring := _acquiring c;
  _baseline := _baseline c; _image := _image c; _cur_image := _cur_image c |}.

Definition with_preamp_gain_index (v : Z) (c : camera) : camera := {|
  _exposure := _exposure c; _temperature := _temperature c;
  _cooler_on := _cooler_on c;
  _read_mode := _read_mode c; _acquisition_mode := _acquisition_mode c;
  _trigger_mode := _trigger_mode c; _preamp_gain_index := v;
  _horizontal_readout_index := _horizontal_readout_index c;
  _vertical_readout_index := _vertical_readout_index c;
  _output_amplifier := _output_amplifier c; _gain := _gain c;
  _width := _width c; _height := _height c;
  _min_temperature := _min_temperature c; _live := _live c;
  _shutter := _shutter c; _scans := _scans c; _acquiring := _acquiring c;
  _baseline := _baseline c; _image := _image c; _cur_image := _cur_image c |}.

Definition with_horizontal_readout_index (v : Z) (c : camera) : camera := {|
  _exposure := _exposure c; _temperature := _temperature c;
  _cooler_on := _cooler_on c;
  _read_mode := _read_mode c; _acquisition_mode := _acquisition_mode c;
  _trigger_mode := _trigger_mode c; _preamp_gain_index := _preamp_gain_index c;
  _horizontal_readout_index := v;
  _vertical_readout_index := _vertical_readout_index c;
  _output_amplifier := _output_amplifier c; _gain := _gain c;
  _width := _width c; _height := _height c;
  _min_temperature := _min_temperature c; _live := _live c;
  _shutter := _shutter c; _scans := _scans c; _acquiring := _acquiring c;
  _baseline := _baseline c; _image := _image c; _cur_image := _cur_image c |}.

Definition with_vertical_readout_index (v : Z) (c : camera) : camera := {|
  _exposure := _exposure c; _temperature := _temperature c;
  _cooler_on := _cooler_on c;
  _read_mode := _read_mode c; _acquisition_mode := _acquisition_mode c;
  _trigger_mode := _trigger_mode c; _preamp_gain_index := _preamp_gain_index c;
  _horizontal_readout_index := _horizontal_readout_index c;
  _vertical_readout_index := v;
  _output_amplifier := _output_amplifier c; _gain := _gain c;
  _width := _width c; _height := _height c;
  _min_temperature := _min_temperature c; _live := _live c;
  _shutter := _shutter c; _scans := _scans c; _acquiring := _acquiring c;
  _baseline := _baseline c; _image := _image c; _cur_image := _cur_image c |}.

Definition with_gain (v : float) (c : camera) : camera := {|
  _exposure := _exposure c; _temperature := _temperature c;
  _cooler_on := _cooler_on c;
  _read_mode := _read_mode c; _acquisition_mode := _acquisition_mode c;
  _trigger_mode := _trigger_mode c; _preamp_gain_index := _preamp_gain_index c;
  _horizontal_readout_index := _horizontal_readout_index c;
  _vertical_readout_index := _vertical_readout_index c;
  _output_amplifier := _output_amplifier c; _gain := v;
  _width := _width c; _height := _height c;
  _min_temperature := _min_temperature c; _live := _live c;
  _shutter := _shutter c; _scans := _scans c; _acquiring := _acquiring c;
  _baseline := _baseline c; _image := _image c; _cur_image := _cur_image c |}.

Definition with_width (v : Z) (c : camera) : camera := {|
  _exposure := _exposure c; _temperature := _temperature c;
  _cooler_on := _cooler_on c;
  _read_mode := _read_mode c; _acquisition_mode := _acquisition_mode c;
  _trigger_mode := _trigger_mode c; _preamp_gain_index := _preamp_gain_index c;
  _horizontal_readout_index := _horizontal_readout_index c;
  _vertical_readout_index := _vertical_readout_index c;
  _output_amplifier := _output_amplifier c; _gain := _gain c;
  _width := v; _height := _height c;
  _min_temperature := _min_temperature c; _live := _live c;
  _shutter := _shutter c; _scans := _scans c; _acquiring := _acquiring c;
  _baseline := _baseline c; _image := _image c; _cur_image := _cur_image c |}.

Definition with_height (v : Z) (c : camera) : camera := {|
  _exposure := _exposure c; _temperature := _temperature c;
  _cooler_on := _cooler_on c;
  _read_mode := _read_mode c; _acquisition_mode := _acquisition_mode c;
  _trigger_mode := _trigger_mode c; _preamp_gain_index := _preamp_gain_index c;
  _horizontal_readout_index := _horizontal_readout_index c;
  _vertical_readout_index := _vertical_readout_index c;
  _output_amplifier := _output_amplifier c; _gain := _gain c;
  _width := _width c; _height := v;
  _min_temperature := _min_temperature c; _live := _live c;
  _shutter := _shutter c; _scans := _scans c; _acquiring := _acquiring c;
  _baseline := _baseline c; _image := _image c; _cur_image := _cur_image c |}.

Definition with_live (v : bool) (c : camera) : camera := {|
  _exposure := _exposure c; _temperature := _temperature c;
  _cooler_on := _cooler_on c;
  _read_mode := _read_mode c; _acquisition_mode := _acquisition_mode c;
  _trigger_mode := _trigger_mode c; _preamp_gain_index := _preamp_gain_index c;
  _horizontal_readout_index := _horizontal_readout_index c;
  _vertical_readout_index := _vertical_readout_index c;
  _output_amplifier := _output_amplifier c; _gain := _gain c;
  _width := _width c; _height := _height c;
  _min_temperature := _min_temperature c; _live := v;
  _shutter := _shutter c; _scans := _scans c; _acquiring := _acquiring c;
  _baseline := _baseline c; _image := _image c; _cur_image := _cur_image c |}.

Definition with_shutter (v : string) (c : camera) : camera := {|
  _exposure := _exposure c; _temperature := _temperature c;
  _cooler_on := _cooler_on c;
  _read_mode := _read_mode c; _acquisition_mode := _acquisition_mode c;
  _trigger_mode := _trigger_mode c; _preamp_gain_index := _preamp_gain_index c;
  _horizontal_readout_index := _horizontal_readout_index c;
  _vertical_readout_index := _vertical_readout_index c;
  _output_amplifier := _output_amplifier c; _gain := _gain c;
  _width := _width c; _height := _height c;
  _min_temperature := _min_temperature c; _live := _live c;
  _shutter := v; _scans := _scans c; _acquiring := _acquiring c;
  _baseline := _baseline c; _image := _image c; _cur_image := _cur_image c |}.

Definition with_acquiring (v : bool) (c : camera) : camera := {|
  _exposure := _exposure c; _temperature := _temperature c;
  _cooler_on := _cooler_on c;
  _read_mode := _read_mode c; _acquisition_mode := _acquisition_mode c;
  _trigger_mode := _trigger_mode c; _preamp_gain_index := _preamp_gain_index c;
  _horizontal_readout_index := _horizontal_readout_index c;
  _vertical_readout_index := _vertical_readout_index c;
  _output_amplifier := _output_amplifier c; _gain := _gain c;
  _width := _width c; _height := _height c;
  _min_temperature := _min_temperature c; _live := _live c;
  _shutter := _shutter c; _scans := _scans c; _acquiring := v;
  _baseline := _baseline c; _image := _image c; _cur_image := _cur_image c |}.

Definition with_image (v : option subimage) (c : camera) : camera := {|
  _exposure := _exposure c; _temperature := _temperature c;
  _cooler_on := _cooler_on c;
  _read_mode := _read_mode c; _acquisition_mode := _acquisition_mode c;
  _trigger_mode := _trigger_mode c; _preamp_gain_index := _preamp_gain_index c;
  _horizontal_readout_index := _horizontal_readout_index c;
  _vertical_readout_index := _vertical_readout_index c;
  _output_amplifier := _output_amplifier c; _gain := _gain c;
  _width := _width c; _height := _height c;
  _min_temperature := _min_temperature c; _live := _live c;
  _shutter := _shutter c; _scans := _scans c; _acquiring := _acquiring c;
  _baseline := _baseline c; _image := v; _cur_image := _cur_image c |}.

Definition with_cur_image (v : option (list (list Z))) (c : camera) : camera := {|
  _exposure := _exposure c; _temperature := _temperature c;
  _cooler_on := _cooler_on c;
  _read_mode := _read_mode c; _acquisition_mode := _acquisition_mode c;
  _trigger_mode := _trigger_mode c; _preamp_gain_index := _preamp_gain_index c;
  _horizontal_readout_index := _horizontal_readout_index c;
  _vertical_readout_index := _vertical_readout_index c;
  _output_amplifier := _output_amplifier c; _gain := _gain c;
  _width := _width c; _height := _height c;
  _min_temperature := _min_temperature c; _live := _live c;
  _shutter := _shutter c; _scans := _scans c; _acquiring := _acquiring c;
  _baseline := _baseline c; _image := _image c; _cur_image := v |}.

(** ** The transport and the logger *)

(** The entry points of the DLL the modelled methods call, with their
    arguments as Python hands them over. Output parameters are part of the
    reply. *)
Inductive dll_call :=
| SetReadMode (n_mode : Z)
| SetImage (hbin vbin hstart hend vstart vend : Z)
| SetTriggerMode (n_mode : Z)
| SetAcquisitionMode (n_mode : Z)
| SetExposureTime (exposure : float)
| SetTemperature (temp : Z)
| SetHSSpeed (typ index : Z)
| SetVSSpeed (index : Z)
| SetPreAmpGain (index : Z)
| GetNumberPreAmpGains
| GetPreAmpGain (index : Z)
| SetShutter (typ mode : Z) (closingtime openingtime : float)
| StartAcquisition
| WaitForAcquisition
| AbortAcquisition
| GetStatus
| GetAcquiredData (dim : Z)
| GetOldestImage (dim : Z).

(** What a call answers: the returned status code and what it wrote through
    the pointers it was given (an int, a float, or the image buffer). *)
Record dll_reply := {
  code : Z;
  out_int : Z;
  out_float : float;
  out_buffer : list Z
}.

Inductive level := Debug | Warning | Error.

Inductive logarg :=
| ArgStr (s : string)
| ArgInt (z : Z)
| ArgFloats (l : list float).

(** One call of [self.log]: the level, the format string and the values
    formatted into it. *)
Record log_record := {
  log_level : level;
  log_format : string;
  log_args : list logarg
}.

(** The instance together with what it has done to the outside so far.
    [calls] and [logs] hold the newest entry first. *)
Record world := {
  cam : camera;
  calls : list dll_call;
  logs : list log_record
}.

(** ** The monad of methods *)

Definition M (A : Type) : Type := world -> outcome A * world.

Definition ret {A} (a : A) : M A := fun w => (Return a, w).

Definition raise {A} (e : exn) : M A := fun w => (Raise e, w).

Definition bind {A B} (m : M A) (k : A -> M B) : M B :=
  fun w =>
    match m w with
    | (Return a, w') => k a w'
    | (Raise e, w') => (Raise e, w')
    end.

Notation "x <- m ;; k" := (bind m (fun x => k))
  (at level 61, m at next level, right associativity).
Notation "m ;; k" := (bind m (fun _ => k))
  (at level 61, right associativity).

Definition get_cam : M camera := fun w => (Return (cam w), w).

Definition assign (f : camera -> camera) : M unit :=
  fun w => (Return tt, {| cam := f (cam w); calls := calls w; logs := logs w |}).

Definition log (l : level) (fmt : string) (args : list logarg) : M unit :=
  fun w =>
    (Return tt,
     {| cam := cam w; calls := calls w;
        logs := {| log_level := l; log_format := fmt; log_args := args |}
                  :: logs w |}).

Definition when (b : bool) (m : M unit) : M unit := if b then m else ret tt.

(** Reading a local variable that only some branches assign. *)
Definition read_local {A} (v : option A) : M A :=
  match v with
  | Some a => ret a
  | None => raise UnboundLocalError
  end.

(** [ERROR_DICT[error_code]]. *)
Definition decode (error_code : Z) : M string :=
  match lookup_code ERROR_DICT error_code with
  | Some msg => ret msg
  | None => raise KeyError
  end.

Definition is_success (msg : string) : bool := String.eqb msg DRV_SUCCESS.

Fixpoint for_each {A B} (f : A -> M B) (l : list A) : M (list B) :=
  match l with
  | [] => ret []
  | a :: rest => b <- f a ;; bs <- for_each f rest ;; ret (b :: bs)
  end.

(** [range(n)]. *)
Definition range (n : Z) : list Z := map Z.of_nat (seq 0 (Z.to_nat n)).

(** The first index at which [gain == gain_val], as the enumerate loop of
    [set_gain] finds it. *)
Fixpoint first_index (gain : float) (values : list float) (index : Z)
  : option Z :=
  match values with
  | [] => None
  | gain_val :: rest =>
      if py_float_eq gain gain_val then Some index
      else first_index gain rest (index + 1)
  end.

(** [int(a / b)] on Python ints: true division, then truncation towards
    zero. For operands that come out of c_int values the double quotient
    cannot round across an integer, so the result is the truncated
    quotient. *)
Definition int_truediv (a b : Z) : M Z :=
  if b =? 0 then raise ZeroDivisionError else ret (Z.quot a b).

(** What [hasattr] and [getattr] find under a name on an Enum class. *)
Inductive attribute :=
| Member (value : Z)
| ClassAttribute
| NoAttribute.

(** Calling a method that declares [nparams] parameters besides self. The
    embedding gives every method the parameters of its [def], so the check
    only shows where the source passes something else. *)
Definition py_method {A X} (nparams : nat) (body : M A) (args : list X) : M A :=
  if Nat.eqb (List.length args) nparams then body else raise TypeError.

(** ** numpy *)

(** [np.zeros(dim)]: refuses a negative length. *)
Definition np_zeros (dim : Z) : M (list Z) :=
  if dim <? 0 then raise ValueError else ret (repeat 0 (Z.to_nat dim)).

(** [c_int * dim] followed by the instantiation: refuses a negative
    length; the fresh array holds zeros. *)
Definition c_int_array (dim : Z) : M (list Z) :=
  if dim <? 0 then raise ValueError else ret (repeat 0 (Z.to_nat dim)).

(** The shape [np.reshape(a, (rows, cols))] settles on for a flat array of
    [size] elements: one of the two may be -1 and is then inferred; any
    other negative length is refused; the product must be [size]. *)
Definition reshape_shape (size rows cols : Z) : option (Z * Z) :=
  if (rows =? -1) && (cols =? -1) then None
  else if rows =? -1 then
    if (0 <? cols) && (size mod cols =? 0) then Some (size / cols, cols)
    else None
  else if cols =? -1 then
    if (0 <? rows) && (size mod rows =? 0) then Some (rows, size / rows)
    else None
  else if (rows <? 0) || (cols <? 0) then None
  else if rows * cols =? size then Some (rows, cols)
  else None.

(** Row [i] of a flat array read row-major with rows of [cols] elements. *)
Definition row_of {A} (flat : list A) (cols : nat) (i : nat) : list A :=
  firstn cols (skipn (i * cols) flat).

Definition np_reshape (flat : list Z) (rows cols : Z) : M (list (list Z)) :=
  match reshape_shape (Z.of_nat (List.length flat)) rows cols with
  | Some (r, c) =>
      ret (map (row_of flat (Z.to_nat c)) (seq 0 (Z.to_nat r)))
  | None => raise ValueError
  end.

(** [image_array -= baseline], elementwise. The samples are 32-bit ints
    held in doubles, so the subtraction is exact. *)
Definition subtract_baseline (image : list (list Z)) (baseline : Z)
  : list (list Z) :=
  map (map (fun v => v - baseline)) image.

(** The buffer as it is read back after the DLL wrote into it: it keeps
    its length whatever the DLL did. *)
Definition filled (cimage written : list Z) : list Z :=
  map c_int (firstn (List.length cimage) written)
  ++ skipn (List.length written) cimage.

(** ** The methods of [IxonUltra] *)

Section IxonUltra.

(** The DLL: what a call answers after the calls made so far (newest
    first). *)
Variable dll : list dll_call -> dll_call -> dll_reply.

(** The names every Enum class answers to without their being members
    (special attributes such as the docstring or the member table). *)
Variable enum_class_attribute : string -> bool.

(** [self.dll.f(...)]: the call is made, recorded and answered. *)
Definition invoke (c : dll_call) : M dll_reply :=
  fun w =>
    (Return (dll (calls w) c),
     {| cam := cam w; calls := c :: calls w; logs := logs w |}).

Definition find_attribute (enum : list (string * Z)) (name : string)
  : attribute :=
  match lookup_name enum name with
  | Some v => Member v
  | None => if enum_class_attribute name then ClassAttribute else NoAttribute
  end.

(** *** Non-interface helpers *)

Definition _abort_acquisition : M string :=
  r <- invoke AbortAcquisition ;;
  decode (code r).

Definition _start_acquisition : M string :=
  r <- invoke StartAcquisition ;;
  c <- get_cam ;;
  (if String.eqb (_trigger_mode c) "INTERNAL"
   then (invoke WaitForAcquisition ;; ret tt)
   else ret tt) ;;
  decode (code r).

Definition _set_shutter (typ mode : Z) (closingtime openingtime : float)
  : M string :=
  r <- invoke (SetShutter (c_int typ) (c_int mode) closingtime openingtime) ;;
  decode (code r).

Definition _get_number_preamp_gains : M Z :=
  r <- invoke GetNumberPreAmpGains ;;
  ret (c_int (out_int r)).

Definition _get_preamp_gain (index : Z) : M float :=
  r <- invoke (GetPreAmpGain (c_int index)) ;;
  ret (out_float r).

Definition _set_preamp_gain (index : Z) : M string :=
  r <- invoke (SetPreAmpGain (c_int index)) ;;
  msg <- decode (code r) ;;
  (if is_success msg
   then (assign (with_preamp_gain_index index) ;;
         g <- _get_preamp_gain index ;;
         assign (with_gain g))
   else ret tt) ;;
  decode (code r).

Definition _set_image (hbin vbin hstart hend vstart vend : Z) : M string :=
  let hbin := c_int hbin in
  let vbin := c_int vbin in
  let hstart := c_int hstart in
  let hend := c_int hend in
  let vstart := c_int vstart in
  let vend := c_int vend in
  r <- invoke (SetImage hbin vbin hstart hend vstart vend) ;;
  msg <- decode (code r) ;;
  (if is_success msg
   then (assign (with_image (Some {| _hbin := hbin; _vbin := vbin;
                                     _hstart := hstart; _hend := hend;
                                     _vstart := vstart; _vend := vend |})) ;;
         width <- int_truediv (hend - hstart + 1) hbin ;;
         assign (with_width width) ;;
         height <- int_truediv (vend - vstart + 1) vbin ;;
         assign (with_height height))
   else log Error "Call to SetImage went wrong:{0}" [ArgStr msg]) ;;
  decode (code r).

(** *** Setters *)

Definition _set_read_mode (mode : string) : M Z :=
  error_code <-
    match find_attribute ReadMode mode with
    | NoAttribute => ret None
    | ClassAttribute => raise AttributeError
    | Member n_mode =>
        r <- invoke (SetReadMode (c_int n_mode)) ;;
        (if String.eqb mode "IMAGE"
         then (c <- get_cam ;;
               log Debug "widt:{0}, height:{1}"
                   [ArgInt (_width c); ArgInt (_height c)] ;;
               msg <- _set_image 1 1 1 (_width c) 1 (_height c) ;;
               if negb (is_success msg)
               then (m <- decode (code r) ;; log Warning "{0}" [ArgStr m])
               else ret tt)
         else ret tt) ;;
        ret (Some (code r))
    end ;;
  error_code <- read_local error_code ;;
  msg <- decode error_code ;;
  if negb (is_success msg)
  then (log Warning "Readmode was not set: {0}" [ArgStr msg] ;;
        ret (-1))
  else (assign (with_read_mode mode) ;;
        ret 0).

Definition _set_trigger_mode (mode : string) : M Z :=
  found <-
    match find_attribute TriggerMode mode with
    | Member n_mode =>
        let n_mode := c_int n_mode in
        log Debug "Input to function: {0}" [ArgInt n_mode] ;;
        r <- invoke (SetTriggerMode n_mode) ;;
        ret (0, Some (code r))
    | ClassAttribute => raise AttributeError
    | NoAttribute =>
        log Warning "{0} mode is not supported" [ArgStr mode] ;;
        ret (-1, None)
    end ;;
  let '(check_val, error_code) := found in
  error_code <- read_local error_code ;;
  msg <- decode error_code ;;
  if negb (is_success msg)
  then ret (-1)
  else (assign (with_trigger_mode mode) ;;
        ret check_val).

Definition _set_acquisition_mode (mode : string) : M Z :=
  found <-
    match find_attribute AcquisitionMode mode with
    | Member n_mode =>
        r <- invoke (SetAcquisitionMode (c_int n_mode)) ;;
        ret (0, Some (code r))
    | ClassAttribute => raise AttributeError
    | NoAttribute =>
        log Warning "{0} mode is not supported" [ArgStr mode] ;;
        ret (-1, None)
    end ;;
  let '(check_val, error_code) := found in
  error_code <- read_local error_code ;;
  msg <- decode error_code ;;
  if negb (is_success msg)
  then ret (-1)
  else (assign (with_acquisition_mode mode) ;;
        ret check_val).

Definition _set_temperature (temp : Z) : M string :=
  c <- get_cam ;;
  found <-
    (if _min_temperature c <? temp
     then (r <- invoke (SetTemperature (c_int temp)) ;;
           ret (c_int temp, Some (code r)))
     else (log Error "can not cool below:{0}" [ArgInt (_min_temperature c)] ;;
           ret (temp, None))) ;;
  let '(temp, error_code) := found in
  error_code <- read_local error_code ;;
  msg <- decode error_code ;;
  when (is_success msg) (assign (with_temperature temp)) ;;
  decode error_code.

Definition _set_hs_speed (typ index : Z) : M string :=
  r <- invoke (SetHSSpeed (c_int typ) (c_int index)) ;;
  msg <- decode (code r) ;;
  if negb (is_success msg)
  then (log Error "could not set the horizontal readout speed: {0}"
            [ArgStr msg] ;;
        decode (code r))
  else (assign (with_horizontal_readout_index index) ;;
        decode (code r)).

Definition _set_vs_speed (index : Z) : M string :=
  r <- invoke (SetVSSpeed (c_int index)) ;;
  msg <- decode (code r) ;;
  if negb (is_success msg)
  then (log Error "could not set the vertical readout speed: {0}"
            [ArgStr msg] ;;
        decode (code r))
  else (assign (with_vertical_readout_index index) ;;
        decode (code r)).

Definition set_exposure (exposure : float) : M Z :=
  r <- invoke (SetExposureTime exposure) ;;
  msg <- decode (code r) ;;
  if is_success msg
  then (assign (with_exposure exposure) ;;
        ret 0)
  else (log Warning "unable to set exposure time: {}" [ArgStr msg] ;;
        ret (-1)).

(** The loop that opens [set_gain]: the gain table, read entry by entry. *)
Definition fetch_gain_values : M (list float) :=
  n_pre_amps <- _get_number_preamp_gains ;;
  for_each _get_preamp_gain (range n_pre_amps).

Definition set_gain (gain : float) : M pyval :=
  gain_values <- fetch_gain_values ;;
  if negb (py_in gain gain_values)
  then (log Warning "Given gain value not available. Choose one:{0}"
            [ArgFloats gain_values] ;;
        ret (PyInt (-1)))
  else (gain_index <- read_local (first_index gain gain_values 0) ;;
        msg <- _set_preamp_gain gain_index ;;
        (if is_success msg
         then (assign (with_preamp_gain_index gain_index) ;;
               assign (with_gain gain))
         else log Warning "The gain wasn't set. {0}" [ArgStr msg]) ;;
        c <- get_cam ;;
        ret (PyFloat (_gain c))).

Definition get_gain : M float :=
  c <- get_cam ;;
  ret (_gain c).

(** *** Acquisition *)

Definition start_single_acquisition : M pyval :=
  c <- get_cam ;;
  (if negb (String.eqb (_read_mode c) "IMAGE")
   then (_set_read_mode "IMAGE" ;; ret tt) else ret tt) ;;
  c <- get_cam ;;
  (if negb (String.eqb (_acquisition_mode c) "SINGLE_SCAN")
   then (_set_acquisition_mode "SINGLE_SCAN" ;; ret tt) else ret tt) ;;
  c <- get_cam ;;
  (if negb (String.eqb (_trigger_mode c) "INTERNAL")
   then (_set_trigger_mode "INTERNAL" ;; ret tt) else ret tt) ;;
  c <- get_cam ;;
  (if String.eqb (_shutter c) "closed"
   then (msg <- _set_shutter 0 1 0.1%float 0.1%float ;;
         if is_success msg
         then assign (with_shutter "open")
         else log Error "shutter did not open.{0}" [ArgStr msg])
   else ret tt) ;;
  c <- get_cam ;;
  if _live c
  then ret (PyInt (-1))
  else (assign (with_acquiring true) ;;
        msg <- _start_acquisition ;;
        if negb (is_success msg)
        then ret (PyBool false)
        else (assign (with_acquiring false) ;;
              ret (PyBool true))).

Definition stop_acquisition : M bool :=
  msg <- _abort_acquisition ;;
  if is_success msg
  then (assign (with_live false) ;;
        assign (with_acquiring false) ;;
        ret true)
  else ret false.

(** The assignments to [dim] that open [get_acquired_data]; [None] when
    no branch assigned it. *)
Definition expected_dim : M (option Z) :=
  c <- get_cam ;;
  let width := _width c in
  let height := _height c in
  if String.eqb (_read_mode c) "IMAGE" then
    if String.eqb (_acquisition_mode c) "SINGLE_SCAN" then
      ret (Some (width * height))
    else if String.eqb (_acquisition_mode c) "KINETICS" then
      ret (Some (width * height * _scans c))
    else if String.eqb (_acquisition_mode c) "RUN_TILL_ABORT" then
      ret (Some (width * height))
    else
      (log Error "Your acquisition mode is not covered currently" [] ;;
       ret None)
  else if String.eqb (_read_mode c) "SINGLE_TRACK"
          || String.eqb (_read_mode c) "FVB" then
    if String.eqb (_acquisition_mode c) "SINGLE_SCAN" then
      ret (Some width)
    else if String.eqb (_acquisition_mode c) "KINETICS" then
      ret (Some (width * _scans c))
    else
      ret None
  else
    (log Error "Your acquisition mode is not covered currently" [] ;;
     ret None).

(** The primitive [get_acquired_data] reads the frame with. *)
Definition retrieval_call (c : camera) (dim : Z) : dll_call :=
  if String.eqb (_acquisition_mode c) "RUN_TILL_ABORT"
  then GetOldestImage dim
  else GetAcquiredData dim.

Definition get_acquired_data : M (list (list Z)) :=
  dim <- expected_dim ;;
  dim <- read_local dim ;;
  image_array <- np_zeros dim ;;
  cimage <- c_int_array dim ;;
  c <- get_cam ;;
  r <- invoke (retrieval_call c dim) ;;
  let cimage := filled cimage (out_buffer r) in
  msg <- decode (code r) ;;
  image_array <-
    (if negb (is_success msg)
     then (log Warning "Couldn't retrieve an image. {0}" [ArgStr msg] ;;
           ret image_array)
     else (log Debug "image length {0}"
               [ArgInt (Z.of_nat (List.length cimage))] ;;
           ret cimage)) ;;
  image_array <- np_reshape image_array (_height c) (_width c) ;;
  let image_array := subtract_baseline image_array (_baseline c) in
  assign (with_cur_image (Some image_array)) ;;
  ret image_array.

(** *** Status *)

(** The body of [_get_status], a method with no parameter besides self. *)
Definition _get_status_body : M Z :=
  r <- invoke GetStatus ;;
  msg <- decode (code r) ;;
  if negb (is_success msg)
  then (log Error "unable to retrieve camera status: {0}" [ArgStr msg] ;;
        ret (-1))
  else ret (c_int (out_int r)).

Definition _get_status (args : list Z) : M Z :=
  py_method 0 _get_status_body args.

Definition get_ready_state : M bool :=
  let status := 0 in
  _get_status [status] ;;
  msg <- decode status ;;
  ret (String.eqb msg "DRV_IDLE").

End IxonUltra.

(** ** Further methods on the same transport *)

Section Shutter.

Variable dll : list dll_call -> dll_call -> dll_reply.

(** [shut_time] defaults to 0.1 in the source. *)
Definition _open_shutter (shut_time : float) : M string :=
  error_msg <- _set_shutter dll 0 1 shut_time shut_time ;;
  ret error_msg.

Definition _close_shutter (shut_time : float) : M string :=
  error_msg <- _set_shutter dll 0 2 shut_time shut_time ;;
  ret error_msg.

End Shutter.

(** ** Outcomes of a transport call *)

(** The status code decodes to 'DRV_SUCCESS'. *)
Definition reports_success (r : dll_reply) : Prop := code r = success_code.

(** The status code decodes to some other message of [ERROR_DICT]. *)
Definition reports_failure (r : dll_reply) : Prop :=
  exists msg, lookup_code ERROR_DICT (code r) = Some msg /\ is_success msg = false.

(** Running a method: its result and the world it leaves. *)
Definition result {A} (m : M A) (w : world) : outcome A := fst (m w).
Definition after {A} (m : M A) (w : world) : world := snd (m w).

(** The calls a method added to the record, newest first. *)
Definition made_calls {A} (m : M A) (w : world) : list dll_call :=
  firstn (List.length (calls (after m w)) - List.length (calls w))
         (calls (after m w)).

Definition returned {A} (o : outcome A) : bool :=
  match o with
  | Return _ => true
  | Raise _ => false
  end.

(** The three ways [ERROR_DICT[error_code]] can go. *)
Inductive decoding (error_code : Z) : Prop :=
| decodes_success :
    error_code = success_code ->
    lookup_code ERROR_DICT error_code = Some DRV_SUCCESS ->
    decoding error_code
| decodes_failure (msg : string) :
    error_code <> success_code ->
    lookup_code ERROR_DICT error_code = Some msg ->
    is_success msg = false ->
    decoding error_code
| decodes_nothing :
    error_code <> success_code ->
    lookup_code ERROR_DICT error_code = None ->
    decoding error_code.

(** ** Vocabulary for the setter properties *)

(** The calls that read the gain table. *)
Definition is_table_query (c : dll_call) : bool :=
  match c with GetNumberPreAmpGains | GetPreAmpGain _ => true | _ => false end.

(** The preamplifier-gain table as [set_gain] reads it when called in [w]. *)
Definition gain_table (dll : list dll_call -> dll_call -> dll_reply)
    (w : world) : list float :=
  match result (fetch_gain_values dll) w with
  | Return gain_values => gain_values
  | Raise _ => []
  end.

(** The run of [m] from [w] changed no attribute and called nothing. *)
Definition untouched {A} (m : M A) (w : world) : Prop :=
  cam (after m w) = cam w /\ calls (after m w) = calls w.

(** Two instances that differ at most in what [_set_image] writes: the
    sub-image attributes, the width and the height. *)
Definition same_but_geometry (c c' : camera) : Prop :=
  with_image None (with_width 0 (with_height 0 c'))
  = with_image None (with_width 0 (with_height 0 c)).

(** The combinations of read mode and acquisition mode for which
    [get_acquired_data] assigns a buffer length. *)
Definition dim_assigned (c : camera) : bool :=
  (String.eqb (_read_mode c) "IMAGE"
   && (String.eqb (_acquisition_mode c) "SINGLE_SCAN"
       || String.eqb (_acquisition_mode c) "KINETICS"
       || String.eqb (_acquisition_mode c) "RUN_TILL_ABORT"))
  || ((String.eqb (_read_mode c) "SINGLE_TRACK"
       || String.eqb (_read_mode c) "FVB")
      && (String.eqb (_acquisition_mode c) "SINGLE_SCAN"
          || String.eqb (_acquisition_mode c) "KINETICS")).

(** ** Vocabulary for the acquisition properties *)

(** Every status code the DLL ever returns is a key of [ERROR_DICT]. *)
Definition closed_vocabulary (dll : list dll_call -> dll_call -> dll_reply)
  : Prop :=
  forall history c, lookup_code ERROR_DICT (code (dll history c)) <> None.

(** Neither the start primitive nor the wait that follows it. *)
Definition not_start (c : dll_call) : bool :=
  match c with
  | StartAcquisition | WaitForAcquisition => false
  | _ => true
  end.

(** From [w] to [w']: the live and acquiring flags are as they were and the
    calls added are none of the start primitives. *)
Definition without_start (w w' : world) : Prop :=
  _live (cam w') = _live (cam w)
  /\ _acquiring (cam w') = _acquiring (cam w)
  /\ exists added, calls w' = (added ++ calls w)%list /\ forallb not_start added = true.

(** The settings [start_single_acquisition] forces are already in place and
    the shutter is not closed. *)
Definition normalised (c : camera) : Prop :=
  _read_mode c = "IMAGE" /\ _acquisition_mode c = "SINGLE_SCAN"
  /\ _trigger_mode c = "INTERNAL" /\ _shutter c <> "closed".

(** What the steps that precede the start have in common: they leave the
    flags alone, call neither start primitive, and return whenever the
    status codes are all known. *)
Definition preparing {A} (dll : list dll_call -> dll_call -> dll_reply)
    (m : M A) : Prop :=
  forall w,
    without_start w (after m w)
    /\ (closed_vocabulary dll -> returned (result m w) = true).

(** The DLL answers every call, whatever came before, by success. *)
Definition always_succeeds (dll : list dll_call -> dll_call -> dll_reply)
  : Prop :=
  forall history c, code (dll history c) = success_code.

(** ** The rest of the driver

    The methods below reach entry points of the DLL beyond those above,
    and two of them write attributes the class does not declare. They run
    over a session: the same instance, the two further attributes, and one
    record of every call made, in which the calls of the methods above
    appear in their place. *)

Module Driver.

Inductive entry_point :=
| Core (c : dll_call)
| Initialize
| ShutDown
| GetDetector
| GetAcquisitionTimings
| SetOutputAmplifier (typ : Z)
| CoolerON
| CoolerOFF
| SetFrameTransferMode (mode : Z)
| GetNumberHSSpeeds (channel typ : Z)
| GetHSSpeed (channel typ index : Z)
| GetNumberVSSpeeds
| GetVSSpeed (index : Z).

(** The answer to an entry point: GetDetector writes two ints and
    GetAcquisitionTimings three floats. *)
Record driver_reply := {
  basic : dll_reply;
  out_int2 : Z;
  out_float2 : float;
  out_float3 : float
}.

Record session := {
  instance : camera;
  _accumulate : option float;    (* absent until the timings are read *)
  _kinetic : option float;
  trace : list entry_point;      (* newest first *)
  journal : list log_record
}.

Definition S (A : Type) : Type := session -> outcome A * session.

Definition sret {A} (a : A) : S A := fun s => (Return a, s).

Definition sraise {A} (e : exn) : S A := fun s => (Raise e, s).

Definition sbind {A B} (m : S A) (k : A -> S B) : S B :=
  fun s =>
    match m s with
    | (Return a, s') => k a s'
    | (Raise e, s') => (Raise e, s')
    end.

Declare Scope session_scope.
Notation "x <- m ;; k" := (sbind m (fun x => k))
  (at level 61, m at next level, right associativity) : session_scope.
Notation "m ;; k" := (sbind m (fun _ => k))
  (at level 61, right associativity) : session_scope.
Local Open Scope session_scope.

Definition sget : S camera := fun s => (Return (instance s), s).

Definition sassign (f : camera -> camera) : S unit :=
  fun s =>
    (Return tt,
     {| instance := f (instance s); _accumulate := _accumulate s;
        _kinetic := _kinetic s; trace := trace s; journal := journal s |}).

Definition slog (l : level) (fmt : string) (args : list logarg) : S unit :=
  fun s =>
    (Return tt,
     {| instance := instance s; _accumulate := _accumulate s;
        _kinetic := _kinetic s; trace := trace s;
        journal := {| log_level := l; log_format := fmt; log_args := args |}
                     :: journal s |}).

Definition sdecode (error_code : Z) : S string :=
  match lookup_code ERROR_DICT error_code with
  | Some msg => sret msg
  | None => sraise KeyError
  end.


(** A Python int where a float is expected, for ints a double holds
    exactly (below 2^53 in absolute value). *)
Definition py_float (z : Z) : float :=
  if z <? 0
  then PrimFloat.opp (PrimFloat.of_uint63 (Uint63.of_Z (- z)))
  else PrimFloat.of_uint63 (Uint63.of_Z z).

(** Running a method: its result and the session it leaves. *)
Definition outcome_of {A} (m : S A) (s : session) : outcome A := fst (m s).
Definition session_after {A} (m : S A) (s : session) : session := snd (m s).

Section Methods.

(** The DLL as a whole: what an entry point answers after the calls made
    so far (newest first). *)
Variable driver : list entry_point -> entry_point -> driver_reply.

Variable enum_class_attribute : string -> bool.

Definition call (e : entry_point) : S driver_reply :=
  fun s =>
    (Return (driver (trace s) e),
     {| instance := instance s; _accumulate := _accumulate s;
        _kinetic := _kinetic s; trace := e :: trace s;
        journal := journal s |}).

(** The DLL as a method of the first part sees it when it starts after
    [before]: its own calls come on top of those. *)
Definition core_dll (before : list entry_point)
  : list dll_call -> dll_call -> dll_reply :=
  fun history c => basic (driver (map Core history ++ before) (Core c)).

(** A method of the first part, run in the session. *)
Definition core {A} (m : (list dll_call -> dll_call -> dll_reply) -> M A)
  : S A :=
  fun s =>
    match m (core_dll (trace s))
            {| cam := instance s; calls := []; logs := journal s |} with
    | (o, w) =>
        (o,
         {| instance := cam w; _accumulate := _accumulate s;
            _kinetic := _kinetic s; trace := map Core (calls w) ++ trace s;
            journal := logs w |})
    end.

Definition _shut_down : S string :=
  r <- call ShutDown ;;
  sdecode (code (basic r)).

Definition _set_output_amplifier (typ : Z) : S string :=
  r <- call (SetOutputAmplifier typ) ;;
  sdecode (code (basic r)).

Definition _set_cooler (state : bool) : S string :=
  r <- (if state then call CoolerON else call CoolerOFF) ;;
  sdecode (code (basic r)).

Definition _set_frame_transfer (bool : Datatypes.bool) : S Z :=
  c <- sget ;;
  let acq_mode := _acquisition_mode c in
  if String.eqb acq_mode "SINGLE_SCAN" || String.eqb acq_mode "KINETIC"
  then (slog Debug
             "Setting of frame transfer mode has no effect in acquisition mode 'SINGLE_SCAN' or 'KINETIC'."
             [] ;;
        sret (-1))
  else (r <- (if bool then call (SetFrameTransferMode 1)
              else call (SetFrameTransferMode 0)) ;;
        msg <- sdecode (code (basic r)) ;;
        if is_success msg
        then sret 0
        else (slog Warning "Could not set frame transfer mode:{0}"
                   [ArgStr msg] ;;
              sret (-1))).

Definition _get_detector : S (Z * Z) :=
  r <- call GetDetector ;;
  msg <- sdecode (code (basic r)) ;;
  if negb (is_success msg)
  then (slog Error "unable to retrieve shape of sensor: {0}" [ArgStr msg] ;;
        sret (-1, -1))
  else sret (c_int (out_int (basic r)), c_int (out_int2 r)).

Definition _get_acquisition_timings : S (pyval * pyval * pyval) :=
  r <- call GetAcquisitionTimings ;;
  let exposure := out_float (basic r) in
  let accumulate := out_float2 r in
  let kinetic := out_float3 r in
  (fun s =>
     (Return tt,
      {| instance := with_exposure exposure (instance s);
         _accumulate := Some accumulate; _kinetic := Some kinetic;
         trace := trace s; journal := journal s |})) ;;
  msg <- sdecode (code (basic r)) ;;
  if negb (is_success msg)
  then (slog Warning "unable to query acquisition timings: {0}" [ArgStr msg] ;;
        sret (PyInt (-1), PyInt (-1), PyInt (-1)))
  else sret (PyFloat exposure, PyFloat accumulate, PyFloat kinetic).

Definition get_exposure : S float :=
  _get_acquisition_timings ;;
  c <- sget ;;
  sret (_exposure c).








(** [on_activate], from the loaded library on: what [cdll.LoadLibrary]
    does with the configured path is the loader's business. *)
Definition on_activate : S unit :=
  call Initialize ;;
  size <- _get_detector ;;
  sassign (with_width (fst size)) ;;
  sassign (with_height (snd size)) ;;
  c <- sget ;;
  core (fun dll => _set_read_mode dll enum_class_attribute (_read_mode c)) ;;
  c <- sget ;;
  core (fun dll =>
          _set_trigger_mode dll enum_class_attribute (_trigger_mode c)) ;;
  c <- sget ;;
  core (fun dll => set_exposure dll (_exposure c)) ;;
  c <- sget ;;
  core (fun dll =>
          _set_acquisition_mode dll enum_class_attribute
                                (_acquisition_mode c)) ;;
  c <- sget ;;
  core (fun dll => set_gain dll (py_float (_preamp_gain_index c))) ;;
  c <- sget ;;
  core (fun dll => _set_temperature dll (_temperature c)) ;;
  c <- sget ;;
  _set_cooler (_cooler_on c) ;;
  c <- sget ;;
  _set_output_amplifier (_output_amplifier c) ;;
  c <- sget ;;
  core (fun dll =>
          _set_hs_speed dll (_output_amplifier c)
                        (_horizontal_readout_index c)) ;;
  c <- sget ;;
  core (fun dll => _set_vs_speed dll (_vertical_readout_index c)) ;;
  sret tt.

Definition on_deactivate : S unit :=
  core (fun dll => stop_acquisition dll) ;;
  core (fun dll => _close_shutter dll 0.1%float) ;;
  _shut_down ;;
  sret tt.

End Methods.

End Driver.

(** ** Vocabulary for the geometry *)

(** A value a c_int holds as it is. *)
Definition int32 (z : Z) : Prop := -2147483648 <= z < 2147483648.

(** Run on an instance whose width and height are 32-bit values, [m]
    leaves both as they were, however it ends. *)
Definition keeps_geometry {A} (m : M A) : Prop :=
  forall w,
    int32 (_width (cam w)) -> int32 (_height (cam w)) ->
    _width (cam (after m w)) = _width (cam w)
    /\ _height (cam (after m w)) = _height (cam w).

(** The same for a method of the rest of the driver. *)
Definition session_keeps_geometry {A} (m : Driver.S A) : Prop :=
  forall s,
    int32 (_width (Driver.instance s)) -> int32 (_height (Driver.instance s)) ->
    _width (Driver.instance (Driver.session_after m s))
    = _width (Driver.instance s)
    /\ _height (Driver.instance (Driver.session_after m s))
       = _height (Driver.instance s).

(** ** A simulated device for concrete runs *)

Definition sim_gains : list float := [1%float; 2.4%float; 5.1%float].

(** A device with three preamplifier gains that is idle, hands out frames
    of uniform value 300, and answers [failure] to the calls selected by
    [failing] and success to all others. *)
Definition sim_dll (failing : dll_call -> bool) (failure : Z)
    (history : list dll_call) (c : dll_call) : dll_reply := {|
  code := if failing c then failure else success_code;
  out_int := match c with
             | GetNumberPreAmpGains => 3
             | GetStatus => 20073
             | _ => 0
             end;
  out_float := match c with
               | GetPreAmpGain index => nth (Z.to_nat index) sim_gains 0%float
               | _ => 0%float
               end;
  out_buffer := match c with
                | GetAcquiredData dim | GetOldestImage dim =>
                    repeat 300 (Z.to_nat dim)
                | _ => []
                end
|}.

(** The same device handing out frames whose samples count up from 0. *)
Definition counting_dll (failing : dll_call -> bool) (failure : Z)
    (history : list dll_call) (c : dll_call) : dll_reply := {|
  code := code (sim_dll failing failure history c);
  out_int := out_int (sim_dll failing failure history c);
  out_float := out_float (sim_dll failing failure history c);
  out_buffer := match c with
                | GetAcquiredData dim | GetOldestImage dim =>
                    map Z.of_nat (seq 0 (Z.to_nat dim))
                | _ => []
                end
|}.

Definition never (c : dll_call) : bool := false.

Definition always (c : dll_call) : bool := true.

Definition is_start (c : dll_call) : bool :=
  match c with StartAcquisition => true | _ => false end.

Definition is_abort (c : dll_call) : bool :=
  match c with AbortAcquisition => true | _ => false end.

Definition is_set_image (c : dll_call) : bool :=
  match c with SetImage _ _ _ _ _ _ => true | _ => false end.

Definition is_set_read_mode (c : dll_call) : bool :=
  match c with SetReadMode _ => true | _ => false end.

Definition is_set_preamp_gain (c : dll_call) : bool :=
  match c with SetPreAmpGain _ => true | _ => false end.

Definition is_set_shutter (c : dll_call) : bool :=
  match c with SetShutter _ _ _ _ => true | _ => false end.

Definition is_retrieval (c : dll_call) : bool :=
  match c with GetAcquiredData _ | GetOldestImage _ => true | _ => false end.

(** Special attributes start with two underscores. *)
Definition dunder (name : string) : bool := String.prefix "__" name.

(** A freshly constructed instance: class defaults, nothing called or
    logged yet. *)
Definition fresh (c : camera) : world := {| cam := c; calls := []; logs := [] |}.

(** The instance once [on_activate] has read a [w] x [h] detector. *)
Definition detector (w h : Z) : camera :=
  with_height h (with_width w class_defaults).

(** An instance in read mode [read_mode] that takes [scans] scans per
    kinetic series on a [w] x [h] detector. *)
Definition kinetic_series (read_mode : string) (w h scans : Z) : camera := {|
  _exposure := 0.17%float; _temperature := 0; _cooler_on := true;
  _read_mode := read_mode; _acquisition_mode := "KINETICS";
  _trigger_mode := "INTERNAL"; _preamp_gain_index := 2;
  _horizontal_readout_index := 0; _vertical_readout_index := 4;
  _output_amplifier := 1; _gain := 0%float; _width := w; _height := h;
  _min_temperature := -100; _live := false; _shutter := "closed";
  _scans := scans; _acquiring := false; _baseline := 200;
  _image := None; _cur_image := None
|}.

(** The simulated device behind the whole driver: a 512 x 512 detector,
    timings of 0.25, 0.3 and 0.4 s, three horizontal and five vertical shift
    speeds, answering [failure] to the entry points selected by [failing]. *)
Definition sim_driver (failing : Driver.entry_point -> bool) (failure : Z)
    (history : list Driver.entry_point) (e : Driver.entry_point)
  : Driver.driver_reply := {|
  Driver.basic :=
    match e with
    | Driver.Core c =>
        sim_dll (fun c' => failing (Driver.Core c')) failure [] c
    | _ =>
        {| code := if failing e then failure else success_code;
           out_int := match e with
                      | Driver.GetDetector => 512
                      | Driver.GetNumberHSSpeeds _ _ => 3
                      | Driver.GetNumberVSSpeeds => 5
                      | _ => 0
                      end;
           out_float := match e with
                        | Driver.GetAcquisitionTimings => 0.25%float
                        | Driver.GetHSSpeed _ _ index =>
                            nth (Z.to_nat index)
                                [17%float; 10%float; 5%float] 0%float
                        | Driver.GetVSSpeed _ => 0.5%float
                        | _ => 0%float
                        end;
           out_buffer := [] |}
    end;
  Driver.out_int2 := 512;
  Driver.out_float2 := 0.3%float;
  Driver.out_float3 := 0.4%float
|}.

Definition no_entry (e : Driver.entry_point) : bool := false.

Definition every_entry (e : Driver.entry_point) : bool := true.

Definition is_get_detector (e : Driver.entry_point) : bool :=
  match e with Driver.GetDetector => true | _ => false end.

Definition is_timings (e : Driver.entry_point) : bool :=
  match e with Driver.GetAcquisitionTimings => true | _ => false end.


Definition is_core_abort_or_shutter (e : Driver.entry_point) : bool :=
  match e with
  | Driver.Core AbortAcquisition | Driver.Core (SetShutter _ _ _ _) => true
  | _ => false
  end.

(** A session that starts on instance [c] with nothing called or logged. *)
Definition fresh_session (c : camera) : Driver.session := {|
  Driver.instance := c; Driver._accumulate := None; Driver._kinetic := None;
  Driver.trace := []; Driver.journal := []
|}.

(** * Properties *)

Local Open Scope list_scope.

(** ** Decoding status codes *)

Lemma lookup_success (error_code : Z) :
  lookup_code ERROR_DICT error_code = Some DRV_SUCCESS <->
  error_code = success_code.
Proof.
  unfold success_code. split.
  - unfold ERROR_DICT, lookup_code.
    repeat match goal with
           | |- context [?k =? error_code] =>
               destruct (Z.eqb_spec k error_code); [subst; intros H; inversion H |]
           end; auto; discriminate.
  - intros ->. reflexivity.
Qed.

Lemma lookup_is_success (error_code : Z) (msg : string) :
  lookup_code ERROR_DICT error_code = Some msg ->
  is_success msg = true <-> error_code = success_code.
Proof.
  intros H. unfold is_success. rewrite String.eqb_eq. split.
  - intros ->. now apply lookup_success.
  - intros E. apply lookup_success in E. congruence.
Qed.

Lemma decode_cases (error_code : Z) : decoding error_code.
Proof.
  destruct (lookup_code ERROR_DICT error_code) as [msg|] eqn:E.
  - destruct (is_success msg) eqn:S.
    + pose proof (proj1 (lookup_is_success _ _ E) S) as C.
      apply decodes_success; [exact C | now apply lookup_success].
    + apply decodes_failure with msg; auto.
      intros C. apply (lookup_is_success _ _ E) in C. congruence.
  - apply decodes_nothing; auto.
    intros C. apply lookup_success in C. congruence.
Qed.

Lemma decode_success (error_code : Z) (w : world) :
  error_code = success_code -> decode error_code w = (Return DRV_SUCCESS, w).
Proof. intros ->. reflexivity. Qed.

Lemma decode_failure (error_code : Z) (msg : string) (w : world) :
  lookup_code ERROR_DICT error_code = Some msg ->
  decode error_code w = (Return msg, w).
Proof. unfold decode. now intros ->. Qed.

Lemma is_success_DRV_SUCCESS : is_success DRV_SUCCESS = true.
Proof. reflexivity. Qed.

Arguments lookup_code : simpl never.
Arguments is_success : simpl never.
Arguments c_int : simpl never.

(** Case analysis on what a reply decodes to; every [decode] of it in the
    goal is then run. *)
Ltac decode_reply r :=
  let C := fresh "C" in
  let L := fresh "L" in
  let S := fresh "S" in
  destruct (decode_cases (code r)) as [C L | ? C L S | C L];
  unfold decode; cbn; rewrite ?L; cbn;
  rewrite ?is_success_DRV_SUCCESS, ?S; cbn.

(** ** Stop and abort *)

Section StopAcquisition.

Variable dll : list dll_call -> dll_call -> dll_reply.

(** C7. [stop_acquisition] invokes the abort primitive and nothing else.
    When the primitive reports success, both the live and the acquiring
    flag are cleared (every other attribute is kept) and True is returned;
    when it reports a failure, False is returned and the instance is
    unchanged. When both flags are already clear they are clear
    afterwards, whatever the primitive answered. *)
Theorem stop_acquisition_abort_semantics (w : world) :
  let r := dll (calls w) AbortAcquisition in
  calls (after (stop_acquisition dll) w) = AbortAcquisition :: calls w
  /\ (reports_success r ->
      result (stop_acquisition dll) w = Return true
      /\ cam (after (stop_acquisition dll) w)
         = with_acquiring false (with_live false (cam w))
      /\ _live (cam (after (stop_acquisition dll) w)) = false
      /\ _acquiring (cam (after (stop_acquisition dll) w)) = false)
  /\ (reports_failure r ->
      result (stop_acquisition dll) w = Return false
      /\ cam (after (stop_acquisition dll) w) = cam w)
  /\ (_live (cam w) = false -> _acquiring (cam w) = false ->
      _live (cam (after (stop_acquisition dll) w)) = false
      /\ _acquiring (cam (after (stop_acquisition dll) w)) = false).
Proof.
  intros r. subst r.
  unfold result, after, stop_acquisition, _abort_acquisition, bind, invoke.
  cbn [fst snd calls cam].
  split; [| split; [| split]].
  - decode_reply (dll (calls w) AbortAcquisition); reflexivity.
  - intros Ok. unfold reports_success in Ok.
    rewrite (decode_success _ _ Ok). cbn.
    rewrite is_success_DRV_SUCCESS. cbn. auto.
  - intros (msg & L & S). rewrite (decode_failure _ _ _ L).
    cbn. rewrite S. cbn. auto.
  - intros Hl Ha.
    decode_reply (dll (calls w) AbortAcquisition); cbn; auto.
Qed.

End StopAcquisition.

Lemma stop_acquisition_abort_semantics_witness :
  (result (stop_acquisition (sim_dll never 0))
          (fresh (with_acquiring true (with_live true class_defaults)))
   = Return true
   /\ _live (cam (after (stop_acquisition (sim_dll never 0))
                        (fresh (with_acquiring true
                                  (with_live true class_defaults))))) = false)
  /\ (result (stop_acquisition (sim_dll is_abort 20073))
             (fresh (with_acquiring true class_defaults))
      = Return false
      /\ cam (after (stop_acquisition (sim_dll is_abort 20073))
                    (fresh (with_acquiring true class_defaults)))
         = with_acquiring true class_defaults)
  /\ _live (cam (after (stop_acquisition (sim_dll is_abort 20073))
                       (fresh class_defaults))) = false.
Proof.
  split; [| split].
  - destruct (stop_acquisition_abort_semantics (sim_dll never 0)
                (fresh (with_acquiring true (with_live true class_defaults))))
      as (_ & Ok & _ & _).
    destruct (Ok eq_refl) as (R & _ & L & _). split; [exact R | exact L].
  - destruct (stop_acquisition_abort_semantics (sim_dll is_abort 20073)
                (fresh (with_acquiring true class_defaults)))
      as (_ & _ & Ko & _).
    apply Ko. exists "DRV_IDLE". split; reflexivity.
  - destruct (stop_acquisition_abort_semantics (sim_dll is_abort 20073)
                (fresh class_defaults))
      as (_ & _ & _ & Idle).
    apply (Idle eq_refl eq_refl).
Defined.

(** ** Readiness *)

(** C9. Whatever the state of the camera and whatever the DLL would answer,
    [get_ready_state] raises TypeError: it hands one argument to
    [_get_status], which declares none besides self. Nothing is called,
    logged or changed, and no boolean is ever returned. *)
Theorem get_ready_state_raises_TypeError
    (dll : list dll_call -> dll_call -> dll_reply) (w : world) :
  get_ready_state dll w = (Raise TypeError, w)
  /\ returned (result (get_ready_state dll) w) = false
  /\ calls (after (get_ready_state dll) w) = calls w.
Proof. repeat split. Qed.


(** ** Single acquisition *)

Lemma c_int_small (z : Z) : -2147483648 <= z < 2147483648 -> c_int z = z.
Proof.
  intros H. unfold c_int.
  rewrite Z.mod_small by lia. lia.
Qed.

Lemma without_start_refl (w : world) : without_start w w.
Proof. repeat split. now exists []. Qed.

Lemma without_start_trans (a b c : world) :
  without_start a b -> without_start b c -> without_start a c.
Proof.
  intros (L1 & A1 & l1 & C1 & F1) (L2 & A2 & l2 & C2 & F2).
  repeat split; try congruence.
  exists (l2 ++ l1). split.
  - rewrite C2, C1. now rewrite app_assoc.
  - rewrite forallb_app, F1, F2. reflexivity.
Qed.


(** Unfolds a straight-line method applied to a world. *)
Ltac run :=
  repeat progress
    (unfold result, after, bind, invoke, assign, log, get_cam, ret, raise,
       when, read_local;
     cbn [fst snd cam calls logs negb]).

(** Closes a goal [without_start w w'] between two explicit worlds. *)
Ltac flags_kept :=
  unfold without_start; cbn; repeat split;
  match goal with
  | |- exists added, ?l = added ++ ?t /\ _ =>
      match l with
      | ?a :: ?b :: ?c :: t => exists [a; b; c]
      | ?a :: ?b :: t => exists [a; b]
      | ?a :: t => exists [a]
      | t => exists []
      end; split; reflexivity
  end.

Section Preparation.

Variable dll : list dll_call -> dll_call -> dll_reply.
Variable enum_class_attribute : string -> bool.

Lemma preparing_ret {A} (a : A) : preparing dll (ret a).
Proof. intros w. split; [apply without_start_refl | reflexivity]. Qed.

Lemma preparing_get_cam : preparing dll get_cam.
Proof. intros w. split; [apply without_start_refl | reflexivity]. Qed.

Lemma preparing_bind {A B} (m : M A) (k : A -> M B) :
  preparing dll m -> (forall a, preparing dll (k a)) ->
  preparing dll (bind m k).
Proof.
  intros Hm Hk w. specialize (Hm w).
  unfold result, after, bind in *.
  destruct (m w) as [[a|e] w1]; cbn [fst snd] in *.
  - destruct (Hk a w1) as (S & T). split.
    + eapply without_start_trans; [apply Hm | exact S].
    + exact T.
  - exact Hm.
Qed.

(** The pointwise form: after a preparing step, either the run goes on
    from a world still related to the first, or the step raised (which a
    closed vocabulary excludes). *)
Lemma prepare_then {A B} (m : M A) (k : A -> M B)
    (Q : outcome B -> world -> Prop) (w0 w : world) :
  preparing dll m ->
  without_start w0 w ->
  (forall a w', without_start w0 w' ->
                Q (result (k a) w') (after (k a) w')) ->
  (forall e w', without_start w0 w' -> ~ closed_vocabulary dll ->
                Q (Raise e) w') ->
  Q (result (bind m k) w) (after (bind m k) w).
Proof.
  intros Hm R0 Hk He. specialize (Hm w).
  unfold result, after, bind in *.
  destruct (m w) as [[a|e] w1]; cbn [fst snd] in *.
  - apply Hk. eapply without_start_trans; [exact R0 | apply Hm].
  - apply He.
    + eapply without_start_trans; [exact R0 | apply Hm].
    + intros V. destruct Hm as (_ & T). specialize (T V). discriminate.
Qed.

Lemma preparing_set_shutter (typ mode : Z) (closing opening : float) :
  preparing dll (_set_shutter dll typ mode closing opening).
Proof.
  intros w. unfold _set_shutter. run.
  set (r := dll _ _).
  destruct (decode_cases (code r)) as [C L | msg C L S | C L];
    unfold decode; rewrite L; run;
    (split; [flags_kept |]); try reflexivity.
  intros V. exfalso. exact (V _ _ L).
Qed.

Lemma preparing_set_image (w h : Z) :
  preparing dll (_set_image dll 1 1 1 w 1 h).
Proof.
  intros w0. unfold _set_image, int_truediv.
  rewrite (c_int_small 1) by lia. change (1 =? 0) with false. run.
  set (r := dll _ _).
  destruct (decode_cases (code r)) as [C L | msg C L S | C L];
    unfold decode; rewrite L; run;
    rewrite ?is_success_DRV_SUCCESS, ?S; run; rewrite ?L; run;
    (split; [flags_kept |]); try reflexivity.
  intros V. exfalso. exact (V _ _ L).
Qed.

Lemma preparing_set_read_mode :
  preparing dll (_set_read_mode dll enum_class_attribute "IMAGE").
Proof.
  intros w. unfold _set_read_mode, find_attribute.
  cbn [lookup_name ReadMode String.eqb Ascii.eqb Bool.eqb]. run.
  set (r := dll (calls w) _).
  set (w1 := {| cam := cam w; calls := _ :: calls w; logs := _ :: logs w |}).
  assert (R1 : without_start w w1) by (subst w1; flags_kept).
  destruct (preparing_set_image (_width (cam w)) (_height (cam w)) w1) as (R2 & T2).
  unfold result, after in R2, T2.
  destruct (_set_image dll 1 1 1 (_width (cam w)) 1 (_height (cam w)) w1)
    as [[msg|e] w2]; cbn [fst snd] in R2, T2.
  - destruct (is_success msg); cbn [negb];
      destruct (decode_cases (code r)) as [C L | msg' C L S | C L];
      unfold decode; rewrite ?L; run; rewrite ?L; run;
      rewrite ?is_success_DRV_SUCCESS, ?S; run;
      (split;
       [ eapply without_start_trans;
         [exact R1 | eapply without_start_trans; [exact R2 | flags_kept]]
       | try reflexivity ]);
      intros V; exfalso; exact (V _ _ L).
  - split.
    + eapply without_start_trans; [exact R1 | exact R2].
    + exact T2.
Qed.

Lemma preparing_set_acquisition_mode :
  preparing dll (_set_acquisition_mode dll enum_class_attribute "SINGLE_SCAN").
Proof.
  intros w. unfold _set_acquisition_mode, find_attribute.
  cbn [lookup_name AcquisitionMode String.eqb Ascii.eqb Bool.eqb]. run.
  set (r := dll (calls w) _).
  destruct (decode_cases (code r)) as [C L | msg C L S | C L];
    unfold decode; rewrite L; run;
    rewrite ?is_success_DRV_SUCCESS, ?S; run;
    (split; [flags_kept |]); try reflexivity.
  intros V. exfalso. exact (V _ _ L).
Qed.

Lemma preparing_set_trigger_mode :
  preparing dll (_set_trigger_mode dll enum_class_attribute "INTERNAL").
Proof.
  intros w. unfold _set_trigger_mode, find_attribute.
  cbn [lookup_name TriggerMode String.eqb Ascii.eqb Bool.eqb]. run.
  set (r := dll (calls w) _).
  destruct (decode_cases (code r)) as [C L | msg C L S | C L];
    unfold decode; rewrite L; run;
    rewrite ?is_success_DRV_SUCCESS, ?S; run;
    (split; [flags_kept |]); try reflexivity.
  intros V. exfalso. exact (V _ _ L).
Qed.

Lemma preparing_open_shutter :
  preparing dll
    (msg <- _set_shutter dll 0 1 0.1%float 0.1%float ;;
     if is_success msg
     then assign (with_shutter "open")
     else log Error "shutter did not open.{0}" [ArgStr msg]).
Proof.
  apply preparing_bind; [apply preparing_set_shutter |].
  intros msg w. destruct (is_success msg); run;
    (split; [flags_kept | reflexivity]).
Qed.

Lemma made_calls_added {A} (m : M A) (w : world) (added : list dll_call) :
  calls (after m w) = added ++ calls w -> made_calls m w = added.
Proof.
  intros E. unfold made_calls. rewrite E, length_app.
  replace (List.length added + List.length (calls w) - List.length (calls w))%nat
    with (List.length added + 0)%nat by lia.
  rewrite firstn_app_2. cbn. apply app_nil_r.
Qed.

Lemma without_start_made_calls {A} (m : M A) (w : world) :
  without_start w (after m w) ->
  ~ In StartAcquisition (made_calls m w)
  /\ ~ In WaitForAcquisition (made_calls m w).
Proof.
  intros (_ & _ & added & E & F).
  rewrite (made_calls_added _ _ _ E).
  rewrite forallb_forall in F.
  split; intros I; apply F in I; discriminate.
Qed.

(** C3, as the code has it. With the live flag set,
    [start_single_acquisition] never invokes the start primitive (nor the
    wait that follows it) and leaves the live and acquiring flags as they
    were; whenever it returns it returns -1, and it does return when every
    status code of the DLL is a key of [ERROR_DICT]. The calls that set the
    read mode, the acquisition mode and the trigger mode and that open the
    shutter come before the flag is looked at: only when these settings are
    already in place and the shutter is not closed is no call made at all,
    and then the world is left exactly as it was. *)
Theorem start_single_acquisition_live_never_starts (w : world) :
  _live (cam w) = true ->
  let m := start_single_acquisition dll enum_class_attribute in
  ~ In StartAcquisition (made_calls m w)
  /\ ~ In WaitForAcquisition (made_calls m w)
  /\ _live (cam (after m w)) = true
  /\ _acquiring (cam (after m w)) = _acquiring (cam w)
  /\ (forall v, result m w = Return v -> v = PyInt (-1))
  /\ (closed_vocabulary dll -> result m w = Return (PyInt (-1)))
  /\ (normalised (cam w) -> m w = (Return (PyInt (-1)), w)).
Proof.
  intros Live m.
  pose (Q := fun (o : outcome pyval) (w' : world) =>
               without_start w w'
               /\ (forall v, o = Return v -> v = PyInt (-1))
               /\ (closed_vocabulary dll -> o = Return (PyInt (-1)))).
  assert (Qraise : forall e w', without_start w w' ->
                                ~ closed_vocabulary dll -> Q (Raise e) w').
  { intros e w' R N. repeat split; [apply R .. | discriminate | tauto]. }
  assert (HQ : Q (result m w) (after m w)).
  { subst m. unfold start_single_acquisition.
    apply prepare_then with (w0 := w);
      [apply preparing_get_cam | apply without_start_refl | | exact Qraise].
    intros c1 w1 R1.
    apply prepare_then with (w0 := w); [ | exact R1 | | exact Qraise].
    { destruct (negb _); [| apply preparing_ret].
      apply preparing_bind; [apply preparing_set_read_mode |].
      intros; apply preparing_ret. }
    intros _ w2 R2.
    apply prepare_then with (w0 := w);
      [apply preparing_get_cam | exact R2 | | exact Qraise].
    intros c2 w3 R3.
    apply prepare_then with (w0 := w); [ | exact R3 | | exact Qraise].
    { destruct (negb _); [| apply preparing_ret].
      apply preparing_bind; [apply preparing_set_acquisition_mode |].
      intros; apply preparing_ret. }
    intros _ w4 R4.
    apply prepare_then with (w0 := w);
      [apply preparing_get_cam | exact R4 | | exact Qraise].
    intros c3 w5 R5.
    apply prepare_then with (w0 := w); [ | exact R5 | | exact Qraise].
    { destruct (negb _); [| apply preparing_ret].
      apply preparing_bind; [apply preparing_set_trigger_mode |].
      intros; apply preparing_ret. }
    intros _ w6 R6.
    apply prepare_then with (w0 := w);
      [apply preparing_get_cam | exact R6 | | exact Qraise].
    intros c4 w7 R7.
    apply prepare_then with (w0 := w); [ | exact R7 | | exact Qraise].
    { destruct (String.eqb _ _); [apply preparing_open_shutter |].
      apply preparing_ret. }
    intros _ w8 R8. run.
    destruct R8 as (L8 & R8). rewrite L8, Live.
    cbn [fst snd]. repeat split; try apply R8; try congruence. }
  destruct HQ as (R & V & T).
  destruct (without_start_made_calls m w R) as (NS & NW).
  destruct R as (RL & RA & _).
  repeat split; auto; try congruence.
  intros (Hr & Ha & Ht & Hs). subst m.
  apply String.eqb_neq in Hs.
  unfold start_single_acquisition. run.
  rewrite Hr; cbn. rewrite Ha; cbn. rewrite Ht; cbn. rewrite Hs; cbn.
  rewrite Live. now destruct w.
Qed.

End Preparation.

Lemma start_single_acquisition_live_never_starts_witness :
  ~ In StartAcquisition
      (made_calls (start_single_acquisition (sim_dll never 0) dunder)
                  (fresh (with_live true class_defaults)))
  /\ result (start_single_acquisition (sim_dll never 0) dunder)
            (fresh (with_live true class_defaults))
     = Return (PyInt (-1))
  /\ start_single_acquisition (sim_dll never 0) dunder
       (fresh (with_shutter "open" (with_live true class_defaults)))
     = (Return (PyInt (-1)),
        fresh (with_shutter "open" (with_live true class_defaults))).
Proof.
  split; [| split].
  - apply (start_single_acquisition_live_never_starts (sim_dll never 0) dunder
             (fresh (with_live true class_defaults)) eq_refl).
  - apply (start_single_acquisition_live_never_starts (sim_dll never 0) dunder
             (fresh (with_live true class_defaults)) eq_refl).
    intros history c. cbn. discriminate.
  - apply (start_single_acquisition_live_never_starts (sim_dll never 0) dunder
             (fresh (with_shutter "open" (with_live true class_defaults)))
             eq_refl).
    repeat split. cbn. discriminate.
Defined.

(** C3, as the specification words it, fails on a fresh instance: its
    shutter is closed, so the request made while the live flag is set first
    calls SetShutter on the transport before it is turned down. *)
Lemma start_single_acquisition_live_calls_transport :
  _live (cam (fresh (with_live true class_defaults))) = true
  /\ result (start_single_acquisition (sim_dll never 0) dunder)
            (fresh (with_live true class_defaults))
     = Return (PyInt (-1))
  /\ made_calls (start_single_acquisition (sim_dll never 0) dunder)
                (fresh (with_live true class_defaults))
     = [SetShutter 0 1 0.1%float 0.1%float]
  /\ made_calls (start_single_acquisition (sim_dll never 0) dunder)
                (fresh (with_live true class_defaults))
     <> [].
Proof.
  assert (E : made_calls (start_single_acquisition (sim_dll never 0) dunder)
                (fresh (with_live true class_defaults))
              = [SetShutter 0 1 0.1%float 0.1%float]) by reflexivity.
  repeat split; try assumption. rewrite E. discriminate.
Qed.

(** A postcondition that every raised exception meets holds after [m ;; k]
    as soon as it holds after [k], wherever [k] starts. *)
Lemma bind_post {A B} (P : outcome B -> world -> Prop)
    (m : M A) (k : A -> M B) (w : world) :
  (forall e w1, P (Raise e) w1) ->
  (forall a w1, P (result (k a) w1) (after (k a) w1)) ->
  P (result (bind m k) w) (after (bind m k) w).
Proof.
  intros He Hk. unfold result, after, bind in *.
  destruct (m w) as [[a|e] w1]; cbn [fst snd]; [apply Hk | apply He].
Qed.

Section StartOutcome.

Variable dll : list dll_call -> dll_call -> dll_reply.
Variable enum_class_attribute : string -> bool.

(** C4, as the code has it. When [start_single_acquisition] returns True the
    acquiring flag is cleared; when it returns False (the start primitive
    did not report success) the flag it set just before the start is still
    set. On an instance that is not live and whose settings are already in
    place, a start primitive reporting success gives True with the flag
    cleared, and one reporting a failure gives False with the flag left
    set. *)
Theorem start_single_acquisition_acquiring_flag (w : world) :
  let m := start_single_acquisition dll enum_class_attribute in
  (result m w = Return (PyBool true) -> _acquiring (cam (after m w)) = false)
  /\ (result m w = Return (PyBool false) ->
      _acquiring (cam (after m w)) = true)
  /\ (_live (cam w) = false -> normalised (cam w) ->
      reports_success (dll (calls w) StartAcquisition) ->
      result m w = Return (PyBool true)
      /\ _acquiring (cam (after m w)) = false)
  /\ (_live (cam w) = false -> normalised (cam w) ->
      reports_failure (dll (calls w) StartAcquisition) ->
      result m w = Return (PyBool false)
      /\ _acquiring (cam (after m w)) = true).
Proof.
  intros m.
  assert (G : (result m w = Return (PyBool true) ->
               _acquiring (cam (after m w)) = false)
              /\ (result m w = Return (PyBool false) ->
                  _acquiring (cam (after m w)) = true)).
  { subst m. unfold start_single_acquisition.
    do 8 (apply bind_post; [split; discriminate | intros ? ?]).
    unfold _start_acquisition. run.
    match goal with
    | |- context [_live (cam ?x)] =>
        destruct (_live (cam x)); cbn [fst snd]; [split; discriminate |];
        set (r := dll (calls x) StartAcquisition)
    end.
    destruct (String.eqb _ _); run;
      destruct (decode_cases (code r)) as [C L | msg C L S | C L];
      unfold decode; rewrite L; run;
      rewrite ?is_success_DRV_SUCCESS, ?S; run;
      split; intros E; (discriminate E || reflexivity). }
  destruct G as (G1 & G2).
  repeat split; auto.
  - destruct H0 as (Hr & Ha & Ht & Hs). apply String.eqb_neq in Hs.
    subst m. unfold start_single_acquisition, _start_acquisition. run.
    rewrite Hr; cbn. rewrite Ha; cbn. rewrite Ht; cbn. rewrite Hs; cbn.
    rewrite H; cbn. rewrite Ht; cbn.
    rewrite (decode_success _ _ H1). cbn.
    rewrite is_success_DRV_SUCCESS. reflexivity.
  - apply G1.
    destruct H0 as (Hr & Ha & Ht & Hs). apply String.eqb_neq in Hs.
    subst m. unfold start_single_acquisition, _start_acquisition. run.
    rewrite Hr; cbn. rewrite Ha; cbn. rewrite Ht; cbn. rewrite Hs; cbn.
    rewrite H; cbn. rewrite Ht; cbn.
    rewrite (decode_success _ _ H1). cbn.
    rewrite is_success_DRV_SUCCESS. reflexivity.
  - destruct H0 as (Hr & Ha & Ht & Hs). apply String.eqb_neq in Hs.
    destruct H1 as (msg & L & S).
    subst m. unfold start_single_acquisition, _start_acquisition. run.
    rewrite Hr; cbn. rewrite Ha; cbn. rewrite Ht; cbn. rewrite Hs; cbn.
    rewrite H; cbn. rewrite Ht; cbn.
    rewrite (decode_failure _ _ _ L). cbn. rewrite S. reflexivity.
  - apply G2.
    destruct H0 as (Hr & Ha & Ht & Hs). apply String.eqb_neq in Hs.
    destruct H1 as (msg & L & S).
    subst m. unfold start_single_acquisition, _start_acquisition. run.
    rewrite Hr; cbn. rewrite Ha; cbn. rewrite Ht; cbn. rewrite Hs; cbn.
    rewrite H; cbn. rewrite Ht; cbn.
    rewrite (decode_failure _ _ _ L). cbn. rewrite S. reflexivity.
Qed.

End StartOutcome.

Lemma start_single_acquisition_acquiring_flag_witness :
  (result (start_single_acquisition (sim_dll is_start 20072) dunder)
          (fresh class_defaults)
   = Return (PyBool false)
   /\ _acquiring (cam (after (start_single_acquisition
                                (sim_dll is_start 20072) dunder)
                             (fresh class_defaults))) = true)
  /\ _acquiring (cam (after (start_single_acquisition
                               (sim_dll never 0) dunder)
                            (fresh class_defaults))) = false
  /\ (result (start_single_acquisition (sim_dll never 0) dunder)
             (fresh (with_shutter "open" class_defaults))
      = Return (PyBool true)
      /\ _acquiring (cam (after (start_single_acquisition
                                   (sim_dll never 0) dunder)
                                (fresh (with_shutter "open" class_defaults))))
         = false)
  /\ (result (start_single_acquisition (sim_dll is_start 20072) dunder)
             (fresh (with_shutter "open" class_defaults))
      = Return (PyBool false)
      /\ _acquiring (cam (after (start_single_acquisition
                                   (sim_dll is_start 20072) dunder)
                                (fresh (with_shutter "open" class_defaults))))
         = true).
Proof.
  split; [| split; [| split]].
  - split; [reflexivity |].
    destruct (start_single_acquisition_acquiring_flag
                (sim_dll is_start 20072) dunder (fresh class_defaults))
      as (_ & Failed & _ & _).
    apply Failed. reflexivity.
  - destruct (start_single_acquisition_acquiring_flag
                (sim_dll never 0) dunder (fresh class_defaults))
      as (Started & _ & _ & _).
    apply Started. reflexivity.
  - destruct (start_single_acquisition_acquiring_flag
                (sim_dll never 0) dunder
                (fresh (with_shutter "open" class_defaults)))
      as (_ & _ & Ok & _).
    apply Ok.
    + reflexivity.
    + repeat split. cbn. discriminate.
    + reflexivity.
  - destruct (start_single_acquisition_acquiring_flag
                (sim_dll is_start 20072) dunder
                (fresh (with_shutter "open" class_defaults)))
      as (_ & _ & _ & Ko).
    apply Ko.
    + reflexivity.
    + repeat split. cbn. discriminate.
    + exists "DRV_ACQUIRING". split; reflexivity.
Defined.

(** ** Read mode *)

Section ReadMode.

Variable dll : list dll_call -> dll_call -> dll_reply.
Variable enum_class_attribute : string -> bool.

(** C2, as the code has it. Switching the read mode to 'IMAGE' always
    issues SetReadMode(4) and then SetImage with binning 1 over columns
    1..width and rows 1..height of the current geometry. What is returned
    and whether the new mode is stored follows the status of SetReadMode
    alone: when it reports success, 0 is returned and 'IMAGE' is stored,
    also when SetImage reported a failure (that failure is logged only);
    when it reports a failure, -1 is returned and the stored mode is the
    one from before. *)
Theorem set_read_mode_image_follows_SetReadMode (w : world) :
  let m := _set_read_mode dll enum_class_attribute "IMAGE" in
  let sub_region :=
    SetImage 1 1 1 (c_int (_width (cam w))) 1 (c_int (_height (cam w))) in
  let r_mode := dll (calls w) (SetReadMode 4) in
  let r_image := dll (SetReadMode 4 :: calls w) sub_region in
  calls (after m w) = sub_region :: SetReadMode 4 :: calls w
  /\ (-2147483648 <= _width (cam w) < 2147483648 ->
      -2147483648 <= _height (cam w) < 2147483648 ->
      sub_region = SetImage 1 1 1 (_width (cam w)) 1 (_height (cam w)))
  /\ (reports_success r_mode ->
      reports_success r_image \/ reports_failure r_image ->
      result m w = Return 0 /\ _read_mode (cam (after m w)) = "IMAGE")
  /\ (reports_failure r_mode ->
      reports_success r_image \/ reports_failure r_image ->
      result m w = Return (-1)
      /\ _read_mode (cam (after m w)) = _read_mode (cam w))
  /\ (code r_mode <> success_code ->
      _read_mode (cam (after m w)) = _read_mode (cam w)).
Proof.
  intros m sub_region r_mode r_image.
  assert (E : forall x, m x = _set_read_mode dll enum_class_attribute "IMAGE" x)
    by reflexivity.
  unfold _set_read_mode, find_attribute, _set_image, int_truediv in E.
  cbn [lookup_name ReadMode String.eqb Ascii.eqb Bool.eqb] in E.
  rewrite (c_int_small 1), (c_int_small 4) in E by lia.
  change (1 =? 0) with false in E.
  unfold result, after. rewrite E. clear E. run.
  fold sub_region. fold r_mode. fold r_image.
  split; [| split; [| split; [| split]]].
  - destruct (decode_cases (code r_image)) as [C L | msg C L S | C L];
      unfold decode; rewrite L; run;
      rewrite ?is_success_DRV_SUCCESS, ?S; run; rewrite ?L; run;
      rewrite ?is_success_DRV_SUCCESS, ?S; run; try reflexivity;
      destruct (decode_cases (code r_mode)) as [C' L' | msg' C' L' S' | C' L'];
      rewrite ?L'; run; rewrite ?L'; run;
      rewrite ?is_success_DRV_SUCCESS, ?S'; run; reflexivity.
  - intros Hw Hh. subst sub_region. now rewrite !c_int_small.
  - intros Ok [Ok' | (msg & L & S)].
    + rewrite (decode_success _ _ Ok'); run.
      rewrite is_success_DRV_SUCCESS; run.
      rewrite (decode_success _ _ Ok'); run.
      rewrite is_success_DRV_SUCCESS; run.
      rewrite (decode_success _ _ Ok); run.
      rewrite is_success_DRV_SUCCESS; run. split; reflexivity.
    + rewrite (decode_failure _ _ _ L); run. rewrite S; run.
      rewrite (decode_failure _ _ _ L); run. rewrite S; run.
      rewrite (decode_success _ _ Ok); run.
      rewrite (decode_success _ _ Ok); run.
      rewrite is_success_DRV_SUCCESS; run. split; reflexivity.
  - intros (msg' & L' & S') [Ok' | (msg & L & S)].
    + rewrite (decode_success _ _ Ok'); run.
      rewrite is_success_DRV_SUCCESS; run.
      rewrite (decode_success _ _ Ok'); run.
      rewrite is_success_DRV_SUCCESS; run.
      rewrite (decode_failure _ _ _ L'); run. rewrite S'; run.
      split; reflexivity.
    + rewrite (decode_failure _ _ _ L); run. rewrite S; run.
      rewrite (decode_failure _ _ _ L); run. rewrite S; run.
      rewrite (decode_failure _ _ _ L'); run.
      rewrite (decode_failure _ _ _ L'); run. rewrite S'; run.
      split; reflexivity.
  - intros N.
    destruct (decode_cases (code r_image)) as [C L | msg C L S | C L];
      unfold decode; rewrite L; run;
      rewrite ?is_success_DRV_SUCCESS, ?S; run; rewrite ?L; run;
      rewrite ?is_success_DRV_SUCCESS, ?S; run; try reflexivity;
      (destruct (decode_cases (code r_mode)) as [C' L' | msg' C' L' S' | C' L'];
       [contradiction | |]);
      rewrite ?L'; run; rewrite ?L'; run;
      rewrite ?S'; run; reflexivity.
Qed.

End ReadMode.

Lemma set_read_mode_image_follows_SetReadMode_witness :
  (result (_set_read_mode (sim_dll is_set_image 20067) dunder "IMAGE")
          (fresh (with_read_mode "FVB" (detector 512 512)))
   = Return 0
   /\ _read_mode (cam (after (_set_read_mode (sim_dll is_set_image 20067)
                                             dunder "IMAGE")
                             (fresh (with_read_mode "FVB" (detector 512 512)))))
      = "IMAGE")
  /\ (result (_set_read_mode (sim_dll is_set_read_mode 20078) dunder "IMAGE")
             (fresh (with_read_mode "FVB" (detector 512 512)))
      = Return (-1)
      /\ _read_mode (cam (after (_set_read_mode
                                   (sim_dll is_set_read_mode 20078)
                                   dunder "IMAGE")
                                (fresh (with_read_mode "FVB"
                                          (detector 512 512)))))
         = "FVB")
  /\ SetImage 1 1 1 (c_int 512) 1 (c_int 512) = SetImage 1 1 1 512 1 512.
Proof.
  split; [| split].
  - destruct (set_read_mode_image_follows_SetReadMode
                (sim_dll is_set_image 20067) dunder
                (fresh (with_read_mode "FVB" (detector 512 512))))
      as (_ & _ & Ok & _ & _).
    apply Ok.
    + reflexivity.
    + right. exists "DRV_P2INVALID". split; reflexivity.
  - destruct (set_read_mode_image_follows_SetReadMode
                (sim_dll is_set_read_mode 20078) dunder
                (fresh (with_read_mode "FVB" (detector 512 512))))
      as (_ & _ & _ & Ko & _).
    apply Ko.
    + exists "DRV_INVALID_MODE". split; reflexivity.
    + left. reflexivity.
  - destruct (set_read_mode_image_follows_SetReadMode
                (sim_dll never 0) dunder
                (fresh (with_read_mode "FVB" (detector 512 512))))
      as (_ & Range & _ & _ & _).
    apply Range; cbn; lia.
Defined.

(** C2, as the specification words it, fails: on a 512 x 512 detector in
    read mode 'FVB', with SetReadMode answered by success and SetImage by
    DRV_P2INVALID, the setter returns 0 and stores 'IMAGE'; the mode from
    before is not retained. *)
Lemma set_read_mode_image_ignores_subregion_failure :
  reports_failure
    (sim_dll is_set_image 20067 [SetReadMode 4] (SetImage 1 1 1 512 1 512))
  /\ calls (after (_set_read_mode (sim_dll is_set_image 20067) dunder "IMAGE")
                  (fresh (with_read_mode "FVB" (detector 512 512))))
     = [SetImage 1 1 1 512 1 512; SetReadMode 4]
  /\ result (_set_read_mode (sim_dll is_set_image 20067) dunder "IMAGE")
            (fresh (with_read_mode "FVB" (detector 512 512)))
     = Return 0
  /\ _read_mode (cam (fresh (with_read_mode "FVB" (detector 512 512)))) = "FVB"
  /\ _read_mode (cam (after (_set_read_mode (sim_dll is_set_image 20067)
                                            dunder "IMAGE")
                            (fresh (with_read_mode "FVB" (detector 512 512)))))
     = "IMAGE".
Proof.
  split; [exists "DRV_P2INVALID"; split; reflexivity |].
  repeat split.
Qed.

(** ** Gain *)

Section Gain.

Variable dll : list dll_call -> dll_call -> dll_reply.

Lemma for_each_get_preamp_gain (indices : list Z) (w : world) :
  exists values added,
    for_each (_get_preamp_gain dll) indices w
    = (Return values,
       {| cam := cam w; calls := added ++ calls w; logs := logs w |})
    /\ forallb is_table_query added = true.
Proof.
  revert w. induction indices as [| index rest IH]; intros w.
  - exists [], []. destruct w. split; reflexivity.
  - cbn [for_each]. unfold _get_preamp_gain at 1. run.
    set (w1 := {| cam := cam w; calls := _ :: calls w; logs := logs w |}).
    destruct (IH w1) as (values & added & E & F).
    rewrite E. subst w1. cbn [cam calls logs].
    exists (out_float (dll (calls w) (GetPreAmpGain (c_int index))) :: values),
           (added ++ [GetPreAmpGain (c_int index)]).
    split.
    + now rewrite <- app_assoc.
    + rewrite forallb_app, F. reflexivity.
Qed.

Lemma fetch_gain_values_runs (w : world) :
  exists added,
    fetch_gain_values dll w
    = (Return (gain_table dll w),
       {| cam := cam w; calls := added ++ calls w; logs := logs w |})
    /\ forallb is_table_query added = true.
Proof.
  unfold gain_table, result, fetch_gain_values, _get_number_preamp_gains. run.
  set (n := c_int _).
  set (w1 := {| cam := cam w; calls := _ :: calls w; logs := logs w |}).
  destruct (for_each_get_preamp_gain (range n) w1) as (values & added & E & F).
  rewrite E. subst w1. cbn [cam calls logs fst].
  exists (added ++ [GetNumberPreAmpGains]). split.
  - now rewrite <- app_assoc.
  - rewrite forallb_app, F. reflexivity.
Qed.

Lemma py_in_first_index (gain : float) (values : list float) (start : Z) :
  py_in gain values = true ->
  exists index, first_index gain values start = Some index.
Proof.
  unfold py_in. revert start.
  induction values as [| v rest IH]; intros start; cbn [existsb first_index].
  - discriminate.
  - destruct (py_float_eq gain v); cbn [orb]; [eauto | apply IH].
Qed.

Lemma set_gain_absent (gain : float) (w : world) :
  py_in gain (gain_table dll w) = false ->
  exists added,
    set_gain dll gain w
    = (Return (PyInt (-1)),
       {| cam := cam w; calls := added ++ calls w;
          logs := {| log_level := Warning;
                     log_format :=
                       "Given gain value not available. Choose one:{0}";
                     log_args := [ArgFloats (gain_table dll w)] |}
                  :: logs w |})
    /\ forallb is_table_query added = true.
Proof.
  intros Out. destruct (fetch_gain_values_runs w) as (added & E & F).
  exists added. split; [| exact F].
  unfold set_gain, bind at 1. rewrite E. rewrite Out. reflexivity.
Qed.

(** A value of the table whose SetPreAmpGain is not answered by success
    changes nothing on the instance. *)
Lemma set_gain_not_applied (gain : float) (w : world) (index : Z) :
  py_in gain (gain_table dll w) = true ->
  first_index gain (gain_table dll w) 0 = Some index ->
  code (dll (calls (after (fetch_gain_values dll) w))
            (SetPreAmpGain (c_int index))) <> success_code ->
  cam (after (set_gain dll gain) w) = cam w.
Proof.
  intros In I N. destruct (fetch_gain_values_runs w) as (added & E & F).
  unfold after in N. rewrite E in N. cbn [snd calls] in N.
  unfold after, set_gain. unfold bind at 1. rewrite E.
  rewrite In. cbn [negb]. rewrite I.
  unfold _set_preamp_gain, _get_preamp_gain. run.
  set (r := dll _ _) in *.
  destruct (decode_cases (code r)) as [C L | msg C L S | C L];
    [contradiction | |];
    unfold decode; rewrite L; run; rewrite ?S; run; rewrite ?L; run;
    rewrite ?S; run; reflexivity.
Qed.

(** C5. Setting the gain to a value of the gain table, with SetPreAmpGain
    reporting success, stores that value: [set_gain] returns it and
    [get_gain] reads it back. For a value that is not in the table,
    [set_gain] returns -1 after logging the warning 'Given gain value not
    available.' with the table as its list of choices; it has only queried
    the table (no SetPreAmpGain call) and the instance, stored gain included,
    is as before. *)
Theorem gain_round_trip (gain : float) (w : world) :
  let table := gain_table dll w in
  let m := set_gain dll gain in
  (py_in gain table = true ->
   (forall index,
       first_index gain table 0 = Some index ->
       reports_success
         (dll (calls (after (fetch_gain_values dll) w))
              (SetPreAmpGain (c_int index)))) ->
   result (m ;; get_gain) w = Return gain
   /\ result m w = Return (PyFloat gain)
   /\ _gain (cam (after m w)) = gain)
  /\ (py_in gain table = false ->
      result m w = Return (PyInt (-1))
      /\ cam (after m w) = cam w
      /\ _gain (cam (after m w)) = _gain (cam w)
      /\ forallb is_table_query (made_calls m w) = true
      /\ (forall index, ~ In (SetPreAmpGain index) (made_calls m w))
      /\ logs (after m w)
         = {| log_level := Warning;
              log_format := "Given gain value not available. Choose one:{0}";
              log_args := [ArgFloats table] |} :: logs w).
Proof.
  intros table m.
  destruct (fetch_gain_values_runs w) as (added & E & F). fold table in E.
  split.
  - intros In Ok.
    destruct (py_in_first_index gain table 0 In) as (index & I).
    specialize (Ok index I). unfold after in Ok. rewrite E in Ok.
    cbn [snd calls] in Ok. unfold reports_success in Ok.
    assert (R : exists w', m w = (Return (PyFloat gain), w')
                           /\ _gain (cam w') = gain).
    { subst m. unfold set_gain. unfold bind at 1. rewrite E.
      rewrite In. cbn [negb]. rewrite I.
      unfold _set_preamp_gain, _get_preamp_gain. run.
      rewrite (decode_success _ _ Ok). run.
      rewrite is_success_DRV_SUCCESS. run.
      rewrite (decode_success _ _ Ok). run.
      rewrite is_success_DRV_SUCCESS. run.
      eexists. split; reflexivity. }
    destruct R as (w' & R & G).
    unfold result, after, bind, get_gain. rewrite R. run. rewrite G. auto.
  - intros Out. clear added E F.
    destruct (set_gain_absent gain w Out) as (added & R & F).
    fold m in R. fold table in R.
    assert (C : made_calls m w = added).
    { apply made_calls_added. unfold after. now rewrite R. }
    unfold result, after. rewrite C. rewrite R. cbn [fst snd cam logs].
    repeat split; auto.
    intros index I. rewrite forallb_forall in F. apply F in I. discriminate.
Qed.

End Gain.

Lemma gain_round_trip_witness :
  (result (set_gain (sim_dll never 0) 2.4%float ;; get_gain)
          (fresh class_defaults)
   = Return 2.4%float
   /\ result (set_gain (sim_dll never 0) 2.4%float) (fresh class_defaults)
      = Return (PyFloat 2.4%float)
   /\ _gain (cam (after (set_gain (sim_dll never 0) 2.4%float)
                        (fresh class_defaults))) = 2.4%float)
  /\ (result (set_gain (sim_dll never 0) 3%float) (fresh class_defaults)
      = Return (PyInt (-1))
      /\ cam (after (set_gain (sim_dll never 0) 3%float)
                    (fresh class_defaults))
         = class_defaults).
Proof.
  split.
  - destruct (gain_round_trip (sim_dll never 0) 2.4%float
                (fresh class_defaults)) as (Present & _).
    apply Present.
    + reflexivity.
    + intros index _. reflexivity.
  - destruct (gain_round_trip (sim_dll never 0) 3%float
                (fresh class_defaults)) as (_ & Absent).
    destruct (Absent eq_refl) as (R & C & _). split; [exact R | exact C].
Defined.

(** ** Frames *)

Lemma skipn_repeat {A} (x : A) (a b : nat) :
  skipn a (repeat x (a + b)) = repeat x b.
Proof. induction a as [| a IH]; [reflexivity | exact IH]. Qed.

Lemma firstn_repeat {A} (x : A) (a b : nat) :
  firstn a (repeat x (a + b)) = repeat x a.
Proof. induction a as [| a IH]; [reflexivity | cbn; now rewrite IH]. Qed.

Lemma row_of_repeat {A} (x : A) (rows cols i : nat) :
  (i < rows)%nat -> row_of (repeat x (rows * cols)) cols i = repeat x cols.
Proof.
  intros H. unfold row_of.
  replace (rows * cols)%nat with (i * cols + (cols + (rows - 1 - i) * cols))%nat
    by nia.
  rewrite skipn_repeat. apply firstn_repeat.
Qed.

Lemma rows_of_repeat {A} (x : A) (rows cols : nat) :
  map (row_of (repeat x (rows * cols)) cols) (seq 0 rows)
  = repeat (repeat x cols) rows.
Proof.
  transitivity (map (fun _ : nat => repeat x cols) (seq 0 rows)).
  - apply map_ext_in. intros i I. apply in_seq in I.
    apply row_of_repeat. lia.
  - rewrite map_const. f_equal. apply length_seq.
Qed.

Lemma np_reshape_zeros (rows cols : Z) (w : world) :
  0 <= rows -> 0 <= cols ->
  np_reshape (repeat 0 (Z.to_nat (cols * rows))) rows cols w
  = (Return (repeat (repeat 0 (Z.to_nat cols)) (Z.to_nat rows)), w).
Proof.
  intros Hr Hc. unfold np_reshape, reshape_shape.
  rewrite repeat_length, Z2Nat.id by nia.
  replace (rows =? -1) with false by (symmetry; apply Z.eqb_neq; lia).
  replace (cols =? -1) with false by (symmetry; apply Z.eqb_neq; lia).
  replace (rows <? 0) with false by (symmetry; apply Z.ltb_ge; lia).
  replace (cols <? 0) with false by (symmetry; apply Z.ltb_ge; lia).
  replace (rows * cols =? cols * rows) with true
    by (symmetry; apply Z.eqb_eq; lia).
  cbn [andb orb].
  replace (Z.to_nat (cols * rows)) with (Z.to_nat rows * Z.to_nat cols)%nat
    by (rewrite <- Z2Nat.inj_mul by lia; f_equal; lia).
  now rewrite rows_of_repeat.
Qed.

Lemma subtract_baseline_uniform (v baseline : Z) (rows cols : nat) :
  subtract_baseline (repeat (repeat v cols) rows) baseline
  = repeat (repeat (v - baseline) cols) rows.
Proof. unfold subtract_baseline. now rewrite !map_repeat. Qed.

Section Retrieval.

Variable dll : list dll_call -> dll_call -> dll_reply.

(** C6, as the code has it. In read mode 'IMAGE' with acquisition mode
    'SINGLE_SCAN' or 'RUN_TILL_ABORT', when the read primitive reports a
    failure, [get_acquired_data] logs one warning and goes on: it returns,
    as the frame, the zero-filled array reshaped to (height, width) with the
    baseline subtracted, and stores it as the current image. No failure
    reaches the caller. *)
Theorem get_acquired_data_failure_returns_baseline_frame (w : world) :
  let c := cam w in
  let m := get_acquired_data dll in
  let frame :=
    repeat (repeat (0 - _baseline c) (Z.to_nat (_width c)))
           (Z.to_nat (_height c)) in
  _read_mode c = "IMAGE" ->
  _acquisition_mode c = "SINGLE_SCAN" \/ _acquisition_mode c = "RUN_TILL_ABORT" ->
  0 <= _width c -> 0 <= _height c ->
  reports_failure
    (dll (calls w) (retrieval_call c (_width c * _height c))) ->
  result m w = Return frame
  /\ _cur_image (cam (after m w)) = Some frame
  /\ exists msg,
      is_success msg = false
      /\ logs (after m w)
         = {| log_level := Warning;
              log_format := "Couldn't retrieve an image. {0}";
              log_args := [ArgStr msg] |} :: logs w.
Proof.
  intros c m frame Hr Ha Hw Hh (msg & L & S).
  assert (D : expected_dim w = (Return (Some (_width c * _height c)), w)).
  { unfold expected_dim. run. fold c. rewrite Hr. cbn.
    destruct Ha as [-> | ->]; reflexivity. }
  assert (R : m w
              = (Return frame,
                 {| cam := with_cur_image (Some frame) c;
                    calls := retrieval_call c (_width c * _height c) :: calls w;
                    logs := {| log_level := Warning;
                               log_format := "Couldn't retrieve an image. {0}";
                               log_args := [ArgStr msg] |} :: logs w |})).
  { subst m. unfold get_acquired_data.
    unfold bind at 1. rewrite D. run.
    unfold np_zeros, c_int_array.
    replace (_width c * _height c <? 0) with false
      by (symmetry; apply Z.ltb_ge; nia).
    run. fold c. unfold decode. rewrite L. run. rewrite S. run.
    rewrite np_reshape_zeros by assumption. run.
    rewrite subtract_baseline_uniform. reflexivity. }
  unfold result, after. rewrite R. cbn [fst snd cam logs].
  repeat split. exists msg. split; [exact S | reflexivity].
Qed.

End Retrieval.

Lemma get_acquired_data_failure_returns_baseline_frame_witness :
  result (get_acquired_data (sim_dll is_retrieval 20024))
         (fresh (detector 3 2))
  = Return [[-200; -200; -200]; [-200; -200; -200]]
  /\ _cur_image (cam (after (get_acquired_data (sim_dll is_retrieval 20024))
                            (fresh (detector 3 2))))
     = Some [[-200; -200; -200]; [-200; -200; -200]].
Proof.
  destruct (get_acquired_data_failure_returns_baseline_frame
              (sim_dll is_retrieval 20024) (fresh (detector 3 2)))
    as (R & I & _).
  - reflexivity.
  - left. reflexivity.
  - cbn. lia.
  - cbn. lia.
  - exists "DRV_NO_NEW_DATA". split; reflexivity.
  - split; [exact R | exact I].
Defined.

(** ** Buffer length *)

Section BufferLength.

Variable dll : list dll_call -> dll_call -> dll_reply.

Lemma expected_dim_assigned (w : world) (dim : Z) :
  result expected_dim w = Return (Some dim) ->
  expected_dim w = (Return (Some dim), w).
Proof.
  unfold expected_dim. run.
  repeat match goal with
         | |- context [if ?b then _ else _] => destruct b; cbn [fst]
         end;
    intros E; inversion E; reflexivity.
Qed.

(** Whatever the DLL answers and however the reshape ends, the one call
    [get_acquired_data] makes is the read primitive with the expected
    length. *)
Lemma get_acquired_data_requests (w : world) (dim : Z) :
  result expected_dim w = Return (Some dim) -> 0 <= dim ->
  calls (after (get_acquired_data dll) w)
  = retrieval_call (cam w) dim :: calls w.
Proof.
  intros D H. apply expected_dim_assigned in D.
  unfold after, get_acquired_data. unfold bind at 1. rewrite D. run.
  unfold np_zeros, c_int_array.
  replace (dim <? 0) with false by (symmetry; apply Z.ltb_ge; lia). run.
  set (r := dll _ _).
  destruct (decode_cases (code r)) as [C L | msg C L S | C L];
    unfold decode; rewrite L; run; try reflexivity;
    rewrite ?is_success_DRV_SUCCESS, ?S; run;
    unfold np_reshape;
    match goal with
    | |- context [reshape_shape ?a ?b ?c] =>
        destruct (reshape_shape a b c) as [[rows cols] |]
    end; reflexivity.
Qed.

(** C8. The length [get_acquired_data] computes before it reads the frame,
    and asks the transport for: width * height in read mode 'IMAGE' with
    acquisition mode 'SINGLE_SCAN' or 'RUN_TILL_ABORT', width * height *
    scans with 'KINETICS'; in read mode 'SINGLE_TRACK' or 'FVB', width with
    'SINGLE_SCAN' and width * scans with 'KINETICS'. On a 512 x 512
    detector that is 262144, 1048576 for 4 scans, and 512. *)
Theorem expected_buffer_length (w : world) :
  let c := cam w in
  let dim := result expected_dim w in
  let full_frame := _read_mode c = "IMAGE" in
  let track := _read_mode c = "SINGLE_TRACK" \/ _read_mode c = "FVB" in
  let single :=
    _acquisition_mode c = "SINGLE_SCAN" in
  let single_or_run :=
    _acquisition_mode c = "SINGLE_SCAN"
    \/ _acquisition_mode c = "RUN_TILL_ABORT" in
  let kinetics := _acquisition_mode c = "KINETICS" in
  (full_frame -> single_or_run -> dim = Return (Some (_width c * _height c)))
  /\ (full_frame -> kinetics ->
      dim = Return (Some (_width c * _height c * _scans c)))
  /\ (track -> single -> dim = Return (Some (_width c)))
  /\ (track -> kinetics -> dim = Return (Some (_width c * _scans c)))
  /\ (_width c = 512 -> _height c = 512 ->
      (full_frame -> single_or_run -> dim = Return (Some 262144))
      /\ (full_frame -> kinetics -> _scans c = 4 ->
          dim = Return (Some 1048576))
      /\ (track -> single -> dim = Return (Some 512)))
  /\ (forall length, dim = Return (Some length) -> 0 <= length ->
      calls (after (get_acquired_data dll) w)
      = retrieval_call c length :: calls w).
Proof.
  intros c dim full_frame track single single_or_run kinetics.
  assert (F1 : full_frame -> single_or_run ->
               dim = Return (Some (_width c * _height c))).
  { intros Hr Ha. subst dim. unfold expected_dim. run. fold c.
    rewrite Hr. destruct Ha as [-> | ->]; reflexivity. }
  assert (F2 : full_frame -> kinetics ->
               dim = Return (Some (_width c * _height c * _scans c))).
  { intros Hr Ha. subst dim. unfold expected_dim. run. fold c.
    rewrite Hr, Ha. reflexivity. }
  assert (F3 : track -> single -> dim = Return (Some (_width c))).
  { intros Hr Ha. subst dim. unfold expected_dim. run. fold c.
    rewrite Ha. destruct Hr as [-> | ->]; reflexivity. }
  assert (F4 : track -> kinetics ->
               dim = Return (Some (_width c * _scans c))).
  { intros Hr Ha. subst dim. unfold expected_dim. run. fold c.
    rewrite Ha. destruct Hr as [-> | ->]; reflexivity. }
  split; [exact F1 |]. split; [exact F2 |]. split; [exact F3 |].
  split; [exact F4 |]. split.
  - intros Hw Hh. split; [| split].
    + intros Hr Ha. rewrite (F1 Hr Ha), Hw, Hh. reflexivity.
    + intros Hr Ha Hs. rewrite (F2 Hr Ha), Hw, Hh, Hs. reflexivity.
    + intros Hr Ha. rewrite (F3 Hr Ha), Hw. reflexivity.
  - intros length D H. now apply get_acquired_data_requests.
Qed.

End BufferLength.

Lemma expected_buffer_length_witness :
  result expected_dim (fresh (detector 512 512)) = Return (Some 262144)
  /\ result expected_dim
            (fresh (with_acquisition_mode "RUN_TILL_ABORT" (detector 512 512)))
     = Return (Some 262144)
  /\ result expected_dim
            (fresh (kinetic_series "IMAGE" 512 512 4))
     = Return (Some 1048576)
  /\ result expected_dim
            (fresh (with_read_mode "SINGLE_TRACK" (detector 512 512)))
     = Return (Some 512)
  /\ result expected_dim
            (fresh (with_acquisition_mode "KINETICS"
                      (with_read_mode "FVB" (detector 512 512))))
     = Return (Some (512 * 1))
  /\ calls (after (get_acquired_data (sim_dll never 0))
                  (fresh (with_read_mode "SINGLE_TRACK" (detector 512 512))))
     = [GetAcquiredData 512].
Proof.
  split; [| split; [| split; [| split; [| split]]]].
  - destruct (expected_buffer_length (sim_dll never 0)
                (fresh (detector 512 512)))
      as (_ & _ & _ & _ & At512 & _).
    destruct (At512 eq_refl eq_refl) as (Full & _ & _).
    apply Full; [reflexivity | left; reflexivity].
  - destruct (expected_buffer_length (sim_dll never 0)
                (fresh (with_acquisition_mode "RUN_TILL_ABORT"
                          (detector 512 512))))
      as (_ & _ & _ & _ & At512 & _).
    destruct (At512 eq_refl eq_refl) as (Full & _ & _).
    apply Full; [reflexivity | right; reflexivity].
  - match goal with
    | |- result expected_dim ?w = _ =>
        destruct (expected_buffer_length (sim_dll never 0) w)
          as (_ & _ & _ & _ & At512 & _)
    end.
    destruct (At512 eq_refl eq_refl) as (_ & Kinetics & _).
    apply Kinetics; reflexivity.
  - destruct (expected_buffer_length (sim_dll never 0)
                (fresh (with_read_mode "SINGLE_TRACK" (detector 512 512))))
      as (_ & _ & _ & _ & At512 & _).
    destruct (At512 eq_refl eq_refl) as (_ & _ & Track).
    apply Track; [left; reflexivity | reflexivity].
  - destruct (expected_buffer_length (sim_dll never 0)
                (fresh (with_acquisition_mode "KINETICS"
                          (with_read_mode "FVB" (detector 512 512)))))
      as (_ & _ & _ & Track & _).
    apply Track; [right; reflexivity | reflexivity].
  - destruct (expected_buffer_length (sim_dll never 0)
                (fresh (with_read_mode "SINGLE_TRACK" (detector 512 512))))
      as (_ & _ & _ & _ & _ & Asked).
    apply (Asked 512); [reflexivity | lia].
Defined.

(** ** Track modes *)

Lemma filled_length (cimage written : list Z) :
  List.length (filled cimage written) = List.length cimage.
Proof.
  unfold filled.
  rewrite length_app, length_map, length_firstn, length_skipn. lia.
Qed.

Lemma reshape_shape_mismatch (size rows cols : Z) :
  0 <= rows -> 0 <= cols -> rows * cols <> size ->
  reshape_shape size rows cols = None.
Proof.
  intros Hr Hc N. unfold reshape_shape.
  replace (rows =? -1) with false by (symmetry; apply Z.eqb_neq; lia).
  replace (cols =? -1) with false by (symmetry; apply Z.eqb_neq; lia).
  replace (rows <? 0) with false by (symmetry; apply Z.ltb_ge; lia).
  replace (cols <? 0) with false by (symmetry; apply Z.ltb_ge; lia).
  replace (rows * cols =? size) with false by (symmetry; apply Z.eqb_neq; lia).
  reflexivity.
Qed.

Section TrackModes.

Variable dll : list dll_call -> dll_call -> dll_reply.

(** Once [dim] is assigned a length that is not height * width, the run
    ends in an exception. *)
Lemma get_acquired_data_mismatch (w : world) (dim : Z) :
  expected_dim w = (Return (Some dim), w) ->
  0 <= _height (cam w) -> 0 <= _width (cam w) ->
  dim <> _height (cam w) * _width (cam w) ->
  returned (result (get_acquired_data dll) w) = false
  /\ (0 <= dim ->
      reports_success (dll (calls w) (retrieval_call (cam w) dim))
      \/ reports_failure (dll (calls w) (retrieval_call (cam w) dim)) ->
      result (get_acquired_data dll) w = Raise ValueError
      /\ calls (after (get_acquired_data dll) w)
         = retrieval_call (cam w) dim :: calls w).
Proof.
  intros D Hh Hw N.
  set (r := dll (calls w) (retrieval_call (cam w) dim)).
  assert (G : exists o w',
             get_acquired_data dll w = (o, w')
             /\ returned o = false
             /\ (0 <= dim -> reports_success r \/ reports_failure r ->
                 o = Raise ValueError
                 /\ calls w' = retrieval_call (cam w) dim :: calls w)).
  { unfold get_acquired_data. unfold bind at 1.
    rewrite D. run. unfold np_zeros, c_int_array.
    destruct (Z.ltb_spec dim 0) as [Neg | Pos]; run.
    { do 2 eexists. split; [reflexivity |]. split; [reflexivity | lia]. }
    fold r.
    assert (Z : Z.of_nat (Z.to_nat dim) = dim) by lia.
    destruct (decode_cases (code r)) as [C L | msg C L S | C L];
      unfold decode; rewrite L; run;
      rewrite ?is_success_DRV_SUCCESS, ?S; run;
      unfold np_reshape;
      rewrite ?filled_length, ?repeat_length, ?Z;
      rewrite ?(reshape_shape_mismatch dim) by lia;
      run; do 2 eexists; (split; [reflexivity |]);
      (split; [reflexivity |]); intros _ Known; try (split; reflexivity).
    exfalso. destruct Known as [K | (msg & K & _)]; [| congruence].
    unfold reports_success in K. contradiction. }
  destruct G as (o & w' & E & R & V).
  unfold result, after. rewrite E. cbn [fst snd]. split; assumption.
Qed.

(** C10, as the code has it. In read mode 'SINGLE_TRACK' or 'FVB', on a
    detector more than one row high and at least one column wide,
    [get_acquired_data] never returns a frame unless the acquisition mode
    is 'KINETICS' with as many scans as the detector has rows. With
    'SINGLE_SCAN' and a read primitive whose status code is known, it is
    the reshape to (height, width) of the width samples just read that
    raises ValueError. *)
Theorem get_acquired_data_track_never_returns (w : world) :
  let c := cam w in
  let m := get_acquired_data dll in
  _read_mode c = "SINGLE_TRACK" \/ _read_mode c = "FVB" ->
  1 < _height c -> 0 < _width c ->
  (_acquisition_mode c = "KINETICS" -> _scans c <> _height c) ->
  returned (result m w) = false
  /\ (_acquisition_mode c = "SINGLE_SCAN" ->
      reports_success (dll (calls w) (GetAcquiredData (_width c)))
      \/ reports_failure (dll (calls w) (GetAcquiredData (_width c))) ->
      result m w = Raise ValueError
      /\ calls (after m w) = GetAcquiredData (_width c) :: calls w).
Proof.
  intros c m Hr Hh Hw Hs.
  assert (T : (String.eqb (_read_mode c) "IMAGE") = false
              /\ (String.eqb (_read_mode c) "SINGLE_TRACK"
                  || String.eqb (_read_mode c) "FVB") = true).
  { destruct Hr as [-> | ->]; split; reflexivity. }
  destruct T as (T1 & T2).
  destruct (String.eqb_spec (_acquisition_mode c) "SINGLE_SCAN") as [A1 | A1].
  - assert (D : expected_dim w = (Return (Some (_width c)), w)).
    { unfold expected_dim. run. fold c. rewrite T1, T2, A1. reflexivity. }
    destruct (get_acquired_data_mismatch w (_width c) D) as (R & V);
      fold c; try nia.
    split; [exact R |]. intros _ Known.
    assert (Q : retrieval_call c (_width c) = GetAcquiredData (_width c)).
    { unfold retrieval_call. rewrite A1. reflexivity. }
    fold c in V. rewrite Q in V.
    destruct V as (V1 & V2); [lia | exact Known |].
    split; [exact V1 | exact V2].
  - split; [| contradiction].
    destruct (String.eqb_spec (_acquisition_mode c) "KINETICS") as [A2 | A2].
    + assert (D : expected_dim w = (Return (Some (_width c * _scans c)), w)).
      { unfold expected_dim. run. fold c. rewrite T1, T2, A2. reflexivity. }
      apply (get_acquired_data_mismatch w _ D); fold c; try nia.
      specialize (Hs A2). nia.
    + subst m. unfold result, get_acquired_data, expected_dim. run. fold c.
      rewrite T1, T2.
      apply String.eqb_neq in A1. apply String.eqb_neq in A2.
      rewrite A1, A2. reflexivity.
Qed.

End TrackModes.

Lemma get_acquired_data_track_never_returns_witness :
  returned (result (get_acquired_data (sim_dll never 0))
                   (fresh (with_read_mode "FVB" (detector 512 512))))
  = false
  /\ result (get_acquired_data (sim_dll never 0))
            (fresh (with_read_mode "SINGLE_TRACK" (detector 512 512)))
     = Raise ValueError
  /\ returned (result (get_acquired_data (sim_dll never 0))
                      (fresh (kinetic_series "FVB" 512 512 1)))
     = false.
Proof.
  split; [| split].
  - destruct (get_acquired_data_track_never_returns (sim_dll never 0)
                (fresh (with_read_mode "FVB" (detector 512 512))))
      as (Never & _).
    + right. reflexivity.
    + cbn. lia.
    + cbn. lia.
    + cbn. discriminate.
    + exact Never.
  - destruct (get_acquired_data_track_never_returns (sim_dll never 0)
                (fresh (with_read_mode "SINGLE_TRACK" (detector 512 512))))
      as (_ & Reshape).
    + left. reflexivity.
    + cbn. lia.
    + cbn. lia.
    + cbn. discriminate.
    + apply Reshape; [reflexivity | left; reflexivity].
  - destruct (get_acquired_data_track_never_returns (sim_dll never 0)
                (fresh (kinetic_series "FVB" 512 512 1)))
      as (Never & _).
    + right. reflexivity.
    + cbn. lia.
    + cbn. lia.
    + cbn. intros _. discriminate.
    + exact Never.
Defined.

(** C10, as stated, fails. In read mode 'FVB' with acquisition mode
    'KINETICS' and two scans on a detector 3 wide and 2 high, the six
    samples read reshape to (2, 3) and a frame is returned; and on a
    detector of width 0 and height 2 the empty buffer of a single scan
    reshapes to two empty rows. *)
Lemma get_acquired_data_track_returns_frame :
  (let c := kinetic_series "FVB" 3 2 2 in
   1 < _height c
   /\ result (get_acquired_data (sim_dll never 0)) (fresh c)
      = Return [[100; 100; 100]; [100; 100; 100]])
  /\ (let c := with_read_mode "SINGLE_TRACK" (detector 0 2) in
      1 < _height c
      /\ result (get_acquired_data (sim_dll never 0)) (fresh c)
         = Return [[]; []]).
Proof.
  split; cbn zeta; (split; [cbn; lia | reflexivity]).
Qed.

(** ** Setters *)

Section Setters.

Variable dll : list dll_call -> dll_call -> dll_reply.
Variable enum_class_attribute : string -> bool.

(** *** Values that fail validation *)

Lemma set_trigger_mode_unknown (mode : string) (w : world) :
  lookup_name TriggerMode mode = None ->
  untouched (_set_trigger_mode dll enum_class_attribute mode) w.
Proof.
  intros N. unfold untouched, _set_trigger_mode, find_attribute.
  rewrite N. destruct (enum_class_attribute mode); run; split; reflexivity.
Qed.

Lemma set_acquisition_mode_unknown (mode : string) (w : world) :
  lookup_name AcquisitionMode mode = None ->
  untouched (_set_acquisition_mode dll enum_class_attribute mode) w.
Proof.
  intros N. unfold untouched, _set_acquisition_mode, find_attribute.
  rewrite N. destruct (enum_class_attribute mode); run; split; reflexivity.
Qed.

Lemma set_read_mode_unknown (mode : string) (w : world) :
  lookup_name ReadMode mode = None ->
  untouched (_set_read_mode dll enum_class_attribute mode) w.
Proof.
  intros N. unfold untouched, _set_read_mode, find_attribute.
  rewrite N. destruct (enum_class_attribute mode); run; split; reflexivity.
Qed.

Lemma set_temperature_too_low (temp : Z) (w : world) :
  temp <= _min_temperature (cam w) ->
  untouched (_set_temperature dll temp) w.
Proof.
  intros H. unfold untouched, _set_temperature. run.
  replace (_min_temperature (cam w) <? temp) with false
    by (symmetry; apply Z.ltb_ge; lia).
  run. split; reflexivity.
Qed.

(** *** Calls the transport does not answer by success *)

Lemma set_exposure_not_applied (exposure : float) (w : world) :
  code (dll (calls w) (SetExposureTime exposure)) <> success_code ->
  cam (after (set_exposure dll exposure) w) = cam w.
Proof.
  intros N. unfold set_exposure. run. set (r := dll _ _) in *.
  destruct (decode_cases (code r)) as [C L | msg C L S | C L];
    [contradiction | |];
    unfold decode; rewrite L; run; rewrite ?S; run; reflexivity.
Qed.

Lemma set_trigger_mode_not_applied (mode : string) (n_mode : Z) (w : world) :
  lookup_name TriggerMode mode = Some n_mode ->
  code (dll (calls w) (SetTriggerMode (c_int n_mode))) <> success_code ->
  cam (after (_set_trigger_mode dll enum_class_attribute mode) w) = cam w.
Proof.
  intros F N. unfold _set_trigger_mode, find_attribute. rewrite F. run.
  set (r := dll _ _) in *.
  destruct (decode_cases (code r)) as [C L | msg C L S | C L];
    [contradiction | |];
    unfold decode; rewrite L; run; rewrite ?S; run; reflexivity.
Qed.

Lemma set_acquisition_mode_not_applied (mode : string) (n_mode : Z)
    (w : world) :
  lookup_name AcquisitionMode mode = Some n_mode ->
  code (dll (calls w) (SetAcquisitionMode (c_int n_mode))) <> success_code ->
  cam (after (_set_acquisition_mode dll enum_class_attribute mode) w) = cam w.
Proof.
  intros F N. unfold _set_acquisition_mode, find_attribute. rewrite F. run.
  set (r := dll _ _) in *.
  destruct (decode_cases (code r)) as [C L | msg C L S | C L];
    [contradiction | |];
    unfold decode; rewrite L; run; rewrite ?S; run; reflexivity.
Qed.

Lemma set_temperature_not_applied (temp : Z) (w : world) :
  _min_temperature (cam w) < temp ->
  code (dll (calls w) (SetTemperature (c_int temp))) <> success_code ->
  cam (after (_set_temperature dll temp) w) = cam w.
Proof.
  intros H N. unfold _set_temperature. run.
  replace (_min_temperature (cam w) <? temp) with true
    by (symmetry; apply Z.ltb_lt; lia).
  run. set (r := dll _ _) in *.
  destruct (decode_cases (code r)) as [C L | msg C L S | C L];
    [contradiction | |];
    unfold decode; rewrite L; run; rewrite ?S; run; rewrite ?L; reflexivity.
Qed.

Lemma set_hs_speed_not_applied (typ index : Z) (w : world) :
  code (dll (calls w) (SetHSSpeed (c_int typ) (c_int index))) <> success_code ->
  cam (after (_set_hs_speed dll typ index) w) = cam w.
Proof.
  intros N. unfold _set_hs_speed. run. set (r := dll _ _) in *.
  destruct (decode_cases (code r)) as [C L | msg C L S | C L];
    [contradiction | |];
    unfold decode; rewrite L; run; rewrite ?S; run; rewrite ?L; reflexivity.
Qed.

Lemma set_vs_speed_not_applied (index : Z) (w : world) :
  code (dll (calls w) (SetVSSpeed (c_int index))) <> success_code ->
  cam (after (_set_vs_speed dll index) w) = cam w.
Proof.
  intros N. unfold _set_vs_speed. run. set (r := dll _ _) in *.
  destruct (decode_cases (code r)) as [C L | msg C L S | C L];
    [contradiction | |];
    unfold decode; rewrite L; run; rewrite ?S; run; rewrite ?L; reflexivity.
Qed.

(** A read mode other than 'IMAGE' involves no sub-region. *)
Lemma set_read_mode_not_applied (mode : string) (n_mode : Z) (w : world) :
  lookup_name ReadMode mode = Some n_mode ->
  mode <> "IMAGE" ->
  code (dll (calls w) (SetReadMode (c_int n_mode))) <> success_code ->
  cam (after (_set_read_mode dll enum_class_attribute mode) w) = cam w.
Proof.
  intros F I N. unfold _set_read_mode, find_attribute. rewrite F.
  apply String.eqb_neq in I. rewrite I. run.
  set (r := dll _ _) in *.
  destruct (decode_cases (code r)) as [C L | msg C L S | C L];
    [contradiction | |];
    unfold decode; rewrite L; run; rewrite ?S; run; reflexivity.
Qed.

(** For 'IMAGE' the sub-region is applied whatever SetReadMode answered,
    and writes the geometry when SetImage succeeds. *)
Lemma set_read_mode_image_not_applied (w : world) :
  code (dll (calls w) (SetReadMode 4)) <> success_code ->
  let c' := cam (after (_set_read_mode dll enum_class_attribute "IMAGE") w) in
  _read_mode c' = _read_mode (cam w)
  /\ same_but_geometry (cam w) c'
  /\ (-2147483648 <= _width (cam w) < 2147483648 ->
      -2147483648 <= _height (cam w) < 2147483648 ->
      _width c' = _width (cam w) /\ _height c' = _height (cam w)).
Proof.
  intros N.
  unfold _set_read_mode, find_attribute, _set_image, int_truediv.
  cbn [lookup_name ReadMode String.eqb Ascii.eqb Bool.eqb].
  rewrite (c_int_small 1), (c_int_small 4) by lia.
  change (1 =? 0) with false. run.
  set (r := dll (calls w) (SetReadMode 4)) in *.
  set (r' := dll _ (SetImage _ _ _ _ _ _)).
  destruct (decode_cases (code r')) as [C' L' | msg' C' L' S' | C' L'];
    unfold decode; rewrite L'; run;
    rewrite ?is_success_DRV_SUCCESS, ?S'; run; rewrite ?L'; run;
    rewrite ?is_success_DRV_SUCCESS, ?S'; run;
    try (destruct (decode_cases (code r)) as [C L | msg C L S | C L];
         [contradiction | |];
         rewrite ?L; run; rewrite ?L; run; rewrite ?S; run);
    (split; [reflexivity |]); (split; [reflexivity |]);
    intros Hw Hh; cbn;
    rewrite ?Z.quot_1_r, ?c_int_small by assumption; lia.
Qed.

(** C1, as the code has it. A mode name that is no member of its
    enumeration, and a temperature at or below the minimum, leave every
    attribute as it was and reach no transport call. A gain that is not in
    the gain table makes [set_gain] return -1 with every attribute as it
    was; the only calls are those that read the table. (The exposure and
    readout-speed setters validate nothing.) When the transport does not
    answer the set call by success, the exposure, gain, trigger-mode,
    acquisition-mode, temperature and readout-speed setters, and the
    read-mode setter for a mode other than 'IMAGE', leave every attribute
    as it was. For 'IMAGE' the stored read mode is kept and so is every
    attribute except those of the sub-region, which SetImage may still
    have set to the full detector: width and height keep their values. *)
Theorem setters_refused_keep_state (w : world) :
  (forall mode,
      lookup_name TriggerMode mode = None ->
      untouched (_set_trigger_mode dll enum_class_attribute mode) w)
  /\ (forall mode,
         lookup_name AcquisitionMode mode = None ->
         untouched (_set_acquisition_mode dll enum_class_attribute mode) w)
  /\ (forall mode,
         lookup_name ReadMode mode = None ->
         untouched (_set_read_mode dll enum_class_attribute mode) w)
  /\ (forall temp,
         temp <= _min_temperature (cam w) ->
         untouched (_set_temperature dll temp) w)
  /\ (forall gain,
         py_in gain (gain_table dll w) = false ->
         result (set_gain dll gain) w = Return (PyInt (-1))
         /\ cam (after (set_gain dll gain) w) = cam w
         /\ forallb is_table_query (made_calls (set_gain dll gain) w) = true)
  /\ (forall exposure,
         code (dll (calls w) (SetExposureTime exposure)) <> success_code ->
         cam (after (set_exposure dll exposure) w) = cam w)
  /\ (forall gain index,
         py_in gain (gain_table dll w) = true ->
         first_index gain (gain_table dll w) 0 = Some index ->
         code (dll (calls (after (fetch_gain_values dll) w))
                   (SetPreAmpGain (c_int index))) <> success_code ->
         cam (after (set_gain dll gain) w) = cam w)
  /\ (forall mode n_mode,
         lookup_name TriggerMode mode = Some n_mode ->
         code (dll (calls w) (SetTriggerMode (c_int n_mode))) <> success_code ->
         cam (after (_set_trigger_mode dll enum_class_attribute mode) w)
         = cam w)
  /\ (forall mode n_mode,
         lookup_name AcquisitionMode mode = Some n_mode ->
         code (dll (calls w) (SetAcquisitionMode (c_int n_mode)))
         <> success_code ->
         cam (after (_set_acquisition_mode dll enum_class_attribute mode) w)
         = cam w)
  /\ (forall temp,
         _min_temperature (cam w) < temp ->
         code (dll (calls w) (SetTemperature (c_int temp))) <> success_code ->
         cam (after (_set_temperature dll temp) w) = cam w)
  /\ (forall typ index,
         code (dll (calls w) (SetHSSpeed (c_int typ) (c_int index)))
         <> success_code ->
         cam (after (_set_hs_speed dll typ index) w) = cam w)
  /\ (forall index,
         code (dll (calls w) (SetVSSpeed (c_int index))) <> success_code ->
         cam (after (_set_vs_speed dll index) w) = cam w)
  /\ (forall mode n_mode,
         lookup_name ReadMode mode = Some n_mode ->
         mode <> "IMAGE" ->
         code (dll (calls w) (SetReadMode (c_int n_mode))) <> success_code ->
         cam (after (_set_read_mode dll enum_class_attribute mode) w) = cam w)
  /\ (code (dll (calls w) (SetReadMode 4)) <> success_code ->
      let c' :=
        cam (after (_set_read_mode dll enum_class_attribute "IMAGE") w) in
      _read_mode c' = _read_mode (cam w)
      /\ same_but_geometry (cam w) c'
      /\ (-2147483648 <= _width (cam w) < 2147483648 ->
          -2147483648 <= _height (cam w) < 2147483648 ->
          _width c' = _width (cam w) /\ _height c' = _height (cam w))).
Proof.
  split; [intros; now apply set_trigger_mode_unknown |].
  split; [intros; now apply set_acquisition_mode_unknown |].
  split; [intros; now apply set_read_mode_unknown |].
  split; [intros; now apply set_temperature_too_low |].
  split.
  { intros gain Out.
    destruct (set_gain_absent dll gain w Out) as (added & R & F).
    assert (C : made_calls (set_gain dll gain) w = added).
    { apply made_calls_added. unfold after. now rewrite R. }
    rewrite C. unfold result, after. rewrite R. repeat split. exact F. }
  split; [intros; now apply set_exposure_not_applied |].
  split; [intros; now apply set_gain_not_applied with index |].
  split; [intros; now apply set_trigger_mode_not_applied with n_mode |].
  split; [intros; now apply set_acquisition_mode_not_applied with n_mode |].
  split; [intros; now apply set_temperature_not_applied |].
  split; [intros; now apply set_hs_speed_not_applied |].
  split; [intros; now apply set_vs_speed_not_applied |].
  split; [intros; now apply set_read_mode_not_applied with n_mode |].
  intros; now apply set_read_mode_image_not_applied.
Qed.

End Setters.

Lemma setters_refused_keep_state_witness :
  untouched (_set_trigger_mode (sim_dll never 0) dunder "Internal")
            (fresh class_defaults)
  /\ untouched (_set_acquisition_mode (sim_dll never 0) dunder "Single Scan")
               (fresh class_defaults)
  /\ untouched (_set_read_mode (sim_dll never 0) dunder "CROPPED")
               (fresh class_defaults)
  /\ untouched (_set_temperature (sim_dll never 0) (-100))
               (fresh class_defaults)
  /\ cam (after (set_gain (sim_dll never 0) 3%float) (fresh class_defaults))
     = class_defaults
  /\ cam (after (set_exposure (sim_dll always 20075) 0.5%float)
                (fresh class_defaults))
     = class_defaults
  /\ cam (after (set_gain (sim_dll always 20075) 2.4%float)
                (fresh class_defaults))
     = class_defaults
  /\ cam (after (_set_trigger_mode (sim_dll always 20075) dunder "EXTERNAL")
                (fresh class_defaults))
     = class_defaults
  /\ cam (after (_set_acquisition_mode (sim_dll always 20075) dunder "KINETICS")
                (fresh class_defaults))
     = class_defaults
  /\ cam (after (_set_temperature (sim_dll always 20075) (-70))
                (fresh class_defaults))
     = class_defaults
  /\ cam (after (_set_hs_speed (sim_dll always 20075) 1 0)
                (fresh class_defaults))
     = class_defaults
  /\ cam (after (_set_vs_speed (sim_dll always 20075) 4)
                (fresh class_defaults))
     = class_defaults
  /\ cam (after (_set_read_mode (sim_dll always 20075) dunder "FVB")
                (fresh class_defaults))
     = class_defaults
  /\ _read_mode (cam (after (_set_read_mode (sim_dll is_set_read_mode 20075)
                                            dunder "IMAGE")
                            (fresh (with_read_mode "FVB" (detector 512 512)))))
     = "FVB".
Proof.
  destruct (setters_refused_keep_state (sim_dll never 0) dunder
              (fresh class_defaults))
    as (Trigger & Acquisition & Read & Temperature & Gain & _).
  destruct (setters_refused_keep_state (sim_dll always 20075) dunder
              (fresh class_defaults))
    as (_ & _ & _ & _ & _ & Exposure' & Gain' & Trigger' & Acquisition'
        & Temperature' & HS' & VS' & Read' & _).
  destruct (setters_refused_keep_state (sim_dll is_set_read_mode 20075) dunder
              (fresh (with_read_mode "FVB" (detector 512 512))))
    as (_ & _ & _ & _ & _ & _ & _ & _ & _ & _ & _ & _ & _ & Image').
  split; [apply Trigger; reflexivity |].
  split; [apply Acquisition; reflexivity |].
  split; [apply Read; reflexivity |].
  split; [apply Temperature; cbn; lia |].
  split; [apply (Gain 3%float); reflexivity |].
  split; [apply Exposure'; cbn; discriminate |].
  split; [apply (Gain' 2.4%float 1); [reflexivity | reflexivity |];
          cbn; discriminate |].
  split; [apply (Trigger' "EXTERNAL" 1); [reflexivity |];
          cbn; discriminate |].
  split; [apply (Acquisition' "KINETICS" 3); [reflexivity |];
          cbn; discriminate |].
  split; [apply Temperature'; cbn; [lia | discriminate] |].
  split; [apply HS'; cbn; discriminate |].
  split; [apply VS'; cbn; discriminate |].
  split; [apply (Read' "FVB" 0); [reflexivity | discriminate |];
          cbn; discriminate |].
  apply Image'. cbn. discriminate.
Defined.

(** C1, as the specification words it, fails for the gain: asked for a gain
    of 3 where the table holds 1, 2.4 and 5.1, [set_gain] turns the value
    down with -1, but only after it has called the transport four times to
    read the table. *)
Lemma set_gain_refusal_calls_transport :
  py_in 3%float (gain_table (sim_dll never 0) (fresh class_defaults)) = false
  /\ result (set_gain (sim_dll never 0) 3%float) (fresh class_defaults)
     = Return (PyInt (-1))
  /\ made_calls (set_gain (sim_dll never 0) 3%float) (fresh class_defaults)
     = [GetPreAmpGain 2; GetPreAmpGain 1; GetPreAmpGain 0;
        GetNumberPreAmpGains]
  /\ calls (after (set_gain (sim_dll never 0) 3%float) (fresh class_defaults))
     <> calls (fresh class_defaults).
Proof.
  repeat split. cbn. discriminate.
Qed.

(** The other setters turn an invalid value down by an exception, not by a
    returned value: the status code they go on to decode was never
    assigned. *)
Lemma setters_refusal_raises :
  result (_set_trigger_mode (sim_dll never 0) dunder "Internal")
         (fresh class_defaults) = Raise UnboundLocalError
  /\ result (_set_acquisition_mode (sim_dll never 0) dunder "Single Scan")
            (fresh class_defaults) = Raise UnboundLocalError
  /\ result (_set_read_mode (sim_dll never 0) dunder "CROPPED")
            (fresh class_defaults) = Raise UnboundLocalError
  /\ result (_set_temperature (sim_dll never 0) (-100))
            (fresh class_defaults) = Raise UnboundLocalError.
Proof. repeat split. Qed.

(** * Further properties *)

(** ** The error dictionary *)

(** X1. 'DRV_SUCCESS' is the message of exactly one status code, 20002:
    testing the decoded message against 'DRV_SUCCESS', as every method
    does, is testing the code against 20002, and a code outside the
    dictionary never passes for a success. *)
Theorem ERROR_DICT_success_is_20002 (error_code : Z) :
  (lookup_code ERROR_DICT error_code = Some "DRV_SUCCESS" <->
   error_code = 20002)
  /\ (forall msg, lookup_code ERROR_DICT error_code = Some msg ->
                  (is_success msg = true <-> error_code = 20002))
  /\ (lookup_code ERROR_DICT error_code = None -> error_code <> 20002).
Proof.
  split; [apply lookup_success |].
  split; [intros msg L; now apply lookup_is_success |].
  intros N E. subst. discriminate.
Qed.

Lemma ERROR_DICT_success_is_20002_witness :
  (is_success "DRV_SUCCESS" = true <-> 20002 = 20002)
  /\ (is_success "DRV_ACQUIRING" = true <-> 20072 = 20002)
  /\ 7 <> 20002.
Proof.
  split; [| split].
  - destruct (ERROR_DICT_success_is_20002 20002) as (_ & M & _).
    apply M. reflexivity.
  - destruct (ERROR_DICT_success_is_20002 20072) as (_ & M & _).
    apply M. reflexivity.
  - destruct (ERROR_DICT_success_is_20002 7) as (_ & _ & N).
    apply N. reflexivity.
Defined.

(** ** Sub-image *)

Section SubImage.

Variable dll : list dll_call -> dll_call -> dll_reply.

(** X2. When SetImage reports success and a binning is zero (as a 32-bit
    value), [_set_image] raises ZeroDivisionError half-way through its
    writes: with a zero horizontal binning the six sub-image attributes are
    already recorded while width and height are the old ones; with a zero
    vertical binning only, the width has been rewritten as well and the
    height has not. *)
Theorem set_image_zero_binning_partial_write
    (hbin vbin hstart hend vstart vend : Z) (w : world) :
  let m := _set_image dll hbin vbin hstart hend vstart vend in
  let recorded :=
    Some {| _hbin := c_int hbin; _vbin := c_int vbin;
            _hstart := c_int hstart; _hend := c_int hend;
            _vstart := c_int vstart; _vend := c_int vend |} in
  reports_success
    (dll (calls w)
         (SetImage (c_int hbin) (c_int vbin) (c_int hstart) (c_int hend)
                   (c_int vstart) (c_int vend))) ->
  (c_int hbin = 0 ->
   result m w = Raise ZeroDivisionError
   /\ cam (after m w) = with_image recorded (cam w))
  /\ (c_int hbin <> 0 -> c_int vbin = 0 ->
      result m w = Raise ZeroDivisionError
      /\ cam (after m w)
         = with_width (Z.quot (c_int hend - c_int hstart + 1) (c_int hbin))
                      (with_image recorded (cam w))).
Proof.
  intros m recorded Ok. unfold reports_success in Ok.
  subst m recorded. unfold _set_image, int_truediv. run.
  rewrite (decode_success _ _ Ok). run.
  rewrite is_success_DRV_SUCCESS. run.
  split.
  - intros ->. cbn. split; reflexivity.
  - intros Hh ->. apply Z.eqb_neq in Hh. rewrite Hh. cbn. split; reflexivity.
Qed.

(** X3. With both binnings non-zero and SetImage reporting success,
    [_set_image] records its six arguments as 32-bit values, sets the width
    to (hend - hstart + 1) / hbin and the height to (vend - vstart + 1) /
    vbin, truncated towards zero, and returns 'DRV_SUCCESS'; every other
    attribute is kept. When SetImage reports a failure the instance is left
    as it was, one error is logged and the message is returned. *)
Theorem set_image_geometry
    (hbin vbin hstart hend vstart vend : Z) (w : world) :
  let m := _set_image dll hbin vbin hstart hend vstart vend in
  let r :=
    dll (calls w)
        (SetImage (c_int hbin) (c_int vbin) (c_int hstart) (c_int hend)
                  (c_int vstart) (c_int vend)) in
  (reports_success r -> c_int hbin <> 0 -> c_int vbin <> 0 ->
   result m w = Return "DRV_SUCCESS"
   /\ cam (after m w)
      = with_height
          (Z.quot (c_int vend - c_int vstart + 1) (c_int vbin))
          (with_width
             (Z.quot (c_int hend - c_int hstart + 1) (c_int hbin))
             (with_image
                (Some {| _hbin := c_int hbin; _vbin := c_int vbin;
                         _hstart := c_int hstart; _hend := c_int hend;
                         _vstart := c_int vstart; _vend := c_int vend |})
                (cam w))))
  /\ (forall msg,
         lookup_code ERROR_DICT (code r) = Some msg ->
         is_success msg = false ->
         result m w = Return msg
         /\ cam (after m w) = cam w
         /\ logs (after m w)
            = {| log_level := Error;
                 log_format := "Call to SetImage went wrong:{0}";
                 log_args := [ArgStr msg] |} :: logs w).
Proof.
  intros m r. subst m. unfold _set_image, int_truediv. run. fold r. split.
  - intros Ok Hh Hv. unfold reports_success in Ok.
    rewrite (decode_success _ _ Ok). run.
    rewrite is_success_DRV_SUCCESS. run.
    apply Z.eqb_neq in Hh. apply Z.eqb_neq in Hv. rewrite Hh. run.
    rewrite Hv. run. rewrite (decode_success _ _ Ok). split; reflexivity.
  - intros msg L S. rewrite (decode_failure _ _ _ L). run. rewrite S. run.
    rewrite (decode_failure _ _ _ L). repeat split.
Qed.

End SubImage.

Lemma set_image_zero_binning_partial_write_witness :
  result (_set_image (sim_dll never 0) 0 1 1 512 1 512)
         (fresh (detector 512 512))
  = Raise ZeroDivisionError
  /\ _width (cam (after (_set_image (sim_dll never 0) 0 1 1 512 1 512)
                        (fresh (detector 512 512)))) = 512
  /\ _image (cam (after (_set_image (sim_dll never 0) 0 1 1 512 1 512)
                        (fresh (detector 512 512))))
     = Some {| _hbin := 0; _vbin := 1; _hstart := 1; _hend := 512;
               _vstart := 1; _vend := 512 |}
  /\ _width (cam (after (_set_image (sim_dll never 0) 2 0 1 512 1 512)
                        (fresh (detector 512 512)))) = 256
  /\ _height (cam (after (_set_image (sim_dll never 0) 2 0 1 512 1 512)
                         (fresh (detector 512 512)))) = 512.
Proof.
  destruct (set_image_zero_binning_partial_write (sim_dll never 0)
              0 1 1 512 1 512 (fresh (detector 512 512)) eq_refl)
    as (Horizontal & _).
  destruct (Horizontal eq_refl) as (R & C).
  destruct (set_image_zero_binning_partial_write (sim_dll never 0)
              2 0 1 512 1 512 (fresh (detector 512 512)) eq_refl)
    as (_ & Vertical).
  destruct Vertical as (_ & C'); [discriminate | reflexivity |].
  rewrite C, C'. split; [exact R | repeat split].
Defined.

Lemma set_image_geometry_witness :
  (result (_set_image (sim_dll never 0) 2 4 1 512 1 512)
          (fresh (detector 512 512))
   = Return "DRV_SUCCESS"
   /\ _width (cam (after (_set_image (sim_dll never 0) 2 4 1 512 1 512)
                         (fresh (detector 512 512)))) = 256
   /\ _height (cam (after (_set_image (sim_dll never 0) 2 4 1 512 1 512)
                          (fresh (detector 512 512)))) = 128)
  /\ (result (_set_image (sim_dll is_set_image 20099) 3 1 1 512 1 512)
             (fresh (detector 512 512))
      = Return "DRV_BINNING_ERROR"
      /\ cam (after (_set_image (sim_dll is_set_image 20099) 3 1 1 512 1 512)
                    (fresh (detector 512 512)))
         = detector 512 512).
Proof.
  split.
  - destruct (set_image_geometry (sim_dll never 0) 2 4 1 512 1 512
                (fresh (detector 512 512))) as (Ok & _).
    destruct Ok as (R & C); [reflexivity | discriminate | discriminate |].
    rewrite C. split; [exact R | repeat split].
  - destruct (set_image_geometry (sim_dll is_set_image 20099) 3 1 1 512 1 512
                (fresh (detector 512 512))) as (_ & Ko).
    destruct (Ko "DRV_BINNING_ERROR" eq_refl eq_refl) as (R & C & _).
    split; [exact R | exact C].
Defined.

(** ** Setters that are answered by success *)

Section AppliedSetters.

Variable dll : list dll_call -> dll_call -> dll_reply.
Variable enum_class_attribute : string -> bool.

(** X4. A setter whose transport call is answered by success stores the
    requested value in its own attribute and changes no other: the exposure,
    the trigger mode, the acquisition mode and a read mode other than
    'IMAGE' (each returning 0), the temperature as a 32-bit value and the
    two readout-speed indices (each returning 'DRV_SUCCESS'). The readout
    speed indices are stored as given while the transport receives them as
    32-bit values. *)
Theorem setters_applied_commit (w : world) :
  (forall exposure,
      reports_success (dll (calls w) (SetExposureTime exposure)) ->
      result (set_exposure dll exposure) w = Return 0
      /\ cam (after (set_exposure dll exposure) w)
         = with_exposure exposure (cam w))
  /\ (forall mode n_mode,
         lookup_name TriggerMode mode = Some n_mode ->
         reports_success (dll (calls w) (SetTriggerMode (c_int n_mode))) ->
         result (_set_trigger_mode dll enum_class_attribute mode) w = Return 0
         /\ cam (after (_set_trigger_mode dll enum_class_attribute mode) w)
            = with_trigger_mode mode (cam w))
  /\ (forall mode n_mode,
         lookup_name AcquisitionMode mode = Some n_mode ->
         reports_success (dll (calls w) (SetAcquisitionMode (c_int n_mode))) ->
         result (_set_acquisition_mode dll enum_class_attribute mode) w
         = Return 0
         /\ cam (after (_set_acquisition_mode dll enum_class_attribute mode) w)
            = with_acquisition_mode mode (cam w))
  /\ (forall mode n_mode,
         lookup_name ReadMode mode = Some n_mode ->
         mode <> "IMAGE" ->
         reports_success (dll (calls w) (SetReadMode (c_int n_mode))) ->
         result (_set_read_mode dll enum_class_attribute mode) w = Return 0
         /\ cam (after (_set_read_mode dll enum_class_attribute mode) w)
            = with_read_mode mode (cam w))
  /\ (forall temp,
         _min_temperature (cam w) < temp ->
         reports_success (dll (calls w) (SetTemperature (c_int temp))) ->
         result (_set_temperature dll temp) w = Return "DRV_SUCCESS"
         /\ cam (after (_set_temperature dll temp) w)
            = with_temperature (c_int temp) (cam w))
  /\ (forall typ index,
         reports_success
           (dll (calls w) (SetHSSpeed (c_int typ) (c_int index))) ->
         result (_set_hs_speed dll typ index) w = Return "DRV_SUCCESS"
         /\ cam (after (_set_hs_speed dll typ index) w)
            = with_horizontal_readout_index index (cam w))
  /\ (forall index,
         reports_success (dll (calls w) (SetVSSpeed (c_int index))) ->
         result (_set_vs_speed dll index) w = Return "DRV_SUCCESS"
         /\ cam (after (_set_vs_speed dll index) w)
            = with_vertical_readout_index index (cam w)).
Proof.
  unfold reports_success.
  split; [| split; [| split; [| split; [| split; [| split]]]]].
  - intros exposure Ok. unfold set_exposure. run.
    rewrite (decode_success _ _ Ok). run.
    rewrite is_success_DRV_SUCCESS. split; reflexivity.
  - intros mode n_mode F Ok. unfold _set_trigger_mode, find_attribute.
    rewrite F. run. rewrite (decode_success _ _ Ok). run.
    rewrite is_success_DRV_SUCCESS. split; reflexivity.
  - intros mode n_mode F Ok. unfold _set_acquisition_mode, find_attribute.
    rewrite F. run. rewrite (decode_success _ _ Ok). run.
    rewrite is_success_DRV_SUCCESS. split; reflexivity.
  - intros mode n_mode F I Ok. unfold _set_read_mode, find_attribute.
    rewrite F. apply String.eqb_neq in I. rewrite I. run.
    rewrite (decode_success _ _ Ok). run.
    rewrite is_success_DRV_SUCCESS. split; reflexivity.
  - intros temp H Ok. unfold _set_temperature. run.
    replace (_min_temperature (cam w) <? temp) with true
      by (symmetry; apply Z.ltb_lt; lia).
    run. rewrite (decode_success _ _ Ok). run.
    rewrite is_success_DRV_SUCCESS. run.
    rewrite (decode_success _ _ Ok). split; reflexivity.
  - intros typ index Ok. unfold _set_hs_speed. run.
    rewrite (decode_success _ _ Ok). run.
    rewrite is_success_DRV_SUCCESS. run.
    rewrite (decode_success _ _ Ok). split; reflexivity.
  - intros index Ok. unfold _set_vs_speed. run.
    rewrite (decode_success _ _ Ok). run.
    rewrite is_success_DRV_SUCCESS. run.
    rewrite (decode_success _ _ Ok). split; reflexivity.
Qed.

End AppliedSetters.

Lemma setters_applied_commit_witness :
  _exposure (cam (after (set_exposure (sim_dll never 0) 0.5%float)
                        (fresh class_defaults))) = 0.5%float
  /\ _trigger_mode (cam (after (_set_trigger_mode (sim_dll never 0) dunder
                                                  "EXTERNAL")
                               (fresh class_defaults))) = "EXTERNAL"
  /\ _acquisition_mode (cam (after (_set_acquisition_mode (sim_dll never 0)
                                      dunder "KINETICS")
                                   (fresh class_defaults))) = "KINETICS"
  /\ _read_mode (cam (after (_set_read_mode (sim_dll never 0) dunder "FVB")
                            (fresh class_defaults))) = "FVB"
  /\ _temperature (cam (after (_set_temperature (sim_dll never 0) (-70))
                              (fresh class_defaults))) = -70
  /\ _horizontal_readout_index
       (cam (after (_set_hs_speed (sim_dll never 0) 0 4294967297)
                   (fresh class_defaults))) = 4294967297
  /\ _vertical_readout_index
       (cam (after (_set_vs_speed (sim_dll never 0) 2)
                   (fresh class_defaults))) = 2.
Proof.
  destruct (setters_applied_commit (sim_dll never 0) dunder
              (fresh class_defaults))
    as (Exposure & Trigger & Acquisition & Read & Temperature & HS & VS).
  destruct (Exposure 0.5%float eq_refl) as (_ & E1).
  destruct (Trigger "EXTERNAL" 1 eq_refl eq_refl) as (_ & E2).
  destruct (Acquisition "KINETICS" 3 eq_refl eq_refl) as (_ & E3).
  destruct (Read "FVB" 0 eq_refl) as (_ & E4);
    [discriminate | reflexivity |].
  destruct (Temperature (-70)) as (_ & E5); [cbn; lia | reflexivity |].
  destruct (HS 0 4294967297 eq_refl) as (_ & E6).
  destruct (VS 2 eq_refl) as (_ & E7).
  rewrite E1, E2, E3, E4, E5, E6, E7. repeat split.
Defined.

(** ** Starting *)

Section Starting.

Variable dll : list dll_call -> dll_call -> dll_reply.
Variable enum_class_attribute : string -> bool.

(** X5. [_start_acquisition] waits for the acquisition whenever the trigger
    mode is 'INTERNAL', also when the start primitive did not report
    success; with any other trigger mode the start is its only call. It
    changes no attribute, and what it returns is the message of the start
    primitive: the answer of the wait is not looked at. *)
Theorem start_acquisition_waits_whatever_the_start (w : world) :
  let m := _start_acquisition dll in
  (_trigger_mode (cam w) = "INTERNAL" ->
   calls (after m w) = WaitForAcquisition :: StartAcquisition :: calls w)
  /\ (_trigger_mode (cam w) <> "INTERNAL" ->
      calls (after m w) = StartAcquisition :: calls w)
  /\ cam (after m w) = cam w
  /\ (forall msg,
         lookup_code ERROR_DICT (code (dll (calls w) StartAcquisition))
         = Some msg ->
         result m w = Return msg).
Proof.
  intros m. subst m. unfold _start_acquisition. run.
  set (r := dll (calls w) StartAcquisition).
  split; [| split; [| split]].
  - intros ->. cbn.
    destruct (decode_cases (code r)) as [C L | msg C L S | C L];
      unfold decode; rewrite L; reflexivity.
  - intros N. apply String.eqb_neq in N. rewrite N. run.
    destruct (decode_cases (code r)) as [C L | msg C L S | C L];
      unfold decode; rewrite L; reflexivity.
  - destruct (String.eqb _ _); run;
      destruct (decode_cases (code r)) as [C L | msg C L S | C L];
      unfold decode; rewrite L; reflexivity.
  - intros msg L. destruct (String.eqb _ _); run;
      unfold decode; rewrite L; reflexivity.
Qed.

End Starting.

Lemma start_acquisition_waits_whatever_the_start_witness :
  calls (after (_start_acquisition (sim_dll is_start 20072))
               (fresh class_defaults))
  = [WaitForAcquisition; StartAcquisition]
  /\ calls (after (_start_acquisition (sim_dll is_start 20072))
                  (fresh (with_trigger_mode "EXTERNAL" class_defaults)))
     = [StartAcquisition]
  /\ result (_start_acquisition (sim_dll is_start 20072))
            (fresh class_defaults)
     = Return "DRV_ACQUIRING".
Proof.
  destruct (start_acquisition_waits_whatever_the_start
              (sim_dll is_start 20072) (fresh class_defaults))
    as (Internal & _ & _ & Message).
  destruct (start_acquisition_waits_whatever_the_start
              (sim_dll is_start 20072)
              (fresh (with_trigger_mode "EXTERNAL" class_defaults)))
    as (_ & External & _ & _).
  split; [apply Internal; reflexivity |].
  split; [apply External; discriminate |].
  apply Message. reflexivity.
Defined.

Section WillingDevice.

Variable dll : list dll_call -> dll_call -> dll_reply.
Variable enum_class_attribute : string -> bool.

(** Runs every [decode] of a reply of a device that always succeeds. *)
Ltac succeed H :=
  repeat (rewrite (decode_success _ _ (H _ _)); run;
          rewrite ?is_success_DRV_SUCCESS; run).

(** X6. On a device that answers every call by success, a single
    acquisition requested while the live flag is clear returns True and
    leaves the instance in read mode 'IMAGE', acquisition mode
    'SINGLE_SCAN' and trigger mode 'INTERNAL', with the acquiring flag
    clear; a shutter recorded as closed is now recorded as open, any other
    shutter record is kept. The last two calls are the start and the wait,
    and the next request finds nothing left to set. *)
Theorem start_single_acquisition_on_a_willing_device (w : world) :
  always_succeeds dll ->
  _live (cam w) = false ->
  let m := start_single_acquisition dll enum_class_attribute in
  let c' := cam (after m w) in
  result m w = Return (PyBool true)
  /\ _read_mode c' = "IMAGE"
  /\ _acquisition_mode c' = "SINGLE_SCAN"
  /\ _trigger_mode c' = "INTERNAL"
  /\ (_shutter (cam w) = "closed" -> _shutter c' = "open")
  /\ (_shutter (cam w) <> "closed" -> _shutter c' = _shutter (cam w))
  /\ _acquiring c' = false
  /\ _live c' = false
  /\ normalised c'
  /\ exists earlier,
      calls (after m w) = WaitForAcquisition :: StartAcquisition :: earlier.
Proof.
  intros H Live m c'.
  assert (G : result m w = Return (PyBool true)
              /\ _read_mode c' = "IMAGE"
              /\ _acquisition_mode c' = "SINGLE_SCAN"
              /\ _trigger_mode c' = "INTERNAL"
              /\ (_shutter (cam w) = "closed" -> _shutter c' = "open")
              /\ (_shutter (cam w) <> "closed" ->
                  _shutter c' = _shutter (cam w))
              /\ _acquiring c' = false
              /\ _live c' = false
              /\ exists earlier,
                  calls (after m w)
                  = WaitForAcquisition :: StartAcquisition :: earlier).
  { subst c' m.
    unfold start_single_acquisition, _set_read_mode, _set_acquisition_mode,
      _set_trigger_mode, _set_shutter, _start_acquisition, _set_image,
      find_attribute, int_truediv.
    cbn [lookup_name ReadMode AcquisitionMode TriggerMode
           String.eqb Ascii.eqb Bool.eqb].
    rewrite !(c_int_small 1) by lia. change (1 =? 0) with false. run.
    destruct (String.eqb_spec (_read_mode (cam w)) "IMAGE") as [Er | Er];
      run; succeed H; cbn;
      destruct (String.eqb_spec (_acquisition_mode (cam w)) "SINGLE_SCAN")
        as [Ea | Ea];
      run; succeed H; cbn;
      destruct (String.eqb_spec (_trigger_mode (cam w)) "INTERNAL")
        as [Et | Et];
      run; succeed H; cbn;
      destruct (String.eqb_spec (_shutter (cam w)) "closed") as [Es | Es];
      run; succeed H; cbn; rewrite ?Live; run; succeed H; cbn;
      rewrite ?Et; cbn; succeed H; cbn;
      repeat split; try congruence; eauto. }
  destruct G as (G1 & G2 & G3 & G4 & G5 & G6 & G7 & G8 & G9).
  repeat split; auto.
  destruct (String.eqb_spec (_shutter (cam w)) "closed") as [Es | Es].
  - rewrite (G5 Es). discriminate.
  - rewrite (G6 Es). exact Es.
Qed.

End WillingDevice.

Lemma start_single_acquisition_on_a_willing_device_witness :
  result (start_single_acquisition (sim_dll never 0) dunder)
         (fresh (with_trigger_mode "EXTERNAL"
                   (with_read_mode "FVB" class_defaults)))
  = Return (PyBool true)
  /\ normalised
       (cam (after (start_single_acquisition (sim_dll never 0) dunder)
                   (fresh (with_trigger_mode "EXTERNAL"
                             (with_read_mode "FVB" class_defaults)))))
  /\ _shutter
       (cam (after (start_single_acquisition (sim_dll never 0) dunder)
                   (fresh (with_trigger_mode "EXTERNAL"
                             (with_read_mode "FVB" class_defaults)))))
     = "open".
Proof.
  destruct (start_single_acquisition_on_a_willing_device
              (sim_dll never 0) dunder
              (fresh (with_trigger_mode "EXTERNAL"
                        (with_read_mode "FVB" class_defaults))))
    as (R & _ & _ & _ & Opened & _ & _ & _ & N & _).
  - intros history c. reflexivity.
  - reflexivity.
  - split; [exact R |]. split; [exact N |]. apply Opened. reflexivity.
Defined.

Section ShutterAndStart.

Variable dll : list dll_call -> dll_call -> dll_reply.
Variable enum_class_attribute : string -> bool.

(** X7. A shutter that does not open does not hold the acquisition back.
    With the three modes in place, the shutter recorded as closed and the
    live flag clear, a SetShutter reporting a failure is logged as an error,
    the shutter stays recorded as closed, and the start goes ahead: with
    the start primitive reporting success the request returns True. *)
Theorem start_single_acquisition_with_stuck_shutter (w : world) (msg : string) :
  let m := start_single_acquisition dll enum_class_attribute in
  let open_call := SetShutter 0 1 0.1%float 0.1%float in
  _read_mode (cam w) = "IMAGE" ->
  _acquisition_mode (cam w) = "SINGLE_SCAN" ->
  _trigger_mode (cam w) = "INTERNAL" ->
  _shutter (cam w) = "closed" ->
  _live (cam w) = false ->
  lookup_code ERROR_DICT (code (dll (calls w) open_call)) = Some msg ->
  is_success msg = false ->
  reports_success (dll (open_call :: calls w) StartAcquisition) ->
  result m w = Return (PyBool true)
  /\ _shutter (cam (after m w)) = "closed"
  /\ calls (after m w)
     = WaitForAcquisition :: StartAcquisition :: open_call :: calls w
  /\ logs (after m w)
     = {| log_level := Error;
          log_format := "shutter did not open.{0}";
          log_args := [ArgStr msg] |} :: logs w.
Proof.
  intros m open_call Hr Ha Ht Hs Live L S Ok.
  unfold reports_success in Ok. subst m open_call.
  unfold start_single_acquisition, _set_shutter, _start_acquisition. run.
  rewrite Hr; cbn. rewrite Ha; cbn. rewrite Ht; cbn. rewrite Hs; cbn.
  rewrite !c_int_small by lia.
  rewrite (decode_failure _ _ _ L). cbn. rewrite S. cbn.
  rewrite Live. cbn. rewrite Ht. cbn.
  rewrite (decode_success _ _ Ok). cbn.
  rewrite is_success_DRV_SUCCESS. cbn. rewrite Hs. repeat split.
Qed.

(** X8. After a stop that the abort primitive answered by success, a
    single acquisition is never turned down as busy: whatever the device
    answers next, the request does not return -1, and when it returns at
    all the start primitive has been called. *)
Theorem start_after_stop_is_not_busy (w : world) :
  let m := stop_acquisition dll ;;
           start_single_acquisition dll enum_class_attribute in
  reports_success (dll (calls w) AbortAcquisition) ->
  result m w <> Return (PyInt (-1))
  /\ (returned (result m w) = true ->
      In StartAcquisition (calls (after m w))).
Proof.
  intros m Ok. unfold reports_success in Ok.
  set (w1 := {| cam := with_acquiring false (with_live false (cam w));
                calls := AbortAcquisition :: calls w; logs := logs w |}).
  assert (E : stop_acquisition dll w = (Return true, w1)).
  { unfold stop_acquisition, _abort_acquisition. run.
    rewrite (decode_success _ _ Ok). run.
    rewrite is_success_DRV_SUCCESS. reflexivity. }
  pose (Q := fun (o : outcome pyval) (w' : world) =>
               o <> Return (PyInt (-1))
               /\ (returned o = true -> In StartAcquisition (calls w'))).
  assert (Qraise : forall e w', without_start w1 w' ->
                                ~ closed_vocabulary dll -> Q (Raise e) w').
  { intros e w' _ _. split; discriminate. }
  assert (HQ : Q (result (start_single_acquisition dll enum_class_attribute) w1)
                 (after (start_single_acquisition dll enum_class_attribute) w1)).
  { unfold start_single_acquisition.
    apply prepare_then with (dll := dll) (w0 := w1);
      [apply preparing_get_cam | apply without_start_refl | | exact Qraise].
    intros c1 w2 R1.
    apply prepare_then with (dll := dll) (w0 := w1);
      [ | exact R1 | | exact Qraise].
    { destruct (negb _); [| apply preparing_ret].
      apply preparing_bind; [apply preparing_set_read_mode |].
      intros; apply preparing_ret. }
    intros _ w3 R2.
    apply prepare_then with (dll := dll) (w0 := w1);
      [apply preparing_get_cam | exact R2 | | exact Qraise].
    intros c2 w4 R3.
    apply prepare_then with (dll := dll) (w0 := w1);
      [ | exact R3 | | exact Qraise].
    { destruct (negb _); [| apply preparing_ret].
      apply preparing_bind; [apply preparing_set_acquisition_mode |].
      intros; apply preparing_ret. }
    intros _ w5 R4.
    apply prepare_then with (dll := dll) (w0 := w1);
      [apply preparing_get_cam | exact R4 | | exact Qraise].
    intros c3 w6 R5.
    apply prepare_then with (dll := dll) (w0 := w1);
      [ | exact R5 | | exact Qraise].
    { destruct (negb _); [| apply preparing_ret].
      apply preparing_bind; [apply preparing_set_trigger_mode |].
      intros; apply preparing_ret. }
    intros _ w7 R6.
    apply prepare_then with (dll := dll) (w0 := w1);
      [apply preparing_get_cam | exact R6 | | exact Qraise].
    intros c4 w8 R7.
    apply prepare_then with (dll := dll) (w0 := w1);
      [ | exact R7 | | exact Qraise].
    { destruct (String.eqb _ _); [apply preparing_open_shutter |].
      apply preparing_ret. }
    intros _ w9 R8. unfold _start_acquisition. run.
    destruct R8 as (L8 & _). rewrite L8. subst w1. cbn [cam _live with_acquiring with_live].
    cbn [fst snd].
    set (r := dll (calls w9) StartAcquisition).
    destruct (String.eqb _ _); run;
      destruct (decode_cases (code r)) as [C L | msg C L S | C L];
      unfold decode; rewrite L; run;
      rewrite ?is_success_DRV_SUCCESS, ?S; run;
      (split; [discriminate |]); intros T; try discriminate T;
      cbn; auto. }
  subst m. unfold result, after, bind. rewrite E. exact HQ.
Qed.

(** X9. [_open_shutter] and [_close_shutter] send SetShutter with mode 1
    and mode 2 and return its message, but neither updates the shutter
    record of the instance. So once the modes are in place and the shutter
    is recorded as open, closing it and requesting a single acquisition
    starts the acquisition without a call to open the shutter again. *)
Theorem close_shutter_is_not_recorded (shut_time : float) (w : world) :
  let start := start_single_acquisition dll enum_class_attribute in
  let closing := SetShutter 0 2 shut_time shut_time in
  calls (after (_open_shutter dll shut_time) w)
  = SetShutter 0 1 shut_time shut_time :: calls w
  /\ calls (after (_close_shutter dll shut_time) w) = closing :: calls w
  /\ cam (after (_open_shutter dll shut_time) w) = cam w
  /\ cam (after (_close_shutter dll shut_time) w) = cam w
  /\ (forall msg,
         lookup_code ERROR_DICT (code (dll (calls w) closing)) = Some msg ->
         result (_close_shutter dll shut_time) w = Return msg
         /\ (normalised (cam w) -> _live (cam w) = false ->
             calls (after (_close_shutter dll shut_time ;; start) w)
             = WaitForAcquisition :: StartAcquisition :: closing :: calls w)).
Proof.
  intros start closing. subst start closing.
  unfold _open_shutter, _close_shutter, _set_shutter. run.
  rewrite !c_int_small by lia.
  split; [| split; [| split; [| split]]].
  - destruct (decode_cases (code (dll (calls w)
                (SetShutter 0 1 shut_time shut_time))))
      as [C L | msg C L S | C L];
      unfold decode; rewrite L; reflexivity.
  - destruct (decode_cases (code (dll (calls w)
                (SetShutter 0 2 shut_time shut_time))))
      as [C L | msg C L S | C L];
      unfold decode; rewrite L; reflexivity.
  - destruct (decode_cases (code (dll (calls w)
                (SetShutter 0 1 shut_time shut_time))))
      as [C L | msg C L S | C L];
      unfold decode; rewrite L; reflexivity.
  - destruct (decode_cases (code (dll (calls w)
                (SetShutter 0 2 shut_time shut_time))))
      as [C L | msg C L S | C L];
      unfold decode; rewrite L; reflexivity.
  - intros msg L. rewrite (decode_failure _ _ _ L). run.
    split; [reflexivity |].
    intros (Hr & Ha & Ht & Hs) Live. apply String.eqb_neq in Hs.
    unfold start_single_acquisition, _start_acquisition. run.
    rewrite Hr; cbn. rewrite Ha; cbn. rewrite Ht; cbn. rewrite Hs; cbn.
    rewrite Live; cbn. rewrite Ht; cbn.
    set (r := dll _ StartAcquisition).
    destruct (decode_cases (code r)) as [C' L' | msg' C' L' S' | C' L'];
      unfold decode; rewrite L'; cbn;
      rewrite ?is_success_DRV_SUCCESS, ?S'; reflexivity.
Qed.

End ShutterAndStart.

Lemma start_single_acquisition_with_stuck_shutter_witness :
  result (start_single_acquisition (sim_dll is_set_shutter 20075) dunder)
         (fresh class_defaults)
  = Return (PyBool true)
  /\ _shutter (cam (after (start_single_acquisition
                             (sim_dll is_set_shutter 20075) dunder)
                          (fresh class_defaults)))
     = "closed".
Proof.
  destruct (start_single_acquisition_with_stuck_shutter
              (sim_dll is_set_shutter 20075) dunder (fresh class_defaults)
              "DRV_NOT_INITIALIZED")
    as (R & S & _); try reflexivity.
  split; [exact R | exact S].
Defined.

Lemma start_after_stop_is_not_busy_witness :
  result (stop_acquisition (sim_dll never 0) ;;
          start_single_acquisition (sim_dll never 0) dunder)
         (fresh (with_live true class_defaults))
  <> Return (PyInt (-1))
  /\ In StartAcquisition
        (calls (after (stop_acquisition (sim_dll never 0) ;;
                       start_single_acquisition (sim_dll never 0) dunder)
                      (fresh (with_live true class_defaults)))).
Proof.
  destruct (start_after_stop_is_not_busy (sim_dll never 0) dunder
              (fresh (with_live true class_defaults)) eq_refl)
    as (NotBusy & Started).
  split; [exact NotBusy | apply Started; reflexivity].
Defined.

Lemma close_shutter_is_not_recorded_witness :
  result (_close_shutter (sim_dll never 0) 0.1%float)
         (fresh (with_shutter "open" class_defaults))
  = Return "DRV_SUCCESS"
  /\ calls (after (_close_shutter (sim_dll never 0) 0.1%float ;;
                   start_single_acquisition (sim_dll never 0) dunder)
                  (fresh (with_shutter "open" class_defaults)))
     = [WaitForAcquisition; StartAcquisition;
        SetShutter 0 2 0.1%float 0.1%float].
Proof.
  destruct (close_shutter_is_not_recorded (sim_dll never 0) dunder 0.1%float
              (fresh (with_shutter "open" class_defaults)))
    as (_ & _ & _ & _ & Closed).
  destruct (Closed "DRV_SUCCESS" eq_refl) as (R & Next).
  split; [exact R |]. apply Next; [| reflexivity].
  repeat split. cbn. discriminate.
Defined.

(** ** Gain by value and by index *)

Lemma first_index_found (gain : float) (values : list float)
    (start index : Z) :
  first_index gain values start = Some index ->
  start <= index < start + Z.of_nat (List.length values)
  /\ py_float_eq gain (nth (Z.to_nat (index - start)) values 0%float) = true
  /\ (forall j, (j < Z.to_nat (index - start))%nat ->
                py_float_eq gain (nth j values 0%float) = false).
Proof.
  revert start. induction values as [| v rest IH]; intros start;
    cbn [first_index]; [discriminate |].
  destruct (py_float_eq gain v) eqn:E.
  - intros I. inversion I; subst. rewrite Z.sub_diag. cbn [List.length].
    split; [lia |]. split; [exact E |]. cbn. intros j Hj. lia.
  - intros I. destruct (IH _ I) as (R & Hit & Before).
    cbn [List.length].
    replace (Z.to_nat (index - start))
      with (S (Z.to_nat (index - (start + 1)))) by lia.
    split; [lia |]. split; [exact Hit |].
    intros [| j] Hj; [exact E |]. apply Before. lia.
Qed.

Lemma first_index_py_in (gain : float) (values : list float)
    (start index : Z) :
  first_index gain values start = Some index -> py_in gain values = true.
Proof.
  unfold py_in. revert start.
  induction values as [| v rest IH]; intros start;
    cbn [first_index existsb]; [discriminate |].
  destruct (py_float_eq gain v); cbn [orb]; [reflexivity | apply IH].
Qed.

Section GainIndex.

Variable dll : list dll_call -> dll_call -> dll_reply.

(** X10. When [set_gain] applies a gain, the index it hands to
    SetPreAmpGain and stores is the position of the first entry of the
    table that equals the requested value: the entry at that position
    equals it and no earlier entry does. The gain it stores is the value
    the caller gave, and the one further call it makes reads that entry
    back from the device. *)
Theorem set_gain_stores_first_match (gain : float) (index : Z) (w : world) :
  let table := gain_table dll w in
  let m := set_gain dll gain in
  let fetched := calls (after (fetch_gain_values dll) w) in
  first_index gain table 0 = Some index ->
  reports_success (dll fetched (SetPreAmpGain (c_int index))) ->
  cam (after m w) = with_gain gain (with_preamp_gain_index index (cam w))
  /\ 0 <= index < Z.of_nat (List.length table)
  /\ py_float_eq gain (nth (Z.to_nat index) table 0%float) = true
  /\ (forall j, (j < Z.to_nat index)%nat ->
                py_float_eq gain (nth j table 0%float) = false)
  /\ calls (after m w)
     = GetPreAmpGain (c_int index) :: SetPreAmpGain (c_int index) :: fetched.
Proof.
  intros table m fetched I Ok. unfold reports_success in Ok.
  destruct (first_index_found _ _ _ _ I) as (R & Hit & Before).
  rewrite Z.sub_0_r in Hit, Before.
  pose proof (first_index_py_in _ _ _ _ I) as In.
  destruct (fetch_gain_values_runs dll w) as (added & E & F).
  fold table in E. subst fetched. unfold after in Ok |- *. rewrite E in Ok |- *.
  cbn [snd calls] in Ok |- *.
  assert (G : exists o,
             m w = (o, {| cam := with_gain gain
                                   (with_preamp_gain_index index (cam w));
                          calls := GetPreAmpGain (c_int index)
                                   :: SetPreAmpGain (c_int index)
                                   :: added ++ calls w;
                          logs := logs w |})).
  { subst m. unfold set_gain. unfold bind at 1. rewrite E.
    fold table. rewrite In. cbn [negb]. rewrite I.
    unfold _set_preamp_gain, _get_preamp_gain. run.
    rewrite (decode_success _ _ Ok). run.
    rewrite is_success_DRV_SUCCESS. run.
    rewrite (decode_success _ _ Ok). run.
    rewrite is_success_DRV_SUCCESS. run.
    eexists. reflexivity. }
  destruct G as (o & G). rewrite G. cbn [snd cam calls].
  repeat split; auto; lia.
Qed.

(** X11. [_set_preamp_gain], which takes an index, stores on success the
    index and the gain the device then reports for it, so that [get_gain]
    returns the device's own figure; when SetPreAmpGain reports a failure
    nothing is stored, the gain is not read and the message is returned. *)
Theorem set_preamp_gain_stores_device_gain (index : Z) (w : world) :
  let m := _set_preamp_gain dll index in
  let setting := SetPreAmpGain (c_int index) in
  let device_gain :=
    out_float (dll (setting :: calls w) (GetPreAmpGain (c_int index))) in
  (reports_success (dll (calls w) setting) ->
   result m w = Return "DRV_SUCCESS"
   /\ cam (after m w)
      = with_gain device_gain (with_preamp_gain_index index (cam w))
   /\ result (m ;; get_gain) w = Return device_gain)
  /\ (forall msg,
         lookup_code ERROR_DICT (code (dll (calls w) setting)) = Some msg ->
         is_success msg = false ->
         result m w = Return msg
         /\ cam (after m w) = cam w
         /\ calls (after m w) = setting :: calls w).
Proof.
  intros m setting device_gain. subst m setting device_gain.
  unfold _set_preamp_gain, _get_preamp_gain, get_gain. run. split.
  - intros Ok. unfold reports_success in Ok.
    rewrite (decode_success _ _ Ok). run.
    rewrite is_success_DRV_SUCCESS. run.
    rewrite (decode_success _ _ Ok). run. repeat split.
  - intros msg L S. rewrite (decode_failure _ _ _ L). run. rewrite S. run.
    rewrite (decode_failure _ _ _ L). repeat split.
Qed.

End GainIndex.

Lemma set_gain_stores_first_match_witness :
  _preamp_gain_index
    (cam (after (set_gain (sim_dll never 0) 5.1%float) (fresh class_defaults)))
  = 2
  /\ _gain (cam (after (set_gain (sim_dll never 0) 5.1%float)
                       (fresh class_defaults)))
     = 5.1%float.
Proof.
  destruct (set_gain_stores_first_match (sim_dll never 0) 5.1%float 2
              (fresh class_defaults) eq_refl eq_refl) as (C & _).
  rewrite C. split; reflexivity.
Defined.

Lemma set_preamp_gain_stores_device_gain_witness :
  result (_set_preamp_gain (sim_dll never 0) 1 ;; get_gain)
         (fresh class_defaults)
  = Return 2.4%float
  /\ cam (after (_set_preamp_gain (sim_dll is_set_preamp_gain 20066) 7)
                (fresh class_defaults))
     = class_defaults.
Proof.
  destruct (set_preamp_gain_stores_device_gain (sim_dll never 0) 1
              (fresh class_defaults)) as (Ok & _).
  destruct (Ok eq_refl) as (_ & _ & Read).
  destruct (set_preamp_gain_stores_device_gain
              (sim_dll is_set_preamp_gain 20066) 7 (fresh class_defaults))
    as (_ & Ko).
  destruct (Ko "DRV_P1INVALID" eq_refl eq_refl) as (_ & Kept & _).
  split; [exact Read | exact Kept].
Defined.

(** ** Retrieved frames *)

Lemma row_of_length {A} (flat : list A) (rows cols i : nat) :
  List.length flat = (rows * cols)%nat -> (i < rows)%nat ->
  List.length (row_of flat cols i) = cols.
Proof.
  intros L H. unfold row_of. rewrite length_firstn, length_skipn, L. nia.
Qed.

(** The cell at row [i], column [j] of a reshaped frame, after the baseline
    subtraction, is the sample at position [i * cols + j]. *)
Lemma frame_cell (samples : list Z) (rows cols : nat) (baseline : Z)
    (i j : nat) :
  List.length samples = (rows * cols)%nat ->
  (i < rows)%nat -> (j < cols)%nat ->
  nth j (nth i (subtract_baseline (map (row_of samples cols) (seq 0 rows))
                                  baseline) []) 0
  = nth (i * cols + j) samples 0 - baseline.
Proof.
  intros L Hi Hj. unfold subtract_baseline. rewrite map_map.
  rewrite (nth_indep _ []
             (map (fun v => v - baseline) (row_of samples cols 0%nat)))
    by (rewrite length_map, length_seq; exact Hi).
  rewrite (map_nth (fun k => map (fun v => v - baseline)
                                 (row_of samples cols k))).
  rewrite seq_nth by exact Hi. cbn [Nat.add].
  rewrite (nth_indep _ 0 (0 - baseline))
    by (rewrite length_map, (row_of_length _ rows) by assumption; exact Hj).
  rewrite (map_nth (fun v => v - baseline)).
  unfold row_of. rewrite nth_firstn.
  replace (j <? cols)%nat with true by (symmetry; apply Nat.ltb_lt; exact Hj).
  now rewrite nth_skipn.
Qed.

Lemma filled_whole (cimage written : list Z) :
  List.length written = List.length cimage ->
  filled cimage written = map c_int written.
Proof.
  intros L. unfold filled.
  rewrite <- L, firstn_all, skipn_all2 by lia. apply app_nil_r.
Qed.

Lemma expected_dim_cases (w : world) :
  (exists dim, expected_dim w = (Return (Some dim), w)
               /\ dim_assigned (cam w) = true)
  \/ (result expected_dim w = Return None
      /\ cam (after expected_dim w) = cam w
      /\ calls (after expected_dim w) = calls w
      /\ dim_assigned (cam w) = false).
Proof.
  unfold expected_dim, dim_assigned. run.
  destruct (String.eqb (_read_mode (cam w)) "IMAGE");
    destruct (String.eqb (_read_mode (cam w)) "SINGLE_TRACK");
    destruct (String.eqb (_read_mode (cam w)) "FVB");
    destruct (String.eqb (_acquisition_mode (cam w)) "SINGLE_SCAN");
    destruct (String.eqb (_acquisition_mode (cam w)) "KINETICS");
    destruct (String.eqb (_acquisition_mode (cam w)) "RUN_TILL_ABORT");
    cbn; (left; eexists; split; reflexivity) || (right; repeat split).
Qed.

Section Frames.

Variable dll : list dll_call -> dll_call -> dll_reply.

(** X12. A frame that is read successfully comes back row-major with the
    baseline taken off. In read mode 'IMAGE' with acquisition mode
    'SINGLE_SCAN' or 'RUN_TILL_ABORT', when the read primitive reports
    success after filling the width * height buffer, the frame returned
    (and kept as the current image) has height rows of width cells, and
    the cell in row i, column j is sample number i * width + j, as a
    32-bit value, minus the baseline. *)
Theorem get_acquired_data_frame_is_row_major (w : world) :
  let c := cam w in
  let m := get_acquired_data dll in
  let r := dll (calls w) (retrieval_call c (_width c * _height c)) in
  _read_mode c = "IMAGE" ->
  _acquisition_mode c = "SINGLE_SCAN" \/ _acquisition_mode c = "RUN_TILL_ABORT" ->
  0 <= _width c -> 0 <= _height c ->
  reports_success r ->
  List.length (out_buffer r) = Z.to_nat (_width c * _height c) ->
  exists frame,
    result m w = Return frame
    /\ _cur_image (cam (after m w)) = Some frame
    /\ List.length frame = Z.to_nat (_height c)
    /\ (forall i, (i < Z.to_nat (_height c))%nat ->
                  List.length (nth i frame []) = Z.to_nat (_width c))
    /\ (forall i j,
           (i < Z.to_nat (_height c))%nat -> (j < Z.to_nat (_width c))%nat ->
           nth j (nth i frame []) 0
           = c_int (nth (i * Z.to_nat (_width c) + j) (out_buffer r) 0)
             - _baseline c).
Proof.
  intros c m r Hr Ha Hw Hh Ok Full. unfold reports_success in Ok.
  set (W := Z.to_nat (_width c)). set (H := Z.to_nat (_height c)).
  assert (N : Z.to_nat (_width c * _height c) = (H * W)%nat)
    by (subst W H; rewrite <- Z2Nat.inj_mul by lia; f_equal; lia).
  assert (D : expected_dim w = (Return (Some (_width c * _height c)), w)).
  { unfold expected_dim. run. fold c. rewrite Hr. cbn.
    destruct Ha as [-> | ->]; reflexivity. }
  set (samples := map c_int (out_buffer r)).
  assert (Ls : List.length samples = (H * W)%nat)
    by (subst samples; rewrite length_map; congruence).
  set (frame := subtract_baseline (map (row_of samples W) (seq 0 H))
                                  (_baseline c)).
  assert (R : exists w', m w = (Return frame, w')
                         /\ _cur_image (cam w') = Some frame).
  { subst m. unfold get_acquired_data.
    unfold bind at 1. rewrite D. run.
    unfold np_zeros, c_int_array.
    replace (_width c * _height c <? 0) with false
      by (symmetry; apply Z.ltb_ge; nia).
    run. fold c. fold r. rewrite (decode_success _ _ Ok). run.
    rewrite is_success_DRV_SUCCESS. run.
    rewrite filled_whole by (rewrite repeat_length; exact Full).
    fold samples. unfold np_reshape, reshape_shape. rewrite Ls, <- N.
    rewrite Z2Nat.id by nia.
    replace (_height c =? -1) with false by (symmetry; apply Z.eqb_neq; lia).
    replace (_width c =? -1) with false by (symmetry; apply Z.eqb_neq; lia).
    replace (_height c <? 0) with false by (symmetry; apply Z.ltb_ge; lia).
    replace (_width c <? 0) with false by (symmetry; apply Z.ltb_ge; lia).
    replace (_height c * _width c =? _width c * _height c) with true
      by (symmetry; apply Z.eqb_eq; lia).
    cbn [andb orb]. run. fold W H. fold frame.
    eexists. split; reflexivity. }
  destruct R as (w' & R & I). exists frame.
  unfold result, after. rewrite R. cbn [fst snd].
  split; [reflexivity |]. split; [exact I |].
  split; [| split].
  - subst frame. unfold subtract_baseline.
    now rewrite !length_map, length_seq.
  - intros i Hi. subst frame. unfold subtract_baseline. rewrite map_map.
    rewrite (nth_indep _ []
               (map (fun v => v - _baseline c) (row_of samples W 0%nat)))
      by (rewrite length_map, length_seq; exact Hi).
    rewrite (map_nth (fun k => map (fun v => v - _baseline c)
                                   (row_of samples W k))).
    rewrite seq_nth by exact Hi. rewrite length_map.
    now apply row_of_length with H.
  - intros i j Hi Hj. subst frame.
    rewrite (frame_cell samples H W) by assumption.
    subst samples. change 0 with (c_int 0) at 1.
    now rewrite (map_nth c_int).
Qed.

(** X13. For a pair of read mode and acquisition mode outside the ones
    [get_acquired_data] assigns a buffer length to, the method raises
    UnboundLocalError before any transport call and leaves the instance as
    it was: nothing is read and no current image is stored. *)
Theorem get_acquired_data_uncovered_mode (w : world) :
  dim_assigned (cam w) = false ->
  result (get_acquired_data dll) w = Raise UnboundLocalError
  /\ calls (after (get_acquired_data dll) w) = calls w
  /\ cam (after (get_acquired_data dll) w) = cam w.
Proof.
  intros U.
  destruct (expected_dim_cases w) as [(dim & _ & A) | (R & C & K & _)];
    [congruence |].
  assert (G : exists w',
             get_acquired_data dll w = (Raise UnboundLocalError, w')
             /\ calls w' = calls w /\ cam w' = cam w).
  { unfold result, after in R, C, K.
    unfold get_acquired_data. unfold bind at 1.
    destruct (expected_dim w) as [[[dim |] | e] w1]; cbn [fst snd] in *;
      try discriminate.
    run. eexists. split; [reflexivity |]. auto. }
  destruct G as (w' & E & G1 & G2).
  unfold result, after. rewrite E. cbn [fst snd]. auto.
Qed.

(** X14. Reading a frame never touches the configuration: whatever the
    modes, the geometry and the answer of the device, [get_acquired_data]
    leaves every attribute as it was except, when it returns a frame, the
    current image, which is then that frame; and it makes at most one
    transport call, the read primitive of the current acquisition mode. *)
Theorem get_acquired_data_writes_current_image_only (w : world) :
  let m := get_acquired_data dll in
  (cam (after m w) = cam w /\ returned (result m w) = false
   \/ exists frame,
       result m w = Return frame
       /\ cam (after m w) = with_cur_image (Some frame) (cam w))
  /\ (calls (after m w) = calls w
      \/ exists dim, calls (after m w) = retrieval_call (cam w) dim :: calls w).
Proof.
  intros m.
  assert (G : exists o w',
             m w = (o, w')
             /\ (cam w' = cam w /\ returned o = false
                 \/ exists frame,
                     o = Return frame
                     /\ cam w' = with_cur_image (Some frame) (cam w))
             /\ (calls w' = calls w
                 \/ exists dim,
                     calls w' = retrieval_call (cam w) dim :: calls w)).
  { destruct (expected_dim_cases w) as [(dim & D & _) | (R & C & K & _)].
    - subst m. unfold get_acquired_data. unfold bind at 1. rewrite D. run.
      unfold np_zeros, c_int_array.
      destruct (dim <? 0); run; [do 2 eexists; split; [reflexivity |]; auto |].
      set (r := dll _ _).
      destruct (decode_cases (code r)) as [C L | msg C L S | C L];
        unfold decode; rewrite L; run;
        rewrite ?is_success_DRV_SUCCESS, ?S; run;
        unfold np_reshape;
        try match goal with
            | |- context [reshape_shape ?a ?b ?c] =>
                destruct (reshape_shape a b c) as [[rows cols] |]
            end;
        run; do 2 eexists; (split; [reflexivity |]); cbn [cam calls];
        (split; [| right; eexists; reflexivity]);
        (left; split; reflexivity) || (right; eexists; split; reflexivity).
    - subst m. unfold result, after in R, C, K.
      unfold get_acquired_data. unfold bind at 1.
      destruct (expected_dim w) as [[[dim |] | e] w1]; cbn [fst snd] in *;
        try discriminate.
      run. do 2 eexists. split; [reflexivity |]. cbn. auto. }
  destruct G as (o & w' & E & G1 & G2).
  subst m. unfold result, after. rewrite E. cbn [fst snd]. split; assumption.
Qed.

End Frames.

Lemma get_acquired_data_frame_is_row_major_witness :
  exists frame,
    result (get_acquired_data (counting_dll never 0)) (fresh (detector 3 2))
    = Return frame
    /\ nth 0 (nth 0 frame []) 0 = -200
    /\ nth 2 (nth 0 frame []) 0 = -198
    /\ nth 0 (nth 1 frame []) 0 = -197
    /\ nth 2 (nth 1 frame []) 0 = -195.
Proof.
  destruct (get_acquired_data_frame_is_row_major (counting_dll never 0)
              (fresh (detector 3 2)))
    as (frame & R & _ & _ & _ & Cell).
  - reflexivity.
  - left. reflexivity.
  - cbn. lia.
  - cbn. lia.
  - reflexivity.
  - reflexivity.
  - exists frame. split; [exact R |].
    rewrite (Cell 0%nat 0%nat), (Cell 0%nat 2%nat), (Cell 1%nat 0%nat),
      (Cell 1%nat 2%nat) by (cbn; lia).
    repeat split.
Defined.

Lemma get_acquired_data_uncovered_mode_witness :
  result (get_acquired_data (sim_dll never 0))
         (fresh (with_read_mode "MULTI_TRACK" (detector 512 512)))
  = Raise UnboundLocalError
  /\ result (get_acquired_data (sim_dll never 0))
            (fresh (with_acquisition_mode "ACCUMULATE" (detector 512 512)))
     = Raise UnboundLocalError
  /\ calls (after (get_acquired_data (sim_dll never 0))
                  (fresh (with_acquisition_mode "FAST_KINETICS"
                            (with_read_mode "FVB" (detector 512 512)))))
     = [].
Proof.
  split; [| split].
  - apply (get_acquired_data_uncovered_mode (sim_dll never 0)
             (fresh (with_read_mode "MULTI_TRACK" (detector 512 512)))
             eq_refl).
  - apply (get_acquired_data_uncovered_mode (sim_dll never 0)
             (fresh (with_acquisition_mode "ACCUMULATE" (detector 512 512)))
             eq_refl).
  - apply (get_acquired_data_uncovered_mode (sim_dll never 0)
             (fresh (with_acquisition_mode "FAST_KINETICS"
                       (with_read_mode "FVB" (detector 512 512))))
             eq_refl).
Defined.

(** * Properties of the rest of the driver *)

(** Unfolds a straight-line method applied to a session. *)
Ltac srun :=
  repeat progress
    (unfold Driver.outcome_of, Driver.session_after, Driver.sbind,
       Driver.call, Driver.sassign, Driver.slog, Driver.sget, Driver.sret,
       Driver.sraise;
     cbn [fst snd Driver.instance Driver.trace Driver.journal
            Driver._accumulate Driver._kinetic negb]).

Lemma sdecode_success (error_code : Z) (s : Driver.session) :
  error_code = success_code ->
  Driver.sdecode error_code s = (Return DRV_SUCCESS, s).
Proof. intros ->. reflexivity. Qed.

Lemma sdecode_failure (error_code : Z) (msg : string) (s : Driver.session) :
  lookup_code ERROR_DICT error_code = Some msg ->
  Driver.sdecode error_code s = (Return msg, s).
Proof. unfold Driver.sdecode. now intros ->. Qed.

Lemma acquisition_mode_members (mode : string) (n_mode : Z) :
  lookup_name AcquisitionMode mode = Some n_mode ->
  mode = "SINGLE_SCAN" \/ mode = "ACCUMULATE" \/ mode = "KINETICS"
  \/ mode = "FAST_KINETICS" \/ mode = "RUN_TILL_ABORT".
Proof.
  unfold AcquisitionMode, lookup_name.
  repeat match goal with
         | |- context [String.eqb ?k mode] =>
             destruct (String.eqb_spec k mode); [subst; tauto |]
         end.
  discriminate.
Qed.

Section FrameTransfer.

Variable driver : list Driver.entry_point -> Driver.entry_point
                  -> Driver.driver_reply.

(** X15. [_set_frame_transfer] turns the request down with -1, without a
    transport call, in acquisition mode 'SINGLE_SCAN' only. Its second
    guard compares with 'KINETIC', which is no acquisition mode, so in
    every other mode of the enumeration, 'KINETICS' and 'FAST_KINETICS'
    included, SetFrameTransferMode is called, with 1 for on and 0 for off;
    the result is 0 when it reports success and -1 when it reports a
    failure, and in every case the instance is unchanged. *)
Theorem set_frame_transfer_guard (on : bool) (s : Driver.session) :
  let m := Driver._set_frame_transfer driver on in
  let setting := Driver.SetFrameTransferMode (if on then 1 else 0) in
  let mode := _acquisition_mode (Driver.instance s) in
  Driver.instance (Driver.session_after m s) = Driver.instance s
  /\ (mode = "SINGLE_SCAN" ->
      Driver.outcome_of m s = Return (-1)
      /\ Driver.trace (Driver.session_after m s) = Driver.trace s)
  /\ (forall n_mode,
         lookup_name AcquisitionMode mode = Some n_mode ->
         mode <> "SINGLE_SCAN" ->
         Driver.trace (Driver.session_after m s) = setting :: Driver.trace s
         /\ (reports_success (Driver.basic (driver (Driver.trace s) setting)) ->
             Driver.outcome_of m s = Return 0)
         /\ (reports_failure (Driver.basic (driver (Driver.trace s) setting)) ->
             Driver.outcome_of m s = Return (-1))).
Proof.
  intros m setting mode. subst m. unfold Driver._set_frame_transfer. srun.
  fold mode. split; [| split].
  - destruct (String.eqb mode "SINGLE_SCAN" || String.eqb mode "KINETIC");
      srun; [reflexivity |].
    destruct on; srun;
      match goal with
      | |- context [Driver.sdecode (code ?r)] =>
          destruct (decode_cases (code r)) as [C L | msg C L S | C L]
      end;
      unfold Driver.sdecode; rewrite L; srun;
      rewrite ?is_success_DRV_SUCCESS, ?S; reflexivity.
  - intros ->. cbn. split; reflexivity.
  - intros n_mode F N.
    assert (G : String.eqb mode "SINGLE_SCAN" || String.eqb mode "KINETIC"
                = false).
    { apply String.eqb_neq in N. rewrite N.
      destruct (acquisition_mode_members _ _ F)
        as [E | [E | [E | [E | E]]]]; rewrite E; reflexivity. }
    rewrite G. subst setting. unfold reports_success, reports_failure.
    destruct on; srun;
      match goal with
      | |- context [Driver.sdecode (code ?r)] =>
          destruct (decode_cases (code r)) as [C L | msg C L S | C L]
      end;
      unfold Driver.sdecode; rewrite L; srun;
      rewrite ?is_success_DRV_SUCCESS, ?S; srun;
      (split; [reflexivity |]); split; intros K;
      try reflexivity; try contradiction;
      destruct K as (msg' & L' & S');
      pose proof is_success_DRV_SUCCESS; congruence.
Qed.

End FrameTransfer.

Lemma set_frame_transfer_guard_witness :
  Driver.outcome_of (Driver._set_frame_transfer (sim_driver no_entry 0) true)
                    (fresh_session class_defaults)
  = Return (-1)
  /\ Driver.trace
       (Driver.session_after
          (Driver._set_frame_transfer (sim_driver no_entry 0) true)
          (fresh_session (kinetic_series "IMAGE" 512 512 4)))
     = [Driver.SetFrameTransferMode 1]
  /\ Driver.outcome_of
       (Driver._set_frame_transfer (sim_driver no_entry 0) false)
       (fresh_session (with_acquisition_mode "FAST_KINETICS" class_defaults))
     = Return 0
  /\ Driver.outcome_of
       (Driver._set_frame_transfer (sim_driver every_entry 20078) false)
       (fresh_session (with_acquisition_mode "FAST_KINETICS" class_defaults))
     = Return (-1).
Proof.
  destruct (set_frame_transfer_guard (sim_driver no_entry 0) true
              (fresh_session class_defaults)) as (_ & Single & _).
  destruct (set_frame_transfer_guard (sim_driver no_entry 0) true
              (fresh_session (kinetic_series "IMAGE" 512 512 4)))
    as (_ & _ & Kinetics).
  destruct (set_frame_transfer_guard (sim_driver no_entry 0) false
              (fresh_session
                 (with_acquisition_mode "FAST_KINETICS" class_defaults)))
    as (_ & _ & Fast).
  destruct (set_frame_transfer_guard (sim_driver every_entry 20078) false
              (fresh_session
                 (with_acquisition_mode "FAST_KINETICS" class_defaults)))
    as (_ & _ & Fast').
  split; [apply Single; reflexivity |].
  split; [apply (Kinetics 3); [reflexivity | discriminate] |].
  split.
  - destruct (Fast 4) as (_ & Ok & _); [reflexivity | discriminate |].
    apply Ok. reflexivity.
  - destruct (Fast' 4) as (_ & _ & Ko); [reflexivity | discriminate |].
    apply Ko. exists "DRV_INVALID_MODE". split; reflexivity.
Defined.

Section Exposure.

Variable driver : list Driver.entry_point -> Driver.entry_point
                  -> Driver.driver_reply.

(** X16. [get_exposure] does not return the stored exposure: it queries the
    acquisition timings and stores what the device wrote (exposure,
    accumulate and kinetic cycle time) before it looks at the status, so
    the stored exposure is overwritten and returned whether the query
    reported success or a failure; [_get_acquisition_timings] itself
    returns (-1, -1, -1) on a failure, after that overwrite. A status
    outside the dictionary raises KeyError, also after the overwrite. *)
Theorem get_exposure_takes_the_device_figure (s : Driver.session) :
  let r := driver (Driver.trace s) Driver.GetAcquisitionTimings in
  let device := out_float (Driver.basic r) in
  let m := Driver.get_exposure driver in
  let timings := Driver._get_acquisition_timings driver in
  _exposure (Driver.instance (Driver.session_after m s)) = device
  /\ Driver._accumulate (Driver.session_after m s) = Some (Driver.out_float2 r)
  /\ Driver._kinetic (Driver.session_after m s) = Some (Driver.out_float3 r)
  /\ (reports_success (Driver.basic r) \/ reports_failure (Driver.basic r) ->
      Driver.outcome_of m s = Return device)
  /\ (reports_failure (Driver.basic r) ->
      Driver.outcome_of timings s = Return (PyInt (-1), PyInt (-1), PyInt (-1))
      /\ _exposure (Driver.instance (Driver.session_after timings s)) = device)
  /\ (lookup_code ERROR_DICT (code (Driver.basic r)) = None ->
      Driver.outcome_of m s = Raise KeyError).
Proof.
  intros r device m timings. subst m timings.
  unfold Driver.get_exposure, Driver._get_acquisition_timings. srun.
  fold r. fold device. unfold reports_success, reports_failure.
  destruct (decode_cases (code (Driver.basic r))) as [C L | msg C L S | C L];
    unfold Driver.sdecode; rewrite L; srun;
    rewrite ?is_success_DRV_SUCCESS, ?S; srun;
    (split; [reflexivity |]); (split; [reflexivity |]);
    (split; [reflexivity |]); (split; [| split]).
  - reflexivity.
  - intros (msg' & L' & S'). pose proof is_success_DRV_SUCCESS. congruence.
  - discriminate.
  - reflexivity.
  - split; reflexivity.
  - discriminate.
  - intros [K | (msg' & L' & S')]; [contradiction | congruence].
  - intros (msg' & L' & S'). congruence.
  - reflexivity.
Qed.

(** X17. Setting an exposure and reading it back gives the device's figure,
    not the value that was set: whatever value is handed to
    [set_exposure], and whether or not it was applied, [get_exposure]
    returns and stores the exposure the device reports in its timings. *)
Theorem exposure_read_back_is_the_device_figure (exposure : float)
    (s : Driver.session) :
  let setting := Driver.Core (SetExposureTime exposure) in
  let m := Driver.sbind (Driver.core driver
                           (fun dll => set_exposure dll exposure))
                        (fun _ => Driver.get_exposure driver) in
  let r := driver (setting :: Driver.trace s) Driver.GetAcquisitionTimings in
  lookup_code ERROR_DICT
    (code (Driver.basic (driver (Driver.trace s) setting))) <> None ->
  lookup_code ERROR_DICT (code (Driver.basic r)) <> None ->
  Driver.outcome_of m s = Return (out_float (Driver.basic r))
  /\ _exposure (Driver.instance (Driver.session_after m s))
     = out_float (Driver.basic r)
  /\ Driver.trace (Driver.session_after m s)
     = Driver.GetAcquisitionTimings :: setting :: Driver.trace s.
Proof.
  intros setting m r K1 K2. subst m setting.
  unfold Driver.get_exposure, Driver._get_acquisition_timings, Driver.core,
    Driver.core_dll, set_exposure. srun. run. cbn [map app].
  destruct (decode_cases
              (code (Driver.basic
                       (driver (Driver.trace s)
                               (Driver.Core (SetExposureTime exposure))))))
    as [C L | msg C L S | C L]; [| | exfalso; exact (K1 L)];
    unfold decode; rewrite L; run;
    rewrite ?is_success_DRV_SUCCESS, ?S; run; cbn [map app]; srun;
    fold r;
    (destruct (decode_cases (code (Driver.basic r)))
       as [C' L' | msg' C' L' S' | C' L']; [| | exfalso; exact (K2 L')]);
    unfold Driver.sdecode; rewrite L'; srun;
    rewrite ?is_success_DRV_SUCCESS, ?S'; srun; repeat split.
Qed.

(** X18. The cooler and the output amplifier are switched without a
    record: [_set_cooler] calls CoolerON or CoolerOFF and
    [_set_output_amplifier] calls SetOutputAmplifier, each returning the
    decoded status, and neither changes any attribute of the instance, so
    the configured cooler state and amplifier stay what they were. *)
Theorem cooler_and_amplifier_keep_no_record (state : bool) (typ : Z)
    (s : Driver.session) :
  let cooling := Driver._set_cooler driver state in
  let amplifier := Driver._set_output_amplifier driver typ in
  let switch := if state then Driver.CoolerON else Driver.CoolerOFF in
  Driver.instance (Driver.session_after cooling s) = Driver.instance s
  /\ Driver.trace (Driver.session_after cooling s) = switch :: Driver.trace s
  /\ Driver.instance (Driver.session_after amplifier s) = Driver.instance s
  /\ Driver.trace (Driver.session_after amplifier s)
     = Driver.SetOutputAmplifier typ :: Driver.trace s
  /\ (forall msg,
         lookup_code ERROR_DICT
           (code (Driver.basic (driver (Driver.trace s) switch))) = Some msg ->
         Driver.outcome_of cooling s = Return msg)
  /\ (forall msg,
         lookup_code ERROR_DICT
           (code (Driver.basic (driver (Driver.trace s)
                                       (Driver.SetOutputAmplifier typ))))
         = Some msg ->
         Driver.outcome_of amplifier s = Return msg).
Proof.
  intros cooling amplifier switch. subst cooling amplifier switch.
  unfold Driver._set_cooler, Driver._set_output_amplifier.
  repeat split; intros; destruct state; srun;
    match goal with
    | |- context [Driver.sdecode (code ?r)] =>
        destruct (decode_cases (code r)) as [C L | msg' C L S | C L]
    end;
    unfold Driver.sdecode; rewrite L; srun; congruence.
Qed.

End Exposure.

Lemma get_exposure_takes_the_device_figure_witness :
  Driver.outcome_of (Driver.get_exposure (sim_driver is_timings 20072))
                    (fresh_session class_defaults)
  = Return 0.25%float
  /\ Driver.outcome_of
       (Driver._get_acquisition_timings (sim_driver is_timings 20072))
       (fresh_session class_defaults)
     = Return (PyInt (-1), PyInt (-1), PyInt (-1))
  /\ Driver.outcome_of (Driver.get_exposure (sim_driver is_timings 7))
                       (fresh_session class_defaults)
     = Raise KeyError.
Proof.
  destruct (get_exposure_takes_the_device_figure (sim_driver is_timings 20072)
              (fresh_session class_defaults))
    as (_ & _ & _ & Known & Failed & _).
  destruct (get_exposure_takes_the_device_figure (sim_driver is_timings 7)
              (fresh_session class_defaults))
    as (_ & _ & _ & _ & _ & Unknown).
  split; [| split].
  - apply Known. right. exists "DRV_ACQUIRING". split; reflexivity.
  - apply Failed. exists "DRV_ACQUIRING". split; reflexivity.
  - apply Unknown. reflexivity.
Defined.

Lemma exposure_read_back_is_the_device_figure_witness :
  Driver.outcome_of
    (Driver.sbind (Driver.core (sim_driver no_entry 0)
                               (fun dll => set_exposure dll 1.5%float))
                  (fun _ => Driver.get_exposure (sim_driver no_entry 0)))
    (fresh_session class_defaults)
  = Return 0.25%float.
Proof.
  apply (exposure_read_back_is_the_device_figure (sim_driver no_entry 0)
           1.5%float (fresh_session class_defaults)); cbn; discriminate.
Defined.

Lemma cooler_and_amplifier_keep_no_record_witness :
  Driver.outcome_of (Driver._set_cooler (sim_driver no_entry 0) false)
                    (fresh_session class_defaults)
  = Return "DRV_SUCCESS"
  /\ Driver.outcome_of
       (Driver._set_output_amplifier (sim_driver every_entry 20066) 0)
       (fresh_session class_defaults)
     = Return "DRV_P1INVALID".
Proof.
  destruct (cooler_and_amplifier_keep_no_record (sim_driver no_entry 0)
              false 0 (fresh_session class_defaults))
    as (_ & _ & _ & _ & Cooler & _).
  destruct (cooler_and_amplifier_keep_no_record (sim_driver every_entry 20066)
              false 0 (fresh_session class_defaults))
    as (_ & _ & _ & _ & _ & Amplifier).
  split; [apply Cooler | apply Amplifier]; reflexivity.
Defined.

(** ** Shift speeds *)





Section ShiftSpeeds.

Variable driver : list Driver.entry_point -> Driver.entry_point
                  -> Driver.driver_reply.


End ShiftSpeeds.


(** ** Deactivation *)

Section Deactivation.

Variable driver : list Driver.entry_point -> Driver.entry_point
                  -> Driver.driver_reply.

(** X20. [on_deactivate] shuts the device down whatever the abort and the
    closing of the shutter answered, as long as their status codes are
    known: the calls are AbortAcquisition, SetShutter(0, 2, 0.1, 0.1) and
    ShutDown, in that order. The live and acquiring flags are cleared only
    when the abort reported success; on a reported failure the instance is
    left as it was, and in every case the shutter record is not updated. *)
Theorem on_deactivate_always_shuts_down (s : Driver.session) :
  let m := Driver.on_deactivate driver in
  let abort := Driver.Core AbortAcquisition in
  let closing := Driver.Core (SetShutter 0 2 0.1%float 0.1%float) in
  let r_abort := Driver.basic (driver (Driver.trace s) abort) in
  let r_closing := Driver.basic (driver (abort :: Driver.trace s) closing) in
  reports_success r_abort \/ reports_failure r_abort ->
  reports_success r_closing \/ reports_failure r_closing ->
  Driver.trace (Driver.session_after m s)
  = Driver.ShutDown :: closing :: abort :: Driver.trace s
  /\ _shutter (Driver.instance (Driver.session_after m s))
     = _shutter (Driver.instance s)
  /\ (reports_success r_abort ->
      Driver.instance (Driver.session_after m s)
      = with_acquiring false (with_live false (Driver.instance s)))
  /\ (reports_failure r_abort ->
      Driver.instance (Driver.session_after m s) = Driver.instance s).
Proof.
  intros m abort closing r_abort r_closing K1 K2.
  assert (D1 : exists msg, lookup_code ERROR_DICT (code r_abort) = Some msg).
  { destruct K1 as [K | (msg & L & _)]; [| exists msg; exact L].
    exists DRV_SUCCESS. apply lookup_success. exact K. }
  assert (D2 : exists msg, lookup_code ERROR_DICT (code r_closing) = Some msg).
  { destruct K2 as [K | (msg & L & _)]; [| exists msg; exact L].
    exists DRV_SUCCESS. apply lookup_success. exact K. }
  destruct D1 as (msg1 & L1). destruct D2 as (msg2 & L2).
  subst m. unfold Driver.on_deactivate, Driver._shut_down, Driver.core,
    Driver.core_dll, stop_acquisition, _abort_acquisition, _close_shutter,
    _set_shutter.
  srun. run. cbn [map app]. fold abort. fold r_abort.
  rewrite (decode_failure _ _ _ L1). run.
  assert (A : is_success msg1 = true <-> code r_abort = success_code)
    by (apply lookup_is_success; exact L1).
  destruct (is_success msg1) eqn:S1; run; cbn [map app]; srun; run;
    rewrite !c_int_small by lia; cbn [map app];
    fold closing; fold r_closing;
    rewrite (decode_failure _ _ _ L2); run; cbn [map app]; srun;
    match goal with
    | |- context [Driver.sdecode (code ?r)] =>
        destruct (decode_cases (code r)) as [C L | msg C L S | C L]
    end;
    unfold Driver.sdecode; rewrite L; srun;
    (split; [reflexivity |]); (split; [reflexivity |]);
    unfold reports_success, reports_failure;
    (split; [intros K | intros (msg' & L' & S')]);
    try reflexivity.
  all: try (exfalso; apply A in K; discriminate K).
  all: exfalso; rewrite L1 in L'; inversion L'; subst msg';
    rewrite S1 in S'; discriminate S'.
Qed.

End Deactivation.

Lemma on_deactivate_always_shuts_down_witness :
  Driver.trace
    (Driver.session_after
       (Driver.on_deactivate (sim_driver is_core_abort_or_shutter 20075))
       (fresh_session (with_shutter "open" (with_live true class_defaults))))
  = [Driver.ShutDown; Driver.Core (SetShutter 0 2 0.1%float 0.1%float);
     Driver.Core AbortAcquisition]
  /\ Driver.instance
       (Driver.session_after
          (Driver.on_deactivate (sim_driver is_core_abort_or_shutter 20075))
          (fresh_session (with_shutter "open" (with_live true class_defaults))))
     = with_shutter "open" (with_live true class_defaults)
  /\ _live
       (Driver.instance
          (Driver.session_after
             (Driver.on_deactivate (sim_driver no_entry 0))
             (fresh_session (with_live true class_defaults))))
     = false.
Proof.
  destruct (on_deactivate_always_shuts_down
              (sim_driver is_core_abort_or_shutter 20075)
              (fresh_session (with_shutter "open"
                                (with_live true class_defaults))))
    as (T & _ & _ & Failed).
  - right. exists "DRV_NOT_INITIALIZED". split; reflexivity.
  - right. exists "DRV_NOT_INITIALIZED". split; reflexivity.
  - destruct (on_deactivate_always_shuts_down (sim_driver no_entry 0)
                (fresh_session (with_live true class_defaults)))
      as (_ & _ & Done & _).
    + left. reflexivity.
    + left. reflexivity.
    + split; [exact T |]. split.
      * apply Failed. exists "DRV_NOT_INITIALIZED". split; reflexivity.
      * rewrite Done by reflexivity. reflexivity.
Defined.

(** * The geometry *)

Lemma c_int_is_int32 (z : Z) : int32 (c_int z).
Proof.
  unfold int32, c_int.
  pose proof (Z.mod_pos_bound (z + 2147483648) 4294967296 ltac:(lia)). lia.
Qed.

Section KeepsGeometry.

Lemma keeps_geometry_ret {A} (a : A) : keeps_geometry (ret a).
Proof. intros w _ _. split; reflexivity. Qed.

Lemma keeps_geometry_raise {A} (e : exn) : keeps_geometry (@raise A e).
Proof. intros w _ _. split; reflexivity. Qed.

Lemma keeps_geometry_get_cam : keeps_geometry get_cam.
Proof. intros w _ _. split; reflexivity. Qed.

Lemma keeps_geometry_log (l : level) (fmt : string) (args : list logarg) :
  keeps_geometry (log l fmt args).
Proof. intros w _ _. split; reflexivity. Qed.

Lemma keeps_geometry_decode (error_code : Z) :
  keeps_geometry (decode error_code).
Proof.
  intros w _ _. unfold after, decode.
  destruct (lookup_code ERROR_DICT error_code); split; reflexivity.
Qed.

Lemma keeps_geometry_read_local {A} (v : option A) :
  keeps_geometry (read_local v).
Proof. intros w _ _. destruct v; split; reflexivity. Qed.

Lemma keeps_geometry_invoke
    (dll : list dll_call -> dll_call -> dll_reply) (c : dll_call) :
  keeps_geometry (invoke dll c).
Proof. intros w _ _. split; reflexivity. Qed.

Lemma keeps_geometry_assign (f : camera -> camera) :
  (forall c, _width (f c) = _width c /\ _height (f c) = _height c) ->
  keeps_geometry (assign f).
Proof. intros H w _ _. apply H. Qed.

Lemma keeps_geometry_bind {A B} (m : M A) (k : A -> M B) :
  keeps_geometry m -> (forall a, keeps_geometry (k a)) ->
  keeps_geometry (bind m k).
Proof.
  intros Hm Hk w Iw Ih. specialize (Hm w Iw Ih).
  unfold after, bind in *.
  destruct (m w) as [[a | e] w1]; cbn [fst snd] in *; [| exact Hm].
  destruct Hm as (Ew & Eh).
  destruct (Hk a w1) as (Ew' & Eh'); [now rewrite Ew | now rewrite Eh |].
  unfold after in *. split; congruence.
Qed.

Lemma keeps_geometry_for_each {A B} (f : A -> M B) (l : list A) :
  (forall a, keeps_geometry (f a)) -> keeps_geometry (for_each f l).
Proof.
  intros Hf. induction l as [| a rest IH]; cbn [for_each].
  - apply keeps_geometry_ret.
  - apply keeps_geometry_bind; [apply Hf |]. intros b.
    apply keeps_geometry_bind; [exact IH |]. intros bs.
    apply keeps_geometry_ret.
Qed.

End KeepsGeometry.

(** Splits a method into its steps and closes those that cannot touch the
    geometry. *)
Ltac geometry :=
  repeat first
    [ assumption
    | apply keeps_geometry_ret
    | apply keeps_geometry_raise
    | apply keeps_geometry_get_cam
    | apply keeps_geometry_log
    | apply keeps_geometry_decode
    | apply keeps_geometry_read_local
    | apply keeps_geometry_invoke
    | apply keeps_geometry_assign; intros ?; split; reflexivity
    | apply keeps_geometry_for_each; intros ?
    | apply keeps_geometry_bind; [| intros ?]
    | match goal with
      | |- keeps_geometry (if ?b then _ else _) => destruct b
      | |- keeps_geometry (when ?b _) => unfold when; destruct b
      | |- keeps_geometry (match ?x with Member _ => _ | _ => _ end) =>
          destruct x
      | |- keeps_geometry (let '(_, _) := ?p in _) => destruct p
      end ].

Section GeometryOfMethods.

Variable dll : list dll_call -> dll_call -> dll_reply.
Variable enum_class_attribute : string -> bool.

Lemma keeps_geometry_set_exposure (exposure : float) :
  keeps_geometry (set_exposure dll exposure).
Proof. unfold set_exposure. geometry. Qed.

Lemma keeps_geometry_set_trigger_mode (mode : string) :
  keeps_geometry (_set_trigger_mode dll enum_class_attribute mode).
Proof. unfold _set_trigger_mode. geometry. Qed.

Lemma keeps_geometry_set_acquisition_mode (mode : string) :
  keeps_geometry (_set_acquisition_mode dll enum_class_attribute mode).
Proof. unfold _set_acquisition_mode. geometry. Qed.

Lemma keeps_geometry_set_temperature (temp : Z) :
  keeps_geometry (_set_temperature dll temp).
Proof. unfold _set_temperature. geometry. Qed.

Lemma keeps_geometry_set_hs_speed (typ index : Z) :
  keeps_geometry (_set_hs_speed dll typ index).
Proof. unfold _set_hs_speed. geometry. Qed.

Lemma keeps_geometry_set_vs_speed (index : Z) :
  keeps_geometry (_set_vs_speed dll index).
Proof. unfold _set_vs_speed. geometry. Qed.

Lemma keeps_geometry_set_gain (gain : float) :
  keeps_geometry (set_gain dll gain).
Proof.
  unfold set_gain, fetch_gain_values, _get_number_preamp_gains,
    _set_preamp_gain, _get_preamp_gain.
  geometry.
Qed.

Lemma keeps_geometry_set_shutter (typ mode : Z) (closing opening : float) :
  keeps_geometry (_set_shutter dll typ mode closing opening).
Proof. unfold _set_shutter. geometry. Qed.

Lemma keeps_geometry_stop_acquisition : keeps_geometry (stop_acquisition dll).
Proof. unfold stop_acquisition, _abort_acquisition. geometry. Qed.

Lemma keeps_geometry_get_acquired_data :
  keeps_geometry (get_acquired_data dll).
Proof.
  unfold get_acquired_data, expected_dim, np_zeros, c_int_array, np_reshape.
  geometry.
  all: try match goal with
           | |- keeps_geometry (match ?x with Some _ => _ | None => _ end) =>
               destruct x as [[? ?] |]
           end; geometry.
Qed.

(** The full-frame sub-region writes the geometry back as it found it. *)
Lemma set_image_full_frame_keeps_geometry (w : world) :
  int32 (_width (cam w)) -> int32 (_height (cam w)) ->
  let m := _set_image dll 1 1 1 (_width (cam w)) 1 (_height (cam w)) in
  _width (cam (after m w)) = _width (cam w)
  /\ _height (cam (after m w)) = _height (cam w).
Proof.
  intros Iw Ih m. subst m. unfold _set_image, int_truediv.
  rewrite (c_int_small 1) by lia. change (1 =? 0) with false.
  rewrite !(c_int_small (_width (cam w))), !(c_int_small (_height (cam w)))
    by assumption.
  run.
  match goal with
  | |- context [decode (code ?r)] =>
      destruct (decode_cases (code r)) as [C L | msg C L S | C L]
  end;
    unfold decode; rewrite L; run;
    rewrite ?is_success_DRV_SUCCESS, ?S; run; rewrite ?L; cbn;
    rewrite ?Z.quot_1_r; split; lia.
Qed.

Lemma keeps_geometry_set_read_mode (mode : string) :
  keeps_geometry (_set_read_mode dll enum_class_attribute mode).
Proof.
  intros w Iw Ih.
  pose proof (set_image_full_frame_keeps_geometry w Iw Ih) as G.
  cbn zeta in G. unfold after in G |- *.
  unfold _set_read_mode.
  destruct (find_attribute enum_class_attribute ReadMode mode) as [n_mode | |];
    run; [| split; reflexivity | split; reflexivity].
  set (r := dll (calls w) (SetReadMode (c_int n_mode))).
  destruct (String.eqb mode "IMAGE").
  - run.
    set (w1 := {| cam := cam w; calls := _ :: calls w; logs := _ :: logs w |}).
    assert (G1 : _width (cam (snd (_set_image dll 1 1 1 (_width (cam w)) 1
                                              (_height (cam w)) w1)))
                 = _width (cam w)
                 /\ _height (cam (snd (_set_image dll 1 1 1 (_width (cam w)) 1
                                                  (_height (cam w)) w1)))
                    = _height (cam w)).
    { apply (set_image_full_frame_keeps_geometry w1); assumption. }
    destruct (_set_image dll 1 1 1 (_width (cam w)) 1 (_height (cam w)) w1)
      as [[msg | e] w2]; cbn [fst snd] in *; [| exact G1].
    destruct (is_success msg); cbn [negb];
      destruct (decode_cases (code r)) as [C L | msg' C L S | C L];
      unfold decode; rewrite ?L; run; rewrite ?L; run;
      rewrite ?is_success_DRV_SUCCESS, ?S; run; exact G1.
  - run.
    destruct (decode_cases (code r)) as [C L | msg' C L S | C L];
      unfold decode; rewrite ?L; run;
      rewrite ?is_success_DRV_SUCCESS, ?S; run; split; reflexivity.
Qed.

Lemma keeps_geometry_start_single_acquisition :
  keeps_geometry (start_single_acquisition dll enum_class_attribute).
Proof.
  unfold start_single_acquisition, _start_acquisition.
  pose proof (keeps_geometry_set_read_mode "IMAGE").
  pose proof (keeps_geometry_set_acquisition_mode "SINGLE_SCAN").
  pose proof (keeps_geometry_set_trigger_mode "INTERNAL").
  pose proof (keeps_geometry_set_shutter 0 1 0.1%float 0.1%float).
  geometry.
Qed.

End GeometryOfMethods.

Section ReadOnlyGeometry.

Variable dll : list dll_call -> dll_call -> dll_reply.
Variable enum_class_attribute : string -> bool.

(** X21. The geometry is read-only outside [_set_image]: on an instance
    whose width and height are 32-bit values, the exposure, gain,
    read-mode, trigger-mode, acquisition-mode, temperature and
    readout-speed setters, the start and stop of an acquisition and the
    retrieval of a frame all leave width and height as they were, whatever
    the transport answers and however they end; the read-mode setter does
    so although, for 'IMAGE', it applies a sub-region. *)
Theorem only_set_image_moves_the_geometry :
  (forall exposure, keeps_geometry (set_exposure dll exposure))
  /\ (forall gain, keeps_geometry (set_gain dll gain))
  /\ (forall mode,
         keeps_geometry (_set_read_mode dll enum_class_attribute mode))
  /\ (forall mode,
         keeps_geometry (_set_trigger_mode dll enum_class_attribute mode))
  /\ (forall mode,
         keeps_geometry (_set_acquisition_mode dll enum_class_attribute mode))
  /\ (forall temp, keeps_geometry (_set_temperature dll temp))
  /\ (forall typ index, keeps_geometry (_set_hs_speed dll typ index))
  /\ (forall index, keeps_geometry (_set_vs_speed dll index))
  /\ keeps_geometry (start_single_acquisition dll enum_class_attribute)
  /\ keeps_geometry (stop_acquisition dll)
  /\ keeps_geometry (get_acquired_data dll).
Proof.
  split; [intros; apply keeps_geometry_set_exposure |].
  split; [intros; apply keeps_geometry_set_gain |].
  split; [intros; apply keeps_geometry_set_read_mode |].
  split; [intros; apply keeps_geometry_set_trigger_mode |].
  split; [intros; apply keeps_geometry_set_acquisition_mode |].
  split; [intros; apply keeps_geometry_set_temperature |].
  split; [intros; apply keeps_geometry_set_hs_speed |].
  split; [intros; apply keeps_geometry_set_vs_speed |].
  split; [apply keeps_geometry_start_single_acquisition |].
  split; [apply keeps_geometry_stop_acquisition |].
  apply keeps_geometry_get_acquired_data.
Qed.

End ReadOnlyGeometry.

Lemma only_set_image_moves_the_geometry_witness :
  _width (cam (after (_set_read_mode (sim_dll never 0) dunder "IMAGE")
                     (fresh (with_read_mode "FVB" (detector 512 256)))))
  = 512
  /\ _height (cam (after (start_single_acquisition
                            (sim_dll is_set_image 20067) dunder)
                         (fresh (with_read_mode "FVB" (detector 512 256)))))
     = 256
  /\ _width (cam (after (set_gain (sim_dll never 0) 2.4%float)
                        (fresh (detector 512 256))))
     = 512.
Proof.
  destruct (only_set_image_moves_the_geometry (sim_dll never 0) dunder)
    as (_ & Gain & Read & _).
  destruct (only_set_image_moves_the_geometry (sim_dll is_set_image 20067)
              dunder)
    as (_ & _ & _ & _ & _ & _ & _ & _ & Start & _).
  split; [| split].
  - apply (Read "IMAGE" (fresh (with_read_mode "FVB" (detector 512 256))));
      unfold int32; cbn; lia.
  - apply (Start (fresh (with_read_mode "FVB" (detector 512 256))));
      unfold int32; cbn; lia.
  - apply (Gain 2.4%float (fresh (detector 512 256)));
      unfold int32; cbn; lia.
Defined.

(** ** Activation *)

Section SessionGeometry.

Variable driver : list Driver.entry_point -> Driver.entry_point
                  -> Driver.driver_reply.

Lemma session_keeps_geometry_sret {A} (a : A) :
  session_keeps_geometry (Driver.sret a).
Proof. intros s _ _. split; reflexivity. Qed.

Lemma session_keeps_geometry_sget : session_keeps_geometry Driver.sget.
Proof. intros s _ _. split; reflexivity. Qed.

Lemma session_keeps_geometry_call (e : Driver.entry_point) :
  session_keeps_geometry (Driver.call driver e).
Proof. intros s _ _. split; reflexivity. Qed.

Lemma session_keeps_geometry_sdecode (error_code : Z) :
  session_keeps_geometry (Driver.sdecode error_code).
Proof.
  intros s _ _. unfold Driver.session_after, Driver.sdecode.
  destruct (lookup_code ERROR_DICT error_code); split; reflexivity.
Qed.

Lemma session_keeps_geometry_sbind {A B} (m : Driver.S A)
    (k : A -> Driver.S B) :
  session_keeps_geometry m -> (forall a, session_keeps_geometry (k a)) ->
  session_keeps_geometry (Driver.sbind m k).
Proof.
  intros Hm Hk s Iw Ih. specialize (Hm s Iw Ih).
  unfold Driver.session_after, Driver.sbind in *.
  destruct (m s) as [[a | e] s1]; cbn [fst snd] in *; [| exact Hm].
  destruct Hm as (Ew & Eh).
  destruct (Hk a s1) as (Ew' & Eh'); [now rewrite Ew | now rewrite Eh |].
  unfold Driver.session_after in *. split; congruence.
Qed.

Lemma session_keeps_geometry_core {A}
    (m : (list dll_call -> dll_call -> dll_reply) -> M A) :
  (forall dll, keeps_geometry (m dll)) ->
  session_keeps_geometry (Driver.core driver m).
Proof.
  intros Hm s Iw Ih. unfold Driver.session_after, Driver.core.
  specialize (Hm (Driver.core_dll driver (Driver.trace s))
                 {| cam := Driver.instance s; calls := [];
                    logs := Driver.journal s |} Iw Ih).
  unfold after in Hm.
  destruct (m (Driver.core_dll driver (Driver.trace s))
              {| cam := Driver.instance s; calls := [];
                 logs := Driver.journal s |}) as [o w].
  exact Hm.
Qed.

Lemma session_keeps_geometry_set_cooler (state : bool) :
  session_keeps_geometry (Driver._set_cooler driver state).
Proof.
  unfold Driver._set_cooler.
  apply session_keeps_geometry_sbind;
    [destruct state; apply session_keeps_geometry_call |].
  intros r. apply session_keeps_geometry_sdecode.
Qed.

Lemma session_keeps_geometry_set_output_amplifier (typ : Z) :
  session_keeps_geometry (Driver._set_output_amplifier driver typ).
Proof.
  unfold Driver._set_output_amplifier.
  apply session_keeps_geometry_sbind; [apply session_keeps_geometry_call |].
  intros r. apply session_keeps_geometry_sdecode.
Qed.

End SessionGeometry.

Lemma sbind_returned {A B} (m : Driver.S A) (k : A -> Driver.S B)
    (s s1 : Driver.session) (a : A) :
  m s = (Return a, s1) -> Driver.sbind m k s = k a s1.
Proof. intros E. unfold Driver.sbind. now rewrite E. Qed.

Section Activation.

Variable driver : list Driver.entry_point -> Driver.entry_point
                  -> Driver.driver_reply.
Variable enum_class_attribute : string -> bool.

(** X22. [on_activate] fixes the geometry once: after it, whatever the
    settings it goes on to apply were answered and wherever it stopped, the
    width and height of the instance are the two values GetDetector wrote
    (as 32-bit values) when that call reported success, and -1 and -1 when
    it reported a failure; in that case the activation still goes on with
    that geometry. *)
Theorem on_activate_fixes_the_geometry (s : Driver.session) :
  let m := Driver.on_activate driver enum_class_attribute in
  let r := driver (Driver.Initialize :: Driver.trace s) Driver.GetDetector in
  let c' := Driver.instance (Driver.session_after m s) in
  (reports_success (Driver.basic r) ->
   _width c' = c_int (out_int (Driver.basic r))
   /\ _height c' = c_int (Driver.out_int2 r))
  /\ (reports_failure (Driver.basic r) ->
      _width c' = -1 /\ _height c' = -1).
Proof.
  intros m r c'.
  assert (D : (reports_success (Driver.basic r) ->
               Driver._get_detector driver
                 (Driver.session_after (Driver.call driver Driver.Initialize) s)
               = (Return (c_int (out_int (Driver.basic r)),
                          c_int (Driver.out_int2 r)),
                  snd (Driver._get_detector driver
                         (Driver.session_after
                            (Driver.call driver Driver.Initialize) s))))
              /\ (reports_failure (Driver.basic r) ->
                  Driver._get_detector driver
                    (Driver.session_after
                       (Driver.call driver Driver.Initialize) s)
                  = (Return (-1, -1),
                     snd (Driver._get_detector driver
                            (Driver.session_after
                               (Driver.call driver Driver.Initialize) s))))).
  { unfold reports_success, reports_failure, Driver._get_detector.
    split.
    - intros Ok.
      erewrite sbind_returned by reflexivity.
      cbn [Driver.trace Driver.session_after Driver.call snd]. fold r.
      erewrite sbind_returned by (apply sdecode_success; exact Ok).
      rewrite is_success_DRV_SUCCESS. reflexivity.
    - intros (msg & L & S).
      erewrite sbind_returned by reflexivity.
      cbn [Driver.trace Driver.session_after Driver.call snd]. fold r.
      erewrite sbind_returned by (apply sdecode_failure; exact L).
      rewrite S. cbn [negb].
      erewrite sbind_returned by reflexivity. reflexivity. }
  assert (G : forall W H,
             int32 W -> int32 H ->
             Driver._get_detector driver
               (Driver.session_after (Driver.call driver Driver.Initialize) s)
             = (Return (W, H),
                snd (Driver._get_detector driver
                       (Driver.session_after
                          (Driver.call driver Driver.Initialize) s))) ->
             _width c' = W /\ _height c' = H).
  { intros W H IW IH E. subst c' m.
    unfold Driver.session_after at 1 2. unfold Driver.on_activate.
    erewrite sbind_returned by reflexivity.
    erewrite sbind_returned by exact E.
    erewrite sbind_returned by reflexivity.
    erewrite sbind_returned by reflexivity.
    match goal with
    | |- _width (Driver.instance (snd (?rest ?s3))) = _ /\ _ =>
        assert (K : session_keeps_geometry rest);
        [| destruct (K s3) as (Kw & Kh);
           [exact IW | exact IH
           | split; [exact (eq_trans Kw eq_refl) | exact (eq_trans Kh eq_refl)] ] ]
    end.
    repeat first
      [ apply session_keeps_geometry_sret
      | apply session_keeps_geometry_sget
      | apply session_keeps_geometry_set_cooler
      | apply session_keeps_geometry_set_output_amplifier
      | apply session_keeps_geometry_core; intros dll;
        first [ apply keeps_geometry_set_read_mode
              | apply keeps_geometry_set_trigger_mode
              | apply keeps_geometry_set_exposure
              | apply keeps_geometry_set_acquisition_mode
              | apply keeps_geometry_set_gain
              | apply keeps_geometry_set_temperature
              | apply keeps_geometry_set_hs_speed
              | apply keeps_geometry_set_vs_speed ]
      | apply session_keeps_geometry_sbind; [| intros ?] ]. }
  destruct D as (Dok & Dko). split.
  - intros Ok. apply G; [apply c_int_is_int32 | apply c_int_is_int32 |].
    exact (Dok Ok).
  - intros Ko. apply G; [unfold int32; lia | unfold int32; lia |].
    exact (Dko Ko).
Qed.

End Activation.

Lemma on_activate_fixes_the_geometry_witness :
  (_width (Driver.instance
             (Driver.session_after
                (Driver.on_activate (sim_driver no_entry 0) dunder)
                (fresh_session class_defaults))) = 512
   /\ _height (Driver.instance
                 (Driver.session_after
                    (Driver.on_activate (sim_driver no_entry 0) dunder)
                    (fresh_session class_defaults))) = 512)
  /\ (_width (Driver.instance
                (Driver.session_after
                   (Driver.on_activate (sim_driver is_get_detector 20990)
                                       dunder)
                   (fresh_session class_defaults))) = -1
      /\ _height (Driver.instance
                    (Driver.session_after
                       (Driver.on_activate (sim_driver is_get_detector 20990)
                                           dunder)
                       (fresh_session class_defaults))) = -1).
Proof.
  split.
  - destruct (on_activate_fixes_the_geometry (sim_driver no_entry 0) dunder
                (fresh_session class_defaults)) as (Ok & _).
    apply Ok. reflexivity.
  - destruct (on_activate_fixes_the_geometry
                (sim_driver is_get_detector 20990) dunder
                (fresh_session class_defaults)) as (_ & Ko).
    apply Ko. exists "DRV_NOCAMERA". split; reflexivity.
Defined.
